(** * MediTrack: persistence and synchronisation of the patient-records views

    A shallow embedding of the TypeScript sources of the application
    (lib/db.ts, components/sql/SqlConsole.tsx in its two variants,
    components/patients/PatientForm.tsx in its variants) and the
    properties of its specification that are settled on it.

    Conventions.  Asynchronous functions are run to completion, one after
    the other (the tab is single threaded and every store call is
    awaited).  A function that mutates React state or the store is a
    computation in a state-and-exception monad; whatever it changed
    before an exception stays changed, as in the source.  Readings of
    the clock, the random id and the timings are explicit arguments. *)

From Stdlib Require Import List String Ascii ZArith Bool Lia Arith.
From Stdlib Require Import DecimalString.
Import ListNotations.
Open Scope string_scope.
Open Scope Z_scope.
Open Scope list_scope.
Set Warnings "-register-all".

(** ** JavaScript values *)

Module Js.

(** A number is an integer (below 10^21 in absolute value, so that it
    prints in plain decimal) or NaN; other floating point values do not
    occur in the modelled code paths. *)
Inductive Num : Type :=
| NaN
| Fin (z : Z).

(** Values of type [any].  An object is the list of its own enumerable
    properties in enumeration order (what [Object.keys] walks). *)
Inductive Value : Type :=
| JUndefined
| JNull
| JBool (b : bool)
| JNum (n : Num)
| JBigInt (z : Z)
| JStr (s : string)
| JArr (items : list Value)
| JObj (props : list (string * Value)).

Definition Object : Type := list (string * Value).

(** [ToBoolean]. *)
Definition truthy (v : Value) : bool :=
  match v with
  | JUndefined | JNull => false
  | JBool b => b
  | JNum NaN => false
  | JNum (Fin z) => negb (z =? 0)
  | JBigInt z => negb (z =? 0)
  | JStr s => negb (s =? "")%string
  | JArr _ | JObj _ => true
  end.

(** [o.k]: the value of property [k], [undefined] when absent. *)
Fixpoint get (k : string) (o : Object) : Value :=
  match o with
  | [] => JUndefined
  | (k', v) :: o' => if (k' =? k)%string then v else get k o'
  end.

(** [o.k = v]: overwrite in place, or add as the last property (the
    keys are column names; a key that is an array index, which
    JavaScript enumerates first, is outside the model). *)
Fixpoint set (k : string) (v : Value) (o : Object) : Object :=
  match o with
  | [] => [(k, v)]
  | (k', v') :: o' =>
      if (k' =? k)%string then (k, v) :: o' else (k', v') :: set k v o'
  end.

Definition keys (o : Object) : list string := map fst o.

(** [xs.includes(x)] and [xs.indexOf(x)] on an array of strings. *)
Definition includes (x : string) (xs : list string) : bool :=
  existsb (String.eqb x) xs.

Fixpoint indexOf (x : string) (xs : list string) : option nat :=
  match xs with
  | [] => None
  | y :: ys =>
      if (y =? x)%string then Some 0%nat
      else option_map S (indexOf x ys)
  end.

(** [xs.splice(i, 0, x)]. *)
Definition splice_insert {A} (i : nat) (x : A) (xs : list A) : list A :=
  firstn i xs ++ x :: skipn i xs.

(** [xs.slice(-n)]: the last [n] elements. *)
Definition slice_last {A} (n : nat) (xs : list A) : list A :=
  skipn (List.length xs - n) xs.

Definition decimal (z : Z) : string := NilZero.string_of_int (Z.to_int z).

Definition Number_toString (n : Num) : string :=
  match n with
  | NaN => "NaN"
  | Fin z => decimal z
  end.

(** *** JSON.stringify *)

Definition quote_char : ascii := "034"%char.

Definition hex_digit (n : nat) : ascii :=
  match n with
  | 0 => "0" | 1 => "1" | 2 => "2" | 3 => "3" | 4 => "4" | 5 => "5"
  | 6 => "6" | 7 => "7" | 8 => "8" | 9 => "9" | 10 => "a" | 11 => "b"
  | 12 => "c" | 13 => "d" | 14 => "e" | _ => "f"
  end%nat%char.

(** The escape of one character inside a JSON string literal. *)
Definition escape (c : ascii) : string :=
  let n := nat_of_ascii c in
  if (n =? 34)%nat then String "\" (String quote_char "")
  else if (n =? 92)%nat then "\\"
  else if (n =? 8)%nat then "\b"
  else if (n =? 9)%nat then "\t"
  else if (n =? 10)%nat then "\n"
  else if (n =? 12)%nat then "\f"
  else if (n =? 13)%nat then "\r"
  else if (n <? 32)%nat then
    ("\u00" ++ String (hex_digit (n / 16)) (String (hex_digit (n mod 16)) ""))%string
  else String c "".

Fixpoint escape_all (s : string) : string :=
  match s with
  | EmptyString => ""
  | String c s' => (escape c ++ escape_all s')%string
  end.

Definition quote (s : string) : string :=
  String quote_char (escape_all s ++ String quote_char "")%string.

(** What serialising a value yields: a text, [undefined] (the value is
    left out of an object and written as null in an array), or a
    TypeError. *)
Inductive Ser : Type :=
| SThrow
| SUndefined
| SText (t : string).

Fixpoint serialize (v : Value) : Ser :=
  match v with
  | JUndefined => SUndefined
  | JNull => SText "null"
  | JBool b => SText (if b then "true" else "false")
  | JNum NaN => SText "null"
  | JNum (Fin z) => SText (decimal z)
  | JBigInt _ => SThrow
  | JStr s => SText (quote s)
  | JArr items =>
      let fix elements (l : list Value) : option (list string) :=
        match l with
        | [] => Some []
        | x :: l' =>
            match serialize x with
            | SThrow => None
            | SUndefined => option_map (cons "null") (elements l')
            | SText t => option_map (cons t) (elements l')
            end
        end in
      match elements items with
      | None => SThrow
      | Some parts => SText ("[" ++ String.concat "," parts ++ "]")%string
      end
  | JObj props =>
      let fix members (l : list (string * Value)) : option (list string) :=
        match l with
        | [] => Some []
        | (k, x) :: l' =>
            match serialize x with
            | SThrow => None
            | SUndefined => members l'
            | SText t => option_map (cons (quote k ++ ":" ++ t)%string) (members l')
            end
        end in
      match members props with
      | None => SThrow
      | Some parts => SText ("{" ++ String.concat "," parts ++ "}")%string
      end
  end.

(** [JSON.stringify(v)] for a [v] whose [typeof] is ['object'] (the only
    use in the sources); [None] is the TypeError. *)
Definition JSON_stringify (v : Value) : option string :=
  match serialize v with
  | SText t => Some t
  | SThrow | SUndefined => None
  end.

(** *** Strings *)

(** White space removed by [trim], among the ASCII characters; a text
    with other white space (U+00A0, U+FEFF, the separators of Unicode)
    is outside the model. *)
Definition is_space (c : ascii) : bool :=
  let n := nat_of_ascii c in
  ((n =? 32) || (n =? 9) || (n =? 10) || (n =? 11) || (n =? 12) || (n =? 13))%nat.

(** [!s.trim()]: the text is empty once trimmed. *)
Fixpoint blank (s : string) : bool :=
  match s with
  | EmptyString => true
  | String c s' => is_space c && blank s'
  end.

(** ASCII letters only: other characters are left as they are, so a
    text with letters outside ASCII is outside the model. *)
Definition upper_char (c : ascii) : ascii :=
  let n := nat_of_ascii c in
  if ((97 <=? n) && (n <=? 122))%nat then ascii_of_nat (n - 32) else c.

Definition lower_char (c : ascii) : ascii :=
  let n := nat_of_ascii c in
  if ((65 <=? n) && (n <=? 90))%nat then ascii_of_nat (n + 32) else c.

Fixpoint toLowerCase (s : string) : string :=
  match s with
  | EmptyString => ""
  | String c s' => String (lower_char c) (toLowerCase s')
  end.

(** [s.split(sep)] for a one-character separator. *)
Fixpoint split (sep : ascii) (s : string) : list string :=
  match s with
  | EmptyString => [""]
  | String c s' =>
      if Ascii.eqb c sep then "" :: split sep s'
      else match split sep s' with
           | [] => [String c ""]
           | w :: ws => String c w :: ws
           end
  end.

(** *** Dates *)

(** A valid [Date], by the fields the sources read in local time:
    [getFullYear()], [getMonth()] (0 to 11) and [getDate()] (1 to 31). *)
Record Date : Type := mkDate {
  getFullYear : Z;
  getMonth : Z;
  getDate : Z
}.

(** [xs.slice(a, b)] for indices within [0, length]. *)
Definition slice {A} (a b : nat) (xs : list A) : list A :=
  firstn (b - a) (skipn a xs).

(** *** String(v) *)

(** An array prints its elements joined by commas, the null and
    undefined ones as nothing; a plain object prints as a fixed text. *)
Fixpoint ToString (v : Value) : string :=
  match v with
  | JUndefined => "undefined"
  | JNull => "null"
  | JBool b => if b then "true" else "false"
  | JNum n => Number_toString n
  | JBigInt z => decimal z
  | JStr s => s
  | JArr items =>
      String.concat ","
        (map (fun i =>
                match i with
                | JUndefined | JNull => ""
                | _ => ToString i
                end) items)
  | JObj _ => "[object Object]"
  end.

(** [{ ...a, ...b }]: the properties of [a], overwritten and followed by
    those of [b]. *)
Definition spread (a b : Object) : Object :=
  fold_left (fun o kv => set (fst kv) (snd kv) o) b a.

End Js.

(** ** Computations that change a state and may throw *)

Inductive Result (A : Type) : Type :=
| Ok (a : A)
| Thrown (message : string).
Arguments Ok {A} a.
Arguments Thrown {A} message.

(** A computation over a state [S]: the state it leaves is kept also
    when it throws. *)
Definition M (S A : Type) : Type := S -> Result A * S.

Definition ret {S A} (a : A) : M S A := fun s => (Ok a, s).

Definition bind {S A B} (m : M S A) (k : A -> M S B) : M S B :=
  fun s =>
    match m s with
    | (Ok a, s') => k a s'
    | (Thrown e, s') => (Thrown e, s')
    end.

Definition throw {S A} (e : string) : M S A := fun s => (Thrown e, s).

(** [try { body } catch (err) { handler }] *)
Definition try_catch {S A} (body : M S A) (handler : string -> M S A) : M S A :=
  fun s =>
    match body s with
    | (Ok a, s') => (Ok a, s')
    | (Thrown e, s') => handler e s'
    end.

(** [try { body } finally { cleanup }] *)
Definition try_finally {S A} (body : M S A) (cleanup : M S unit) : M S A :=
  fun s =>
    match body s with
    | (r, s') =>
        match cleanup s' with
        | (Ok _, s'') => (r, s'')
        | (Thrown e, s'') => (Thrown e, s'')
        end
    end.

Definition get_state {S} : M S S := fun s => (Ok s, s).
Definition modify {S} (f : S -> S) : M S unit := fun s => (Ok tt, f s).

(** The state a computation leaves, and its outcome. *)
Definition exec {S A} (m : M S A) (s : S) : S := snd (m s).
Definition outcome {S A} (m : M S A) (s : S) : Result A := fst (m s).

Declare Scope js_scope.
Delimit Scope js_scope with js.
Notation "x <- m ;; k" := (bind m (fun x => k))
  (at level 61, m at next level, right associativity) : js_scope.
Notation "m ;; k" := (bind m (fun _ => k))
  (at level 61, right associativity) : js_scope.
Open Scope js_scope.

(** ** lib/db.ts *)

Module db.
Import Js.

(** [interface Patient] *)
Record Patient : Type := mkPatient {
  id : string;
  firstName : string;
  lastName : string;
  dateOfBirth : string;
  gender : string;
  email : string;
  phone : string;
  address : string;
  insuranceProvider : string;
  insuranceNumber : string;
  medicalConditions : string;
  medications : string;
  allergies : string;
  createdAt : string;
  updatedAt : string
}.

(** A row of table [patients] ([initializeDb]): the columns declared
    [NOT NULL] hold a text, the others a text or NULL. *)
Record PatientRow : Type := mkPatientRow {
  row_id : string;
  first_name : string;
  last_name : string;
  date_of_birth : string;
  row_gender : string;
  row_email : option string;
  row_phone : option string;
  row_address : option string;
  insurance_provider : option string;
  insurance_number : option string;
  medical_conditions : option string;
  row_medications : option string;
  row_allergies : option string;
  created_at : string;
  updated_at : string
}.

(** A row of [form_persistence (form_id, form_data, updated_at)] or of
    [sql_settings (key, value, updated_at)]: primary key, text, stamp. *)
Record Entry : Type := mkEntry {
  entry_key : string;
  entry_value : string;
  entry_updated_at : string
}.

Record Store : Type := mkStore {
  patients : list PatientRow;
  form_persistence : list Entry;
  sql_settings : list Entry
}.

(** The statements the application hands to [db.query] / [db.exec]. *)
Inductive Stmt : Type :=
| CreateSettingsTable
      (* CREATE TABLE IF NOT EXISTS sql_settings (...) *)
| SelectSetting (key : string)
      (* SELECT value FROM sql_settings WHERE key = $1 *)
| DeleteSettings (keys : list string)
      (* DELETE FROM sql_settings WHERE key IN ($1, $2, $3) *)
| UpsertSetting (key value now : string)
      (* INSERT INTO sql_settings ... ON CONFLICT (key) DO UPDATE ... *)
| SelectForm (form_id : string)
      (* SELECT form_data FROM form_persistence WHERE form_id = $1 *)
| DeleteForm (form_id : string)
      (* DELETE FROM form_persistence WHERE form_id = $1 *)
| UpsertForm (form_id form_data now : string)
      (* INSERT INTO form_persistence ... ON CONFLICT (form_id) DO UPDATE ... *)
| InsertPatient (params : list string)
      (* INSERT INTO patients (...) VALUES ($1, ..., $15) *)
| Verbatim (text : string).
      (* the text typed into the console, as it is *)

(** *** The engine on the fixed statements *)

(** [INSERT ... ON CONFLICT (key) DO UPDATE SET value = $2,
    updated_at = $3]: the row holding the key is rewritten, and a row is
    added when there is none. *)
Fixpoint upsert (k v now : string) (t : list Entry) : list Entry :=
  match t with
  | [] => [mkEntry k v now]
  | r :: t' =>
      if (entry_key r =? k)%string then mkEntry k v now :: t'
      else r :: upsert k v now t'
  end.

(** [SELECT value FROM t WHERE key = k]: the values of the rows found. *)
Definition select (k : string) (t : list Entry) : list string :=
  map entry_value (filter (fun r => (entry_key r =? k)%string) t).

(** [DELETE FROM t WHERE key IN (ks)] *)
Definition delete (ks : list string) (t : list Entry) : list Entry :=
  filter (fun r => negb (includes (entry_key r) ks)) t.

(** The row the fifteen parameters of the INSERT make. *)
Definition row_of_params (params : list string) : option PatientRow :=
  match params with
  | [p1; p2; p3; p4; p5; p6; p7; p8; p9; p10; p11; p12; p13; p14; p15] =>
      Some (mkPatientRow p1 p2 p3 p4 p5 (Some p6) (Some p7) (Some p8)
              (Some p9) (Some p10) (Some p11) (Some p12) (Some p13) p14 p15)
  | _ => None
  end.

Definition has_id (i : string) (t : list PatientRow) : bool :=
  existsb (fun r => (row_id r =? i)%string) t.

(** [INSERT INTO patients]: refused when the primary key is taken. *)
Definition insert_patient (params : list string) (t : list PatientRow)
  : Result (list PatientRow) :=
  match row_of_params params with
  | None => Thrown "bind message supplies the wrong number of parameters"
  | Some r =>
      if has_id (row_id r) t
      then Thrown "duplicate key value violates unique constraint"
      else Ok (t ++ [r])
  end.

(** What [db.query] resolves to. *)
Record QueryResult : Type := mkQueryResult {
  rows : option (list Object);
  rowCount : option Z
}.

(** The engine and the JavaScript host, where the sources call into
    them with data of the user: [new Date(v)] in the local time zone
    ([None]: Invalid Date), [JSON.parse] ([None]: SyntaxError), and
    [db.query(text)] for a free SQL text (rejected, or resolved with a
    result and the store it leaves). *)
Class Host : Type := mkHost {
  new_Date : Value -> option Date;
  JSON_parse : string -> option Value;
  pglite_query : string -> Store -> Result QueryResult * Store
}.

(** [{ type, data, timestamp }] *)
Record Message : Type := mkMessage {
  type : string;
  data : Value;
  timestamp : Z
}.

(** [toast({ variant, title, description })] *)
Record Toast : Type := mkToast {
  destructive : bool;
  title : string;
  description : string
}.

(** What [getBroadcastChannel] finds. *)
Inductive Channel : Type :=
| NoWindow
      (* typeof window === 'undefined' *)
| NoBroadcastChannel
      (* new BroadcastChannel(...) throws *)
| ChannelOpen.

(** What a tab acts on outside its React state. *)
Record World : Type := mkWorld {
  store : Store;
  issued : list Stmt;            (* statements sent to the engine, oldest first *)
  channel : Channel;
  posted : list Message;         (* channel.postMessage, oldest first *)
  toasts : list Toast;
  console_error : list string;   (* console.error, oldest first *)
  localStorage : list (string * string)
}.

Definition with_store (f : Store -> Store) (w : World) : World :=
  mkWorld (f (store w)) (issued w) (channel w) (posted w) (toasts w)
    (console_error w) (localStorage w).

Definition with_localStorage
  (f : list (string * string) -> list (string * string)) (w : World) : World :=
  mkWorld (store w) (issued w) (channel w) (posted w) (toasts w)
    (console_error w) (f (localStorage w)).

Definition send (s : Stmt) (w : World) : World :=
  mkWorld (store w) (issued w ++ [s]) (channel w) (posted w) (toasts w)
    (console_error w) (localStorage w).

Definition postMessage (m : Message) (w : World) : World :=
  mkWorld (store w) (issued w) (channel w) (posted w ++ [m]) (toasts w)
    (console_error w) (localStorage w).

Definition toast (t : Toast) : M World unit :=
  modify (fun w =>
    mkWorld (store w) (issued w) (channel w) (posted w) (toasts w ++ [t])
      (console_error w) (localStorage w)).

Definition console_error_ (line : string) : M World unit :=
  modify (fun w =>
    mkWorld (store w) (issued w) (channel w) (posted w) (toasts w)
      (console_error w ++ [line]) (localStorage w)).

(** The handle [useDb] gives a component: [null] until the store is
    open, then the singleton instance. *)
Inductive Handle : Type :=
| NullDb
| Pglite.

Definition is_null (h : Handle) : bool :=
  match h with NullDb => true | Pglite => false end.

(** A computation on the world, run by a component whose React state
    is [V]. *)
Definition inWorld {V A} (m : M World A) : M (V * World) A :=
  fun t =>
    match m (snd t) with
    | (r, w') => (r, (fst t, w'))
    end.

(** [localStorage.getItem], [setItem] and [removeItem]. *)
Fixpoint getItem (k : string) (l : list (string * string)) : option string :=
  match l with
  | [] => None
  | (k', v) :: l' => if (k' =? k)%string then Some v else getItem k l'
  end.

Fixpoint setItem_ (k v : string) (l : list (string * string))
  : list (string * string) :=
  match l with
  | [] => [(k, v)]
  | (k', v') :: l' =>
      if (k' =? k)%string then (k, v) :: l' else (k', v') :: setItem_ k v l'
  end.

Definition setItem (k v : string) : M World unit :=
  modify (with_localStorage (setItem_ k v)).

Definition removeItem (k : string) : M World unit :=
  modify (with_localStorage
            (filter (fun kv => negb (fst kv =? k)%string))).

(** *** Statements sent through the handle *)

Definition select_setting (k : string) : M World (list string) :=
  fun w => (Ok (select k (sql_settings (store w))), send (SelectSetting k) w).

Definition delete_settings (ks : list string) : M World unit :=
  modify (fun w =>
    with_store (fun s =>
      mkStore (patients s) (form_persistence s) (delete ks (sql_settings s)))
      (send (DeleteSettings ks) w)).

Definition upsert_setting (k v now : string) : M World unit :=
  modify (fun w =>
    with_store (fun s =>
      mkStore (patients s) (form_persistence s) (upsert k v now (sql_settings s)))
      (send (UpsertSetting k v now) w)).

Definition upsert_form (k v now : string) : M World unit :=
  modify (fun w =>
    with_store (fun s =>
      mkStore (patients s) (upsert k v now (form_persistence s)) (sql_settings s))
      (send (UpsertForm k v now) w)).

Definition select_form (k : string) : M World (list string) :=
  fun w => (Ok (select k (form_persistence (store w))), send (SelectForm k) w).

Definition delete_form (k : string) : M World unit :=
  modify (fun w =>
    with_store (fun s =>
      mkStore (patients s) (delete [k] (form_persistence s)) (sql_settings s))
      (send (DeleteForm k) w)).

Definition create_settings_table : M World unit :=
  modify (send CreateSettingsTable).

Definition query_insert_patient (params : list string) : M World unit :=
  fun w =>
    let w' := send (InsertPatient params) w in
    match insert_patient params (patients (store w)) with
    | Ok t =>
        (Ok tt, with_store (fun s =>
                  mkStore t (form_persistence s) (sql_settings s)) w')
    | Thrown e => (Thrown e, w')
    end.

Definition query_verbatim `{Host} (text : string) : M World QueryResult :=
  fun w =>
    let w' := send (Verbatim text) w in
    match pglite_query text (store w) with
    | (r, s') => (r, with_store (fun _ => s') w')
    end.

(** *** patientToSqlParams *)

Definition patientToSqlParams (patient : Patient) : list string :=
  [ id patient;
    firstName patient;
    lastName patient;
    dateOfBirth patient;
    gender patient;
    email patient;
    phone patient;
    address patient;
    insuranceProvider patient;
    insuranceNumber patient;
    medicalConditions patient;
    medications patient;
    allergies patient;
    createdAt patient;
    updatedAt patient ].

(** *** saveToPGlite *)

(** [typeof value === 'object' ? JSON.stringify(value) : String(value)];
    [None] when [JSON.stringify] throws. *)
Definition stringValue (value : Value) : option string :=
  match value with
  | JNull | JArr _ | JObj _ => JSON_stringify value
  | JUndefined => Some "undefined"
  | JBool b => Some (if b then "true" else "false")
  | JNum n => Some (Number_toString n)
  | JBigInt z => Some (decimal z)
  | JStr s => Some s
  end.

(** [now] is [new Date().toISOString()] at the call. *)
Definition saveToPGlite (db : Handle) (tableName key : string) (value : Value)
  (now : string) : M World unit :=
  if is_null db then ret tt
  else
    try_catch
      (match stringValue value with
       | None => throw "Do not know how to serialize a BigInt"
       | Some text =>
           if (tableName =? "form_persistence")%string then
             upsert_form key text now
           else if (tableName =? "sql_settings")%string then
             upsert_setting key text now
           else ret tt
       end)
      (fun err =>
         console_error_ ("Failed to save data to " ++ tableName ++ ":")%string ;;
         throw err).

(** *** getBroadcastChannel *)

(** Whether there is a channel to post on. *)
Definition getBroadcastChannel : M World bool :=
  fun w =>
    match channel w with
    | NoWindow => (Ok false, w)
    | NoBroadcastChannel =>
        (console_error_ "Failed to create BroadcastChannel:" ;; ret false) w
    | ChannelOpen => (Ok true, w)
    end.

(** *** broadcastChange *)

(** [stamp] is [Date.now()] at the call. *)
Definition broadcastChange (type_ : string) (data_ : Value) (stamp : Z)
  : M World unit :=
  found <- getBroadcastChannel ;;
  if found then modify (postMessage (mkMessage type_ data_ stamp))
  else ret tt.

(** *** mapRowToPatient *)

(** [v || ''] *)
Definition or_blank (v : Value) : Value :=
  if truthy v then v else JStr "".

(** The [Patient] object made from a row of a query result. *)
Definition mapRowToPatient (row : Object) : Object :=
  [ ("id", get "id" row);
    ("firstName", get "first_name" row);
    ("lastName", get "last_name" row);
    ("dateOfBirth", get "date_of_birth" row);
    ("gender", get "gender" row);
    ("email", or_blank (get "email" row));
    ("phone", or_blank (get "phone" row));
    ("address", or_blank (get "address" row));
    ("insuranceProvider", or_blank (get "insurance_provider" row));
    ("insuranceNumber", or_blank (get "insurance_number" row));
    ("medicalConditions", or_blank (get "medical_conditions" row));
    ("medications", or_blank (get "medications" row));
    ("allergies", or_blank (get "allergies" row));
    ("createdAt", get "created_at" row);
    ("updatedAt", get "updated_at" row) ].

End db.

(** The clock as one operation reads it: [new Date().toISOString()],
    [Date.now()] and the local calendar date of [new Date()]. *)
Record Clock : Type := mkClock {
  iso : string;
  millis : Z;
  today : Js.Date
}.

(** ** components/sql/SqlConsole.tsx *)

Module SqlConsole.
Import Js db.

(** The React state of the console. *)
Record Console : Type := mkConsole {
  sql : string;
  results : list Object;
  isExecuting : bool;
  resultColumns : list string;
  formattedHeaders : Object;
  executionTime : Z;
  sqlHistory : list string;
  activeTab : string
}.

(** The state [useState] starts from. *)
Definition initial : Console :=
  mkConsole "" [] false [] [] 0 [] "results".

(** A mounted console: its state and what lies outside it. *)
Definition Tab : Type := (Console * World)%type.

Definition setState (f : Console -> Console) : M Tab unit :=
  modify (fun t => (f (fst t), snd t)).

Definition setSql (v : string) : M Tab unit :=
  setState (fun c =>
    mkConsole v (results c) (isExecuting c) (resultColumns c)
      (formattedHeaders c) (executionTime c) (sqlHistory c) (activeTab c)).

Definition setResults (v : list Object) : M Tab unit :=
  setState (fun c =>
    mkConsole (sql c) v (isExecuting c) (resultColumns c)
      (formattedHeaders c) (executionTime c) (sqlHistory c) (activeTab c)).

Definition setIsExecuting (v : bool) : M Tab unit :=
  setState (fun c =>
    mkConsole (sql c) (results c) v (resultColumns c)
      (formattedHeaders c) (executionTime c) (sqlHistory c) (activeTab c)).

Definition setResultColumns (v : list string) : M Tab unit :=
  setState (fun c =>
    mkConsole (sql c) (results c) (isExecuting c) v
      (formattedHeaders c) (executionTime c) (sqlHistory c) (activeTab c)).

Definition setFormattedHeaders (v : Object) : M Tab unit :=
  setState (fun c =>
    mkConsole (sql c) (results c) (isExecuting c) (resultColumns c)
      v (executionTime c) (sqlHistory c) (activeTab c)).

Definition setExecutionTime (v : Z) : M Tab unit :=
  setState (fun c =>
    mkConsole (sql c) (results c) (isExecuting c) (resultColumns c)
      (formattedHeaders c) v (sqlHistory c) (activeTab c)).

Definition setSqlHistory (v : list string) : M Tab unit :=
  setState (fun c =>
    mkConsole (sql c) (results c) (isExecuting c) (resultColumns c)
      (formattedHeaders c) (executionTime c) v (activeTab c)).

Definition setActiveTab (v : string) : M Tab unit :=
  setState (fun c =>
    mkConsole (sql c) (results c) (isExecuting c) (resultColumns c)
      (formattedHeaders c) (executionTime c) (sqlHistory c) v).

(** *** calculateAge *)

(** [today] is [new Date()]; with an Invalid Date every difference is
    NaN, no comparison holds and NaN is returned. *)
Definition calculateAge `{Host} (today : Date) (dateOfBirth : Value) : Num :=
  match new_Date dateOfBirth with
  | None => NaN
  | Some dob =>
      let age := getFullYear today - getFullYear dob in
      let monthDifference := getMonth today - getMonth dob in
      if (monthDifference <? 0)
         || ((monthDifference =? 0) && (getDate today <? getDate dob))
      then Fin (age - 1)
      else Fin age
  end.

(** *** formatColumnHeader *)

Definition capitalize (word : string) : string :=
  match word with
  | EmptyString => ""
  | String c rest => String (upper_char c) (toLowerCase rest)
  end.

Definition formatColumnHeader (header : string) : string :=
  String.concat " " (map capitalize (split "_" header)).

(** *** The post-processing of a result in executeQuery *)

(** [result.rows.map(row => ...)]: a copy of the row, with [age] set
    when [row.date_of_birth] is truthy. *)
Definition processedRow `{Host} (today : Date) (row : Object) : Object :=
  if truthy (get "date_of_birth" row)
  then set "age" (JNum (calculateAge today (get "date_of_birth" row))) row
  else row.

Definition processedResults `{Host} (today : Date) (rows : list Object)
  : list Object :=
  map (processedRow today) rows.

(** [headers]: a label per column, and one for [age] when there is a
    birth date column. *)
Definition headers (columns : list string) : Object :=
  let labelled :=
    fold_left (fun h col => set col (JStr (formatColumnHeader col)) h)
      columns [] in
  if includes "date_of_birth" columns
  then set "age" (JStr "Age") labelled
  else labelled.

(** [reorderedColumns] *)
Definition reorderedColumns (columns : list string) : list string :=
  if includes "date_of_birth" columns && includes "gender" columns then
    let filtered := filter (fun col => negb (col =? "age")%string) columns in
    match indexOf "gender" filtered with
    | Some genderIndex => splice_insert (genderIndex + 1) "age" filtered
    | None => filtered
    end
  else if includes "date_of_birth" columns then columns ++ ["age"]
  else columns.

(** The updater given to [setSqlHistory]. *)
Definition pushHistory (sql : string) (prev : list string) : list string :=
  if negb (includes sql prev) then slice_last 10 (prev ++ [sql])
  else prev.

(** [result.rowCount || 'Success'] *)
Definition rowCount_or_success (r : QueryResult) : Value :=
  match rowCount r with
  | Some n => if n =? 0 then JStr "Success" else JNum (Fin n)
  | None => JStr "Success"
  end.

(** [(endTime - startTime).toFixed(2)] of a whole number of milliseconds. *)
Definition completed_in (elapsed : Z) : string :=
  ("Completed in " ++ decimal elapsed ++ ".00ms")%string.

Definition saved_result_keys : list string :=
  ["last_results"; "last_columns"; "last_headers"].

(** *** Reading stored texts *)

(** [JSON.parse(text)] *)
Definition parse `{Host} {S} (text : string) : M S Value :=
  match JSON_parse text with
  | Some v => ret v
  | None => throw "Unexpected token in JSON"
  end.

(** A parsed value, read at the TypeScript type of the state it is put
    in.  The application only stores values of that shape; a well-formed
    text of another shape is outside the model. *)
Definition as_objects (v : Value) : list Object :=
  match v with
  | JArr items =>
      map (fun i => match i with JObj o => o | _ => [] end) items
  | _ => []
  end.

Definition as_strings (v : Value) : list string :=
  match v with
  | JArr items =>
      map (fun i => match i with JStr s => s | _ => "" end) items
  | _ => []
  end.

Definition as_object (v : Value) : Object :=
  match v with
  | JObj o => o
  | _ => []
  end.

(** *** loadSavedData *)

Definition loadSavedData `{Host} (db : Handle) : M Tab unit :=
  if is_null db then ret tt
  else
    try_catch
      (historyQuery <- inWorld (select_setting "sql_history") ;;
       match historyQuery with
       | text :: _ => v <- parse text ;; setSqlHistory (as_strings v)
       | [] => ret tt
       end ;;
       inWorld create_settings_table ;;
       queryResult <- inWorld (select_setting "last_query") ;;
       match queryResult with
       | text :: _ => setSql text
       | [] => setSql "SELECT * FROM patients;"
       end ;;
       resultsQuery <- inWorld (select_setting "last_results") ;;
       columnsQuery <- inWorld (select_setting "last_columns") ;;
       headersQuery <- inWorld (select_setting "last_headers") ;;
       match resultsQuery, columnsQuery, headersQuery with
       | r :: _, c :: _, h :: _ =>
           v <- parse r ;; setResults (as_objects v) ;;
           v <- parse c ;; setResultColumns (as_strings v) ;;
           v <- parse h ;; setFormattedHeaders (as_object v)
       | _, _, _ => ret tt
       end)
      (fun err => inWorld (console_error_ "Failed to load saved SQL data:")).

(** *** resetResults *)

Definition resetResults (db : Handle) : M Tab unit :=
  if is_null db then ret tt
  else
    setResults [] ;;
    setResultColumns [] ;;
    setFormattedHeaders [] ;;
    try_catch
      (inWorld (delete_settings saved_result_keys) ;;
       inWorld (toast (mkToast false "Results cleared"
                         "Query results have been reset")))
      (fun err =>
         inWorld (console_error_ "Failed to clear saved results:") ;;
         inWorld (toast (mkToast true "Error clearing results"
                           "Failed to reset query results"))).

(** *** executeQuery *)

(** [elapsed] is [endTime - startTime]. *)
Definition executeQuery `{Host} (db : Handle) (loading : bool)
  (clock : Clock) (elapsed : Z) : M Tab unit :=
  t <- get_state ;;
  let sql_ := sql (fst t) in
  if is_null db || loading || blank sql_ then ret tt
  else
    setIsExecuting true ;;
    try_finally
      (try_catch
         (result <- inWorld (query_verbatim sql_) ;;
          setExecutionTime elapsed ;;
          match rows result with
          | Some (row0 :: rest) =>
              let columns := keys row0 in
              setFormattedHeaders (headers columns) ;;
              setResults (processedResults (today clock) (row0 :: rest)) ;;
              setResultColumns (reorderedColumns columns)
          | Some [] =>
              setResultColumns [] ;;
              setFormattedHeaders [] ;;
              setResults [] ;;
              inWorld (delete_settings saved_result_keys)
          | None =>
              setResultColumns ["rowCount"] ;;
              setFormattedHeaders [("rowCount", JStr "Row Count")] ;;
              setResults [[("rowCount", rowCount_or_success result)]]
          end ;;
          t' <- get_state ;;
          setSqlHistory (pushHistory sql_ (sqlHistory (fst t'))) ;;
          setActiveTab "results" ;;
          inWorld (toast (mkToast false "Query executed successfully"
                            (completed_in elapsed))))
         (fun err =>
            inWorld (toast (mkToast true "Query failed" err)) ;;
            inWorld (console_error_ err)))
      (setIsExecuting false).

(** *** The table of the results *)

(** The header of a column:
    [formattedHeaders[column] || formatColumnHeader(column)]. *)
Definition header (c : Console) (column : string) : Value :=
  let h := get column (formattedHeaders c) in
  if truthy h then h else JStr (formatColumnHeader column).

(** The text of a cell:
    [row[column] !== null ? String(row[column]) : "NULL"]. *)
Definition cell (row : Object) (column : string) : string :=
  match get column row with
  | JNull => "NULL"
  | v => ToString v
  end.

End SqlConsole.

(** ** The console that persists through saveToPGlite
    (the later variant of SqlConsole.tsx) *)

Module SqlConsolePersisted.
Import Js db.
Export SqlConsole.

(** *** loadSavedData, run on mount *)

Definition loadSavedData `{Host} (db : Handle) : M Tab unit :=
  if is_null db then ret tt
  else
    try_catch
      (queryResult <- inWorld (select_setting "last_query") ;;
       match queryResult with
       | text :: _ => setSql text
       | [] => setSql "SELECT * FROM patients;"
       end ;;
       resultsQuery <- inWorld (select_setting "last_results") ;;
       columnsQuery <- inWorld (select_setting "last_columns") ;;
       headersQuery <- inWorld (select_setting "last_headers") ;;
       historyQuery <- inWorld (select_setting "sql_history") ;;
       match resultsQuery, columnsQuery, headersQuery with
       | r :: _, c :: _, h :: _ =>
           try_catch
             (v <- parse r ;; setResults (as_objects v) ;;
              v <- parse c ;; setResultColumns (as_strings v) ;;
              v <- parse h ;; setFormattedHeaders (as_object v))
             (fun parseErr =>
                inWorld (console_error_ "Failed to parse SQL results:"))
       | _, _, _ => ret tt
       end ;;
       match historyQuery with
       | text :: _ =>
           try_catch
             (v <- parse text ;; setSqlHistory (as_strings v))
             (fun parseErr =>
                inWorld (console_error_ "Failed to parse SQL history:"))
       | [] => ret tt
       end)
      (fun err => inWorld (console_error_ "Failed to load saved SQL data:")).

(** *** The autosave effect on [sql, db] *)

(** A timer of [setTimeout]: when it is due and the text its callback
    captured. *)
Record Timer : Type := mkTimer {
  due : Z;
  captured : string
}.

(** The console with the timer its last effect run left pending. *)
Definition Mounted : Type := (option Timer * Tab)%type.

Definition inTab {A} (m : M Tab A) : M Mounted A :=
  fun s =>
    match m (snd s) with
    | (r, t') => (r, (fst s, t'))
    end.

Definition setTimer (v : option Timer) : M Mounted unit :=
  modify (fun s => (v, snd s)).

Definition delay : Z := 500.

(** The timer callback: [saveToPGlite(...).catch(console.error)]. *)
Definition autosave (db : Handle) (text now : string) : M World unit :=
  try_catch
    (saveToPGlite db "sql_settings" "last_query" (JStr text) now)
    (fun err => console_error_ "Failed to save SQL query:").

(** Time reaches [t]: a timer due by then runs its callback.
    [toISOString] renders the instant a callback runs at. *)
Definition elapse (db : Handle) (toISOString : Z -> string) (t : Z)
  : M Mounted unit :=
  s <- get_state ;;
  match fst s with
  | Some timer =>
      if due timer <=? t then
        setTimer None ;;
        inTab (inWorld (autosave db (captured timer) (toISOString (due timer))))
      else ret tt
  | None => ret tt
  end.

(** [onChange] of the text area at time [t]: [setSql(v)].  When the text
    changes, the effect is run again: its last cleanup clears the
    pending timer, and a new one is set if [sql && db]. *)
Definition onChange (db : Handle) (toISOString : Z -> string) (t : Z)
  (v : string) : M Mounted unit :=
  elapse db toISOString t ;;
  s <- get_state ;;
  if (sql (fst (snd s)) =? v)%string then ret tt
  else
    inTab (setSql v) ;;
    setTimer None ;;
    if negb (v =? "")%string && negb (is_null db)
    then setTimer (Some (mkTimer (t + delay) v))
    else ret tt.

(** Edits at their times, in order. *)
Fixpoint typing (db : Handle) (toISOString : Z -> string)
  (edits : list (Z * string)) : M Mounted unit :=
  match edits with
  | [] => ret tt
  | (t, v) :: rest =>
      onChange db toISOString t v ;; typing db toISOString rest
  end.

(** The effect run on mount, whose hydration resolves at time [t]:
    [setSql] there changes the text, so the effect on [sql, db] is run
    again, as after an edit. *)
Definition hydrate `{Host} (db : Handle) (loading : bool) (t : Z)
  : M Mounted unit :=
  if is_null db || loading then ret tt
  else
    s <- get_state ;;
    inTab (loadSavedData db) ;;
    s' <- get_state ;;
    let v := sql (fst (snd s')) in
    if (sql (fst (snd s)) =? v)%string then ret tt
    else
      setTimer None ;;
      if negb (v =? "")%string && negb (is_null db)
      then setTimer (Some (mkTimer (t + delay) v))
      else ret tt.

(** *** resetResults *)

Definition resetResults (db : Handle) (clock : Clock) : M Tab unit :=
  if is_null db then ret tt
  else
    setResults [] ;;
    setResultColumns [] ;;
    setFormattedHeaders [] ;;
    try_catch
      (inWorld (delete_settings saved_result_keys) ;;
       inWorld (toast (mkToast false "Results cleared"
                         "Query results have been reset")) ;;
       inWorld (broadcastChange "results-cleared" JUndefined (millis clock)))
      (fun err =>
         inWorld (console_error_ "Failed to clear saved results:") ;;
         inWorld (toast (mkToast true "Error clearing results"
                           "Failed to reset query results"))).

(** *** executeQuery *)

Definition save_setting (db : Handle) (key : string) (value : Value)
  (clock : Clock) : M Tab unit :=
  inWorld (saveToPGlite db "sql_settings" key value (iso clock)).

Definition executeQuery `{Host} (db : Handle) (loading : bool)
  (clock : Clock) (elapsed : Z) : M Tab unit :=
  t <- get_state ;;
  let sql_ := sql (fst t) in
  if is_null db || loading || blank sql_ then ret tt
  else
    setIsExecuting true ;;
    try_finally
      (try_catch
         (result <- inWorld (query_verbatim sql_) ;;
          setExecutionTime elapsed ;;
          match rows result with
          | Some (row0 :: rest) =>
              let columns := keys row0 in
              let processed := processedResults (today clock) (row0 :: rest) in
              setFormattedHeaders (headers columns) ;;
              setResults processed ;;
              setResultColumns (reorderedColumns columns) ;;
              save_setting db "last_results" (JArr (map JObj processed)) clock ;;
              save_setting db "last_columns"
                (JArr (map JStr (reorderedColumns columns))) clock ;;
              save_setting db "last_headers" (JObj (headers columns)) clock
          | Some [] =>
              setResultColumns [] ;;
              setFormattedHeaders [] ;;
              setResults [] ;;
              inWorld (delete_settings saved_result_keys)
          | None =>
              let queryResults := [[("rowCount", rowCount_or_success result)]] in
              setResultColumns ["rowCount"] ;;
              setFormattedHeaders [("rowCount", JStr "Row Count")] ;;
              setResults queryResults ;;
              save_setting db "last_results" (JArr (map JObj queryResults)) clock ;;
              save_setting db "last_columns" (JArr [JStr "rowCount"]) clock ;;
              save_setting db "last_headers"
                (JObj [("rowCount", JStr "Row Count")]) clock
          end ;;
          t' <- get_state ;;
          let prev := sqlHistory (fst t') in
          (if negb (includes sql_ prev) then
             let newHistory := slice_last 10 (prev ++ [sql_]) in
             inWorld (try_catch
                        (saveToPGlite db "sql_settings" "sql_history"
                           (JArr (map JStr newHistory)) (iso clock))
                        (fun err =>
                           console_error_ "Failed to save SQL history:")) ;;
             setSqlHistory newHistory
           else setSqlHistory prev) ;;
          setActiveTab "results" ;;
          inWorld (broadcastChange "results-updated" JUndefined (millis clock)) ;;
          inWorld (toast (mkToast false "Query executed successfully"
                            (completed_in elapsed))))
         (fun err =>
            inWorld (toast (mkToast true "Query failed" err)) ;;
            inWorld (console_error_ err)))
      (setIsExecuting false).

(** *** loadSavedData, the callback run on [results-updated] *)

Definition reloadSavedData `{Host} (db : Handle) : M Tab unit :=
  if is_null db then ret tt
  else
    try_catch
      (resultsQuery <- inWorld (select_setting "last_results") ;;
       columnsQuery <- inWorld (select_setting "last_columns") ;;
       headersQuery <- inWorld (select_setting "last_headers") ;;
       match resultsQuery, columnsQuery, headersQuery with
       | r :: _, c :: _, h :: _ =>
           try_catch
             (v <- parse r ;; setResults (as_objects v) ;;
              v <- parse c ;; setResultColumns (as_strings v) ;;
              v <- parse h ;; setFormattedHeaders (as_object v))
             (fun parseErr =>
                inWorld (console_error_ "Failed to parse SQL results:"))
       | _, _, _ => ret tt
       end)
      (fun err => inWorld (console_error_ "Failed to load saved SQL data:")).

(** [s.includes(sub)] on strings. *)
Fixpoint contains (sub s : string) : bool :=
  String.prefix sub s
  || match s with
     | EmptyString => false
     | String _ s' => contains sub s'
     end.

(** *** handleDbChange *)

Definition handleDbChange `{Host} (db : Handle) (loading : bool)
  (clock : Clock) (elapsed : Z) (message : Message) : M Tab unit :=
  t <- get_state ;;
  if ((type message =? "patient-added") && (activeTab (fst t) =? "results"))%string
  then
    if contains "from patients" (toLowerCase (sql (fst t)))
    then executeQuery db loading clock elapsed
    else ret tt
  else if (type message =? "results-updated")%string then reloadSavedData db
  else if (type message =? "results-cleared")%string then
    setResults [] ;; setResultColumns [] ;; setFormattedHeaders []
  else ret tt.

(** *** The pages of the result table *)

Definition pageSize : nat := 9.

(** [Math.ceil(results.length / pagination.pageSize)] *)
Definition pageCount (results : list Object) : nat :=
  ((List.length results + (pageSize - 1)) / pageSize)%nat.

(** [rows.slice(pageIndex * pageSize, (pageIndex + 1) * pageSize)] *)
Definition page (pageIndex : nat) (results : list Object) : list Object :=
  slice (pageIndex * pageSize) ((pageIndex + 1) * pageSize) results.

End SqlConsolePersisted.

(** ** components/patients/PatientForm.tsx *)

Module PatientForm.
Import Js db.

(** [PatientFormValues]: what [patientFormSchema] infers.  The fields
    declared [optional()] may be absent. *)
Record PatientFormValues : Type := mkValues {
  firstName : string;
  lastName : string;
  dateOfBirth : string;
  gender : string;
  email : option string;
  phone : string;
  address : string;
  insuranceProvider : option string;
  insuranceNumber : option string;
  medicalConditions : string;
  medications : string;
  allergies : option string
}.

Definition defaultValues : PatientFormValues :=
  mkValues "" "" "" "" (Some "") "" "" (Some "") (Some "") "" "" (Some "").

Definition STORAGE_KEY : string := "patient_form_data".

(** [v || ""] for a text that may be absent. *)
Definition or_empty (v : option string) : string :=
  match v with
  | Some s => if (s =? "")%string then "" else s
  | None => ""
  end.

(** The React state of the form: the flag, the current values and the
    values [form.reset()] goes back to. *)
Record Form : Type := mkForm {
  isSubmitting : bool;
  fields : PatientFormValues;
  resetValues : PatientFormValues
}.

Definition View : Type := (Form * World)%type.

Definition setIsSubmitting (v : bool) : M View unit :=
  modify (fun t => (mkForm v (fields (fst t)) (resetValues (fst t)), snd t)).

(** [form.reset()], as it changes the form.  What react-hook-form then
    hands to the subscribers of [form.watch] is not in the sources and
    not part of the model. *)
Definition reset : M View unit :=
  modify (fun t =>
    (mkForm (isSubmitting (fst t)) (resetValues (fst t)) (resetValues (fst t)),
     snd t)).

(** *** saveFormData, and the subscription that calls it on every change *)

Definition saveFormData (values : Object) : M World unit :=
  try_catch
    (match JSON_stringify (JObj values) with
     | Some text => setItem STORAGE_KEY text
     | None => throw "Do not know how to serialize a BigInt"
     end)
    (fun err => console_error_ "Failed to save form data:").

(** [form.watch((value) => saveFormData(value))] *)
Definition watch (value : Object) : M World unit := saveFormData value.

(** *** onSubmit *)

(** [uuid] is what [uuidv4()] returns at the call. *)
Definition onSubmit (db : Handle) (loading : bool) (values : PatientFormValues)
  (uuid : string) (clock : Clock) : M View unit :=
  if is_null db || loading then ret tt
  else
    setIsSubmitting true ;;
    try_finally
      (try_catch
         (let now := iso clock in
          let id := uuid in
          let patient :=
            mkPatient id
              (firstName values)
              (lastName values)
              (dateOfBirth values)
              (gender values)
              (or_empty (email values))
              (or_empty (Some (phone values)))
              (or_empty (Some (address values)))
              (or_empty (insuranceProvider values))
              (or_empty (insuranceNumber values))
              (or_empty (Some (medicalConditions values)))
              (or_empty (Some (medications values)))
              (or_empty (allergies values))
              now
              now in
          let params := patientToSqlParams patient in
          inWorld (query_insert_patient params) ;;
          inWorld (broadcastChange "patient-added" (JObj [("id", JStr id)])
                     (millis clock)) ;;
          inWorld (removeItem STORAGE_KEY) ;;
          inWorld (toast (mkToast false "Patient registered successfully"
                            (firstName values ++ " " ++ lastName values
                             ++ " has been added to the system.")%string)) ;;
          reset)
         (fun err =>
            inWorld (toast (mkToast true "Registration failed" err)) ;;
            inWorld (console_error_ err)))
      (setIsSubmitting false).

(** *** The values as an object *)

Definition text_or_undefined (v : option string) : Value :=
  match v with
  | Some s => JStr s
  | None => JUndefined
  end.

(** The object react-hook-form holds for the values and hands to the
    subscriber of [form.watch]. *)
Definition toObject (v : PatientFormValues) : Object :=
  [ ("firstName", JStr (firstName v));
    ("lastName", JStr (lastName v));
    ("dateOfBirth", JStr (dateOfBirth v));
    ("gender", JStr (gender v));
    ("email", text_or_undefined (email v));
    ("phone", JStr (phone v));
    ("address", JStr (address v));
    ("insuranceProvider", text_or_undefined (insuranceProvider v));
    ("insuranceNumber", text_or_undefined (insuranceNumber v));
    ("medicalConditions", JStr (medicalConditions v));
    ("medications", JStr (medications v));
    ("allergies", text_or_undefined (allergies v)) ].

Definition as_text (v : Value) : string :=
  match v with
  | JStr s => s
  | _ => ""
  end.

Definition as_optional_text (v : Value) : option string :=
  match v with
  | JStr s => Some s
  | _ => None
  end.

(** An object given to [form.reset], read at the type of the values.
    The application only stores drafts whose fields are texts; an object
    of another shape is outside the model. *)
Definition ofObject (o : Object) : PatientFormValues :=
  mkValues
    (as_text (get "firstName" o))
    (as_text (get "lastName" o))
    (as_text (get "dateOfBirth" o))
    (as_text (get "gender" o))
    (as_optional_text (get "email" o))
    (as_text (get "phone" o))
    (as_text (get "address" o))
    (as_optional_text (get "insuranceProvider" o))
    (as_optional_text (get "insuranceNumber" o))
    (as_text (get "medicalConditions" o))
    (as_text (get "medications" o))
    (as_optional_text (get "allergies" o)).

(** [form.reset(values)]: the values become the current ones and the
    ones a later [form.reset()] goes back to. *)
Definition reset_with (v : PatientFormValues) : M View unit :=
  modify (fun t => (mkForm (isSubmitting (fst t)) v v, snd t)).

(** *** The effect run on mount, which reads the draft *)

Definition onMount `{Host} : M View unit :=
  t <- get_state ;;
  match getItem STORAGE_KEY (localStorage (snd t)) with
  | Some savedData =>
      if (savedData =? "")%string then ret tt
      else
        try_catch
          (parsedData <- SqlConsole.parse savedData ;;
           reset_with (ofObject (SqlConsole.as_object parsedData)))
          (fun err =>
             inWorld (console_error_ "Failed to parse saved form data:"))
  | None => ret tt
  end.

(** *** handleClearForm *)

Definition handleClearForm : M View unit :=
  reset_with defaultValues ;;
  inWorld (removeItem STORAGE_KEY) ;;
  inWorld (toast (mkToast false "Form cleared"
                    "The patient form has been reset.")).

End PatientForm.

(** ** The form that keeps its draft in the store
    (the later variant of PatientForm.tsx) *)

Module PatientFormPersisted.
Import Js db.
Export PatientForm.

Definition FORM_ID : string := "patient_registration_form".

Definition saveFormData (db : Handle) (values : Object) (now : string)
  : M World unit :=
  if is_null db then ret tt
  else
    try_catch
      (saveToPGlite db "form_persistence" FORM_ID (JObj values) now)
      (fun err => console_error_ "Failed to save form data:").

(** [form.reset(DEFAULT_VALUES)] *)
Definition reset_to (v : PatientFormValues) : M View unit :=
  modify (fun t => (mkForm (isSubmitting (fst t)) v v, snd t)).

Definition clearForm (db : Handle) (showToast : bool) (clock : Clock)
  : M View unit :=
  if is_null db then ret tt
  else
    try_catch
      (reset_to defaultValues ;;
       inWorld (delete_form FORM_ID) ;;
       (if showToast
        then inWorld (toast (mkToast false "Form cleared"
                               "All form fields have been reset"))
        else ret tt) ;;
       inWorld (broadcastChange "form-cleared" (JObj [("id", JStr FORM_ID)])
                  (millis clock)))
      (fun err =>
         inWorld (console_error_ "Failed to clear form:") ;;
         inWorld (toast (mkToast true "Error clearing form"
                           "Failed to reset form fields"))).

Definition onSubmit (db : Handle) (loading : bool) (values : PatientFormValues)
  (uuid : string) (clock : Clock) : M View unit :=
  if is_null db || loading then ret tt
  else
    setIsSubmitting true ;;
    try_finally
      (try_catch
         (let now := iso clock in
          let id := uuid in
          let patient :=
            mkPatient id
              (firstName values)
              (lastName values)
              (dateOfBirth values)
              (gender values)
              (or_empty (email values))
              (or_empty (Some (phone values)))
              (or_empty (Some (address values)))
              (or_empty (insuranceProvider values))
              (or_empty (insuranceNumber values))
              (or_empty (Some (medicalConditions values)))
              (or_empty (Some (medications values)))
              (or_empty (allergies values))
              now
              now in
          let params := patientToSqlParams patient in
          inWorld (query_insert_patient params) ;;
          inWorld (broadcastChange "patient-added" (JObj [("id", JStr id)])
                     (millis clock)) ;;
          inWorld (toast (mkToast false "Patient registered successfully"
                            (firstName values ++ " " ++ lastName values
                             ++ " has been added to the system.")%string)) ;;
          clearForm db false clock)
         (fun err =>
            inWorld (toast (mkToast true "Registration failed" err)) ;;
            inWorld (console_error_ err)))
      (setIsSubmitting false).

(** *** isFormEmpty *)

Definition DEFAULT_VALUES : Object :=
  [ ("firstName", JStr "");
    ("lastName", JStr "");
    ("dateOfBirth", JStr "");
    ("gender", JStr "");
    ("email", JStr "");
    ("phone", JStr "");
    ("address", JStr "");
    ("insuranceProvider", JStr "");
    ("insuranceNumber", JStr "");
    ("medicalConditions", JStr "");
    ("medications", JStr "");
    ("allergies", JStr "") ].

(** [v === d] for a text [d]. *)
Definition is_text (v : Value) (d : Value) : bool :=
  match v, d with
  | JStr s, JStr s' => (s =? s')%string
  | _, _ => false
  end.

(** Every default value is found, as it is, in the watched values. *)
Definition isFormEmpty (watchedValues : Object) : bool :=
  forallb (fun kv => is_text (get (fst kv) watchedValues) (snd kv))
    DEFAULT_VALUES.

(** *** loadFormData *)

(** [v ?? d] *)
Definition nullish_or (v d : Value) : Value :=
  match v with
  | JUndefined | JNull => d
  | _ => v
  end.

Definition loadFormData `{Host} (db : Handle) (loading : bool) : M View unit :=
  if is_null db || loading then ret tt
  else
    try_catch
      (result <- inWorld (select_form FORM_ID) ;;
       match result with
       | form_data :: _ =>
           try_catch
             (parsedData <- SqlConsole.parse form_data ;;
              match parsedData with
              | JUndefined | JNull =>
                  throw "Cannot read properties of null (reading 'gender')"
              | _ =>
                  let o := SqlConsole.as_object parsedData in
                  reset_to
                    (ofObject
                       (set "gender" (nullish_or (get "gender" o) (JStr ""))
                          (spread DEFAULT_VALUES o)))
              end)
             (fun parseErr =>
                inWorld (console_error_ "Failed to parse form data:"))
       | [] => ret tt
       end)
      (fun err => inWorld (console_error_ "Failed to load form data:")).

(** *** handleDbChange *)

(** [data?.id] *)
Definition optional_id (data : Value) : Value :=
  match data with
  | JObj o => get "id" o
  | _ => JUndefined
  end.

Definition handleDbChange (message : Message) : M View unit :=
  if ((type message =? "form-cleared")%string
      && is_text (optional_id (data message)) (JStr FORM_ID))
  then reset_to defaultValues
  else ret tt.

End PatientFormPersisted.

(** ** A host to run the examples on *)

Module Sample.
Import Js db.

Definition digit (c : ascii) : option Z :=
  let n := nat_of_ascii c in
  if ((48 <=? n) && (n <=? 57))%nat then Some (Z.of_nat (n - 48)) else None.

Definition number (ds : list ascii) : option Z :=
  fold_left
    (fun acc c =>
       match acc, digit c with
       | Some n, Some d => Some (10 * n + d)
       | _, _ => None
       end)
    ds (Some 0).

Definition leap (y : Z) : bool :=
  ((y mod 4 =? 0) && negb (y mod 100 =? 0)) || (y mod 400 =? 0).

Definition days_in_month (y m : Z) : Z :=
  if m =? 2 then (if leap y then 29 else 28)
  else if (m =? 4) || (m =? 6) || (m =? 9) || (m =? 11) then 30
  else 31.

(** [new Date(text)] for a date-only text [YYYY-MM-DD] of a day that
    exists, in a time zone at or east of UTC: the text denotes midnight
    UTC, which falls on the same calendar day there.  Anything else is
    answered with Invalid Date. *)
Definition date_only (v : Value) : option Date :=
  match v with
  | JStr (String y1 (String y2 (String y3 (String y4 (String "-"
         (String m1 (String m2 (String "-"
         (String d1 (String d2 EmptyString)))))))))) =>
      match number [y1; y2; y3; y4], number [m1; m2], number [d1; d2] with
      | Some y, Some m, Some d =>
          if (1 <=? m) && (m <=? 12) && (1 <=? d) && (d <=? days_in_month y m)
          then Some (mkDate y (m - 1) d)
          else None
      | _, _, _ => None
      end
  | _ => None
  end.

(** [JSON.parse] on the texts of the listed values, which it reads back;
    any other text is answered with a SyntaxError. *)
Definition parse_among (known : list Value) (text : string) : option Value :=
  find (fun v =>
          match JSON_stringify v with
          | Some t => (t =? text)%string
          | None => false
          end) known.

Definition text_or_null (v : option string) : Value :=
  match v with
  | Some s => JStr s
  | None => JNull
  end.

(** A row of [patients] as the engine returns it. *)
Definition patient_object (r : PatientRow) : Object :=
  [ ("id", JStr (row_id r));
    ("first_name", JStr (first_name r));
    ("last_name", JStr (last_name r));
    ("date_of_birth", JStr (date_of_birth r));
    ("gender", JStr (row_gender r));
    ("email", text_or_null (row_email r));
    ("phone", text_or_null (row_phone r));
    ("address", text_or_null (row_address r));
    ("insurance_provider", text_or_null (insurance_provider r));
    ("insurance_number", text_or_null (insurance_number r));
    ("medical_conditions", text_or_null (medical_conditions r));
    ("medications", text_or_null (row_medications r));
    ("allergies", text_or_null (row_allergies r));
    ("created_at", JStr (created_at r));
    ("updated_at", JStr (updated_at r)) ].

(** The engine on two texts, answered the way PostgreSQL does; every
    other text is rejected. *)
Definition query (text : string) (s : Store) : Result QueryResult * Store :=
  if (text =? "SELECT * FROM patients")%string then
    (Ok (mkQueryResult (Some (map patient_object (patients s))) None), s)
  else if (text =? "DELETE FROM patients")%string then
    (Ok (mkQueryResult (Some []) None),
     mkStore [] (form_persistence s) (sql_settings s))
  else (Thrown "syntax error", s).

(** Values the examples store and read back. *)
Definition stored_rows : Value := JArr [JObj [("id", JStr "p1")]].
Definition stored_columns : Value := JArr [JStr "id"].
Definition stored_headers : Value := JObj [("id", JStr "Id")].
Definition stored_history : Value := JArr [JStr "SELECT 1"].

Definition host : Host :=
  mkHost date_only
    (parse_among [stored_rows; stored_columns; stored_headers; stored_history])
    query.

(** The day before, in the calendar. *)
Definition day_before (d : Date) : Date :=
  if 1 <? getDate d then
    mkDate (getFullYear d) (getMonth d) (getDate d - 1)
  else if 0 <? getMonth d then
    mkDate (getFullYear d) (getMonth d - 1)
      (days_in_month (getFullYear d) (getMonth d))
  else mkDate (getFullYear d - 1) 11 31.

(** [new Date(text)] for a date-only text [YYYY-MM-DD] of a day that
    exists, in a time zone west of UTC: the text denotes midnight UTC,
    which falls on the evening of the day before there, and that is the
    day [getFullYear], [getMonth] and [getDate] read. *)
Definition date_only_west (v : Value) : option Date :=
  option_map day_before (date_only v).

(** The same host in a time zone west of UTC. *)
Definition west_host : Host :=
  mkHost date_only_west
    (parse_among [stored_rows; stored_columns; stored_headers; stored_history])
    query.

Definition text_of (v : Value) : string :=
  match JSON_stringify v with
  | Some t => t
  | None => ""
  end.

Definition empty_store : Store := mkStore [] [] [].

Definition world_of (s : Store) : World :=
  mkWorld s [] ChannelOpen [] [] [] [].

Definition noon : Clock :=
  mkClock "2024-06-14T12:00:00.000Z" 1718366400000 (mkDate 2024 5 14).

Definition jane : PatientRow :=
  mkPatientRow "p1" "Jane" "Doe" "2000-06-15" "female"
    (Some "") (Some "5550100000") (Some "1 Main St") (Some "") (Some "")
    (Some "none") (Some "none") (Some "") "2024-06-01T00:00:00.000Z"
    "2024-06-01T00:00:00.000Z".

End Sample.

(** ** One tab of the application: its views over one world *)

Module App.
Import Js db.

Record State : Type := mkState {
  handle : Handle;               (* [db] of useDb *)
  loading : bool;                (* [loading] of useDb *)
  console : SqlConsole.Console;
  form : PatientForm.Form;
  world : World
}.

Definition initial : State :=
  mkState NullDb true SqlConsole.initial
    (PatientForm.mkForm false PatientForm.defaultValues PatientForm.defaultValues)
    (mkWorld (mkStore [] [] []) [] ChannelOpen [] [] [] []).

(** What the user and the environment make a tab do. *)
Inductive Operation : Type :=
| StoreOpened
      (* useDb: getDb() has resolved *)
| Submit (values : PatientForm.PatientFormValues) (uuid : string) (clock : Clock)
      (* PatientForm.onSubmit *)
| SubmitAndClear (values : PatientForm.PatientFormValues) (uuid : string)
    (clock : Clock)
      (* onSubmit of the form that keeps its draft in the store *)
| FieldChanged (value : Object)
      (* the subscription of form.watch *)
| DraftSaved (value : Object) (now : string)
      (* saveFormData of the form that keeps its draft in the store *)
| FormCleared (showToast : bool) (clock : Clock)
      (* clearForm *)
| Saved (tableName key : string) (value : Value) (now : string)
      (* saveToPGlite *)
| ConsoleMounted (persisted : bool)
      (* loadSavedData *)
| ResultsReset (persisted : bool) (clock : Clock)
      (* resetResults *)
| SqlEdited (text : string)
      (* setSql from the text area or the history list *)
| QueryExecuted (persisted : bool) (clock : Clock) (elapsed : Z)
      (* executeQuery *)
| MessageReceived (message : Message) (clock : Clock) (elapsed : Z).
      (* handleDbChange *)

Definition on_world (m : M World unit) (a : State) : State :=
  mkState (handle a) (loading a) (console a) (form a) (exec m (world a)).

Definition on_console (m : M SqlConsole.Tab unit) (a : State) : State :=
  let t := exec m (console a, world a) in
  mkState (handle a) (loading a) (fst t) (form a) (snd t).

Definition on_form (m : M PatientForm.View unit) (a : State) : State :=
  let t := exec m (form a, world a) in
  mkState (handle a) (loading a) (console a) (fst t) (snd t).

Definition perform `{Host} (op : Operation) (a : State) : State :=
  match op with
  | StoreOpened => mkState Pglite false (console a) (form a) (world a)
  | Submit values uuid clock =>
      on_form (PatientForm.onSubmit (handle a) (loading a) values uuid clock) a
  | SubmitAndClear values uuid clock =>
      on_form (PatientFormPersisted.onSubmit (handle a) (loading a) values
                 uuid clock) a
  | FieldChanged value => on_world (PatientForm.watch value) a
  | DraftSaved value now =>
      on_world (PatientFormPersisted.saveFormData (handle a) value now) a
  | FormCleared showToast clock =>
      on_form (PatientFormPersisted.clearForm (handle a) showToast clock) a
  | Saved tableName key value now =>
      on_world
        (try_catch (saveToPGlite (handle a) tableName key value now)
           (fun err => console_error_ err)) a
  | ConsoleMounted persisted =>
      if is_null (handle a) || loading a then a
      else if persisted
      then on_console (SqlConsolePersisted.loadSavedData (handle a)) a
      else on_console (SqlConsole.loadSavedData (handle a)) a
  | ResultsReset persisted clock =>
      if persisted
      then on_console (SqlConsolePersisted.resetResults (handle a) clock) a
      else on_console (SqlConsole.resetResults (handle a)) a
  | SqlEdited text => on_console (SqlConsole.setSql text) a
  | QueryExecuted persisted clock elapsed =>
      if persisted
      then on_console
             (SqlConsolePersisted.executeQuery (handle a) (loading a) clock
                elapsed) a
      else on_console
             (SqlConsole.executeQuery (handle a) (loading a) clock elapsed) a
  | MessageReceived message clock elapsed =>
      on_console
        (SqlConsolePersisted.handleDbChange (handle a) (loading a) clock
           elapsed message) a
  end.


End App.

(** ** Notions the properties are stated with *)

(** [post m s Q]: run from [s], the computation [m] ends with an outcome
    and a state that satisfy [Q]. *)
Definition post {S A} (m : M S A) (s : S) (Q : Result A -> S -> Prop) : Prop :=
  Q (fst (m s)) (snd (m s)).

(** [keeps R m]: whatever [m] does, the state it leaves is related by
    [R] to the one it started from. *)
Definition keeps {S A} (R : S -> S -> Prop) (m : M S A) : Prop :=
  forall s, R s (snd (m s)).

Module Spec.
Import Js db SqlConsole.

(** The birthday of this year is still to come. *)
Definition birthday_ahead (today dob : Date) : Prop :=
  getMonth today < getMonth dob
  \/ (getMonth today = getMonth dob /\ getDate today < getDate dob).

(** The calendar order of two dates. *)
Definition on_or_before (a b : Date) : Prop :=
  getFullYear a < getFullYear b
  \/ (getFullYear a = getFullYear b
      /\ (getMonth a < getMonth b
          \/ (getMonth a = getMonth b /\ getDate a <= getDate b))).

(** The [n]-th birthday. *)
Definition anniversary (dob : Date) (n : Z) : Date :=
  mkDate (getFullYear dob + n) (getMonth dob) (getDate dob).

Definition not_age (col : string) : bool := negb (col =? "age")%string.

(** The table a namespace of saveToPGlite names. *)
Definition table (tableName : string) (s : Store) : list Entry :=
  if (tableName =? "form_persistence")%string then form_persistence s
  else if (tableName =? "sql_settings")%string then sql_settings s
  else [].

Definition managed (tableName : string) : Prop :=
  tableName = "form_persistence" \/ tableName = "sql_settings".

(** The rows that hold a key. *)
Definition rows_of (k : string) (t : list Entry) : list Entry :=
  filter (fun r => (entry_key r =? k)%string) t.

(** The primary key of a table: no two rows hold the same key. *)
Definition keyed (t : list Entry) : Prop := NoDup (map entry_key t).

(** A store with its time stamps blanked: what a reader sees of it
    apart from the time stamps. *)
Definition unstamped (t : list Entry) : list Entry :=
  map (fun r => mkEntry (entry_key r) (entry_value r) "") t.

Definition observable (s : Store) : Store :=
  mkStore (patients s) (unstamped (form_persistence s))
    (unstamped (sql_settings s)).

(** The world after saveToPGlite was called once per reading of the
    clock in [nows], with the same arguments otherwise. *)
Definition saved_at (db : Handle) (tableName key : string) (value : Value)
  (nows : list string) (w : World) : World :=
  fold_left (fun w' now => exec (saveToPGlite db tableName key value now) w')
    nows w.

(** The console with [isExecuting] put back to false and nothing else
    changed. *)
Definition idle (c : Console) : Console :=
  mkConsole (sql c) (results c) false (resultColumns c) (formattedHeaders c)
    (executionTime c) (sqlHistory c) (activeTab c).

(** executeQuery has reported success. *)
Definition reported_success (w : World) : Prop :=
  exists before d,
    toasts w = before ++ [mkToast false "Query executed successfully" d].






(** A run of edits, each one a change of the text that comes less than
    the delay after the one before; [t] and [v] are the time and the
    text of the last edit before the run. *)
Fixpoint burst (t : Z) (v : string) (edits : list (Z * string)) : Prop :=
  match edits with
  | [] => True
  | (t', v') :: rest =>
      t <= t' /\ t' < t + SqlConsolePersisted.delay /\ v' <> v
      /\ burst t' v' rest
  end.

(** The time and the text of the last edit. *)
Fixpoint last_edit (t : Z) (v : string) (edits : list (Z * string))
  : Z * string :=
  match edits with
  | [] => (t, v)
  | (t', v') :: rest => last_edit t' v' rest
  end.

(** The console after the edits and a quiet period counted from the
    last of them. *)
Definition settle (db : Handle) (toISOString : Z -> string)
  (edits : list (Z * string)) (quiet : Z) : M SqlConsolePersisted.Mounted unit :=
  SqlConsolePersisted.typing db toISOString edits ;;
  SqlConsolePersisted.elapse db toISOString
    (fst (last_edit 0 "" edits) + quiet).

(** The statements that write the text of the console. *)
Definition query_writes (l : list Stmt) : list Stmt :=
  filter (fun s =>
            match s with
            | UpsertSetting k _ _ => (k =? "last_query")%string
            | _ => false
            end) l.

(** Nothing was deleted from or changed in [patients], and no text of
    the console was sent to the engine. *)
Definition grows (w w' : World) : Prop :=
  (exists added, patients (store w') = patients (store w) ++ added)
  /\ (forall text, In (Verbatim text) (issued w') -> In (Verbatim text) (issued w)).


(** The row a submission makes, and the parameters of its INSERT. *)
Definition submitted_row (values : PatientForm.PatientFormValues)
  (uuid now : string) : PatientRow :=
  mkPatientRow uuid
    (PatientForm.firstName values)
    (PatientForm.lastName values)
    (PatientForm.dateOfBirth values)
    (PatientForm.gender values)
    (Some (PatientForm.or_empty (PatientForm.email values)))
    (Some (PatientForm.phone values))
    (Some (PatientForm.address values))
    (Some (PatientForm.or_empty (PatientForm.insuranceProvider values)))
    (Some (PatientForm.or_empty (PatientForm.insuranceNumber values)))
    (Some (PatientForm.medicalConditions values))
    (Some (PatientForm.medications values))
    (Some (PatientForm.or_empty (PatientForm.allergies values)))
    now now.

Definition submitted_params (values : PatientForm.PatientFormValues)
  (uuid now : string) : list string :=
  [ uuid;
    PatientForm.firstName values;
    PatientForm.lastName values;
    PatientForm.dateOfBirth values;
    PatientForm.gender values;
    PatientForm.or_empty (PatientForm.email values);
    PatientForm.phone values;
    PatientForm.address values;
    PatientForm.or_empty (PatientForm.insuranceProvider values);
    PatientForm.or_empty (PatientForm.insuranceNumber values);
    PatientForm.medicalConditions values;
    PatientForm.medications values;
    PatientForm.or_empty (PatientForm.allergies values);
    now; now ].

(** The console with another text. *)
Definition with_sql (c : Console) (v : string) : Console :=
  mkConsole v (results c) (isExecuting c) (resultColumns c)
    (formattedHeaders c) (executionTime c) (sqlHistory c) (activeTab c).

(** The timer an edit leaves pending. *)
Definition pending_after (t : Z) (v : string)
  : option SqlConsolePersisted.Timer :=
  if (v =? "")%string then None
  else Some (SqlConsolePersisted.mkTimer (t + SqlConsolePersisted.delay) v).

(** A pending timer is not due within the delay after [t]. *)
Definition not_due_soon (t : Z) (timer : option SqlConsolePersisted.Timer)
  : Prop :=
  match timer with
  | Some tm => t + SqlConsolePersisted.delay <= SqlConsolePersisted.due tm
  | None => True
  end.

(** *** Sentences of the specification that do not hold as they are
    written *)

(** Of saveToPGlite: with a null handle or with another table name it
    returns and changes nothing. *)
Definition saves_nothing_elsewhere : Prop :=
  forall (db : Handle) (tableName key : string) (value : Value) (now : string)
         (w : World),
    is_null db = true \/ ~ managed tableName ->
    saveToPGlite db tableName key value now w = (Ok tt, w).


(** Of the autosave of the console text: a run of edits and a quiet
    period make one write, of the last text. *)
Definition one_write_per_burst : Prop :=
  forall (toISOString : Z -> string) (edits : list (Z * string)) (t0 : Z)
         (c : Console) (w : World) (quiet : Z),
    edits <> [] ->
    burst t0 (sql c) edits ->
    SqlConsolePersisted.delay <= quiet ->
    let s' := exec (settle Pglite toISOString edits quiet) (None, (c, w)) in
    exists now,
      query_writes (issued (snd (snd s')))
      = query_writes (issued w)
        ++ [UpsertSetting "last_query" (snd (last_edit t0 (sql c) edits)) now].




(** *** Notions of the further properties *)

(** A patient as the object of [interface Patient]. *)
Definition patient_fields (p : Patient) : Object :=
  [ ("id", JStr (id p));
    ("firstName", JStr (firstName p));
    ("lastName", JStr (lastName p));
    ("dateOfBirth", JStr (dateOfBirth p));
    ("gender", JStr (gender p));
    ("email", JStr (email p));
    ("phone", JStr (phone p));
    ("address", JStr (address p));
    ("insuranceProvider", JStr (insuranceProvider p));
    ("insuranceNumber", JStr (insuranceNumber p));
    ("medicalConditions", JStr (medicalConditions p));
    ("medications", JStr (medications p));
    ("allergies", JStr (allergies p));
    ("createdAt", JStr (createdAt p));
    ("updatedAt", JStr (updatedAt p)) ].

(** The text of a column that may hold NULL, the empty text for NULL. *)
Definition text_of_column (v : option string) : string :=
  match v with
  | Some s => s
  | None => ""
  end.

(** The patient a row stands for. *)
Definition patient_of_row (r : PatientRow) : Patient :=
  mkPatient (row_id r) (first_name r) (last_name r) (date_of_birth r)
    (row_gender r)
    (text_of_column (row_email r))
    (text_of_column (row_phone r))
    (text_of_column (row_address r))
    (text_of_column (insurance_provider r))
    (text_of_column (insurance_number r))
    (text_of_column (medical_conditions r))
    (text_of_column (row_medications r))
    (text_of_column (row_allergies r))
    (created_at r) (updated_at r).

(** The label of a header, read character by character: an underscore
    becomes a space, a character that starts the header or follows an
    underscore is put in upper case, any other in lower case. *)
Fixpoint label_from (start : bool) (s : string) : string :=
  match s with
  | EmptyString => ""
  | String c s' =>
      if Ascii.eqb c "_" then String " " (label_from true s')
      else String (if start then upper_char c else lower_char c)
             (label_from false s')
  end.

(** The history holds no text twice and at most ten texts. *)
Definition history_ok (h : list string) : Prop :=
  NoDup h /\ (List.length h <= 10)%nat.

(** The operation hydrates the console from the store. *)
Definition mounts (op : App.Operation) : bool :=
  match op with
  | App.ConsoleMounted _ => true
  | _ => false
  end.

(** [JSON.parse] reads the text of the value back as the value. *)
Definition reads_back `{Host} (v : Value) : Prop :=
  forall text, JSON_stringify v = Some text -> JSON_parse text = Some v.

(** The text a table holds for a key: that of the first row found,
    which is what the application reads as [rows[0]]. *)
Definition stored (k : string) (t : list Entry) : option string :=
  hd_error (select k t).

(** An object whose properties are all texts. *)
Definition texts (o : Object) : Prop :=
  Forall (fun kv => exists s, snd kv = JStr s) o.

(** The texts of the console among the statements sent. *)
Definition console_texts (l : list Stmt) : list string :=
  flat_map (fun s =>
              match s with
              | Verbatim text => [text]
              | _ => []
              end) l.

(** The form shows the values and would go back to them. *)
Definition shows (f : PatientForm.Form) (v : PatientForm.PatientFormValues)
  : Prop :=
  PatientForm.fields f = v /\ PatientForm.resetValues f = v.

(** [JSON.parse] reads the text of [v] as [v']. *)
Definition parses_to `{Host} (v v' : Value) : Prop :=
  forall text, JSON_stringify v = Some text -> JSON_parse text = Some v'.

(** What JSON keeps of an object whose properties are texts or
    undefined: the properties that are defined. *)
Definition defined (o : Object) : Object :=
  filter (fun kv =>
            match snd kv with
            | JUndefined => false
            | _ => true
            end) o.

(** The values with the empty text for each optional field left out. *)
Definition filled (v : PatientForm.PatientFormValues)
  : PatientForm.PatientFormValues :=
  PatientForm.mkValues
    (PatientForm.firstName v) (PatientForm.lastName v)
    (PatientForm.dateOfBirth v) (PatientForm.gender v)
    (Some (text_of_column (PatientForm.email v)))
    (PatientForm.phone v) (PatientForm.address v)
    (Some (text_of_column (PatientForm.insuranceProvider v)))
    (Some (text_of_column (PatientForm.insuranceNumber v)))
    (PatientForm.medicalConditions v) (PatientForm.medications v)
    (Some (text_of_column (PatientForm.allergies v))).

End Spec.

(** ** Data of the examples *)

Module Examples.
Import Js db SqlConsole Spec.

Definition columns_example_console : Console :=
  mkConsole "SELECT * FROM patients" [] false [] [] 0 [] "results".

Definition columns_example_world : World :=
  Sample.world_of (mkStore [Sample.jane] [] []).

Definition columns_example_shown : list string :=
  resultColumns
    (fst (exec (@SqlConsolePersisted.executeQuery Sample.host Pglite false
                  Sample.noon 3)
            (columns_example_console, columns_example_world))).

Definition failure_example_console : Console :=
  mkConsole "SELEC" [[("id", JStr "p1")]] false ["id"] [("id", JStr "Id")]
    7 ["SELECT * FROM patients"] "results".

Definition unserialisable_example : Value := JObj [("count", JBigInt 1)].

Definition draft_example_world : World :=
  Sample.world_of
    (mkStore [] [mkEntry "patient_registration_form" "{}" "2024-06-01"] []).

Definition submit_example_values : PatientForm.PatientFormValues :=
  PatientForm.mkValues "Jane" "Doe" "2000-06-15" "female"
    (Some "jane@example.org") "5550100000" "1 Main St" None (Some "")
    "none" "none" None.

Definition submit_example_form : PatientForm.Form :=
  PatientForm.mkForm false submit_example_values PatientForm.defaultValues.



Definition typed_and_erased : list (Z * string) := [(0, "S"); (100, "")].

Definition typed_twice : list (Z * string) := [(0, "S"); (100, "SE")].



(** *** Data of the further examples *)

(** What the console shows of the one registered patient. *)
Definition shown_example_rows : list Object :=
  @processedResults Sample.host (today Sample.noon)
    [Sample.patient_object Sample.jane].

Definition shown_example_columns : list string :=
  reorderedColumns (keys (Sample.patient_object Sample.jane)).

Definition shown_example_headers : Object :=
  headers (keys (Sample.patient_object Sample.jane)).

(** A host that reads back the texts these examples store. *)
Definition reading_host : Host :=
  mkHost Sample.date_only
    (Sample.parse_among
       [ JArr (map JObj shown_example_rows);
         JArr (map JStr shown_example_columns);
         JObj shown_example_headers;
         JArr [JStr "SELECT * FROM patients"];
         JObj (defined (PatientForm.toObject submit_example_values)) ])
    Sample.query.

(** A context without a window, hence without a channel. *)
Definition offline_world : World :=
  mkWorld (mkStore [Sample.jane] [] []) [] NoWindow [] [] [] [].

Definition delete_example_console : Console :=
  mkConsole "DELETE FROM patients" shown_example_rows false
    shown_example_columns shown_example_headers 3 ["SELECT * FROM patients"]
    "results".

(** A tab with the store open, about to run the text of its console. *)
Definition ready_example_state : App.State :=
  App.mkState Pglite false columns_example_console submit_example_form
    columns_example_world.

Definition other_example_message : Message :=
  mkMessage "form-cleared" (JObj [("id", JStr "patient_registration_form")]) 0.

(** The tab that ran the query of the example, and another tab on the
    store it left. *)
Definition shown_example_tab : Tab :=
  exec (@SqlConsolePersisted.executeQuery reading_host Pglite false
          Sample.noon 3)
    (columns_example_console, columns_example_world).

Definition other_example_tab : Tab :=
  (initial, Sample.world_of (store (snd shown_example_tab))).

End Examples.

(** * Properties *)

(** ** The calculus of [post] *)

Section Post.
Context {S : Type}.

Lemma post_ret {A} (a : A) (s : S) Q : Q (Ok a) s -> post (ret a) s Q.
Proof. exact (fun q => q). Qed.

Lemma post_throw {A} (e : string) (s : S) (Q : Result A -> S -> Prop) :
  Q (Thrown e) s -> post (throw e) s Q.
Proof. exact (fun q => q). Qed.

Lemma post_get_state (s : S) Q : Q (Ok s) s -> post get_state s Q.
Proof. exact (fun q => q). Qed.

Lemma post_modify (f : S -> S) (s : S) Q :
  Q (Ok tt) (f s) -> post (modify f) s Q.
Proof. exact (fun q => q). Qed.

Lemma post_bind {A B} (m : M S A) (k : A -> M S B) (s : S) Q :
  post m s (fun r s' =>
              match r with
              | Ok a => post (k a) s' Q
              | Thrown e => Q (Thrown e) s'
              end) ->
  post (bind m k) s Q.
Proof.
  unfold post, bind. destruct (m s) as [[a | e] s']; simpl; auto.
Qed.

Lemma post_try_catch {A} (body : M S A) (handler : string -> M S A) (s : S) Q :
  post body s (fun r s' =>
                 match r with
                 | Ok a => Q (Ok a) s'
                 | Thrown e => post (handler e) s' Q
                 end) ->
  post (try_catch body handler) s Q.
Proof.
  unfold post, try_catch. destruct (body s) as [[a | e] s']; simpl; auto.
Qed.

Lemma post_try_finally {A} (body : M S A) (cleanup : M S unit) (s : S) Q :
  post body s (fun r s' =>
                 post cleanup s' (fun r' s'' =>
                                    match r' with
                                    | Ok _ => Q r s''
                                    | Thrown e => Q (Thrown e) s''
                                    end)) ->
  post (try_finally body cleanup) s Q.
Proof.
  unfold post, try_finally. destruct (body s) as [r s']; simpl.
  destruct (cleanup s') as [[u | e] s'']; simpl; auto.
Qed.

Lemma post_exec {A} (m : M S A) (s : S) (P : S -> Prop) :
  post m s (fun _ s' => P s') -> P (exec m s).
Proof. exact (fun q => q). Qed.

End Post.

Section PostWorld.
Import db.

Lemma post_inWorld {V A} (m : M World A) (t : V * World) Q :
  post m (snd t) (fun r w' => Q r (fst t, w')) -> post (inWorld m) t Q.
Proof.
  unfold post, inWorld. destruct (m (snd t)) as [r w']. simpl. auto.
Qed.

(** A computation on the world leaves the React state as it is. *)
Lemma post_inWorld_frame {V A} (m : M World A) (t : V * World) Q :
  (forall r w', Q r (fst t, w')) -> post (inWorld m) t Q.
Proof. intros HQ. apply post_inWorld. apply HQ. Qed.

Lemma post_query_verbatim `{Host} (text : string) (w : World) Q :
  (forall r s',
     pglite_query text (store w) = (r, s') ->
     Q r (with_store (fun _ => s') (send (Verbatim text) w))) ->
  post (query_verbatim text) w Q.
Proof.
  intros HQ. unfold post, query_verbatim.
  destruct (pglite_query text (store w)) as [r s'] eqn:E. simpl.
  apply HQ. reflexivity.
Qed.

Lemma post_select_setting (k : string) (w : World) Q :
  Q (Ok (select k (sql_settings (store w)))) (send (SelectSetting k) w) ->
  post (select_setting k) w Q.
Proof. exact (fun q => q). Qed.

Lemma post_query_insert_patient (params : list string) (w : World) Q :
  (forall t,
     insert_patient params (patients (store w)) = Ok t ->
     Q (Ok tt)
       (with_store (fun s => mkStore t (form_persistence s) (sql_settings s))
          (send (InsertPatient params) w))) ->
  (forall e,
     insert_patient params (patients (store w)) = Thrown e ->
     Q (Thrown e) (send (InsertPatient params) w)) ->
  post (query_insert_patient params) w Q.
Proof.
  intros Hok Hthrown. unfold post, query_insert_patient.
  destruct (insert_patient params (patients (store w))) as [t | e]; simpl;
    auto.
Qed.

Lemma post_broadcastChange (type_ : string) (data_ : Js.Value) (stamp : Z)
  (w : World) Q :
  (channel w = ChannelOpen ->
   Q (Ok tt) (postMessage (mkMessage type_ data_ stamp) w)) ->
  (channel w = NoWindow -> Q (Ok tt) w) ->
  (channel w = NoBroadcastChannel ->
   Q (Ok tt)
     (mkWorld (store w) (issued w) (channel w) (posted w) (toasts w)
        (console_error w ++ ["Failed to create BroadcastChannel:"])
        (localStorage w))) ->
  post (broadcastChange type_ data_ stamp) w Q.
Proof.
  intros Hopen Hwindow Hnone.
  unfold post, broadcastChange, getBroadcastChannel, bind.
  destruct (channel w) eqn:E; simpl.
  - apply Hwindow. reflexivity.
  - rewrite E. apply Hnone. reflexivity.
  - apply Hopen. reflexivity.
Qed.

End PostWorld.

(** ** Running a computation step by step *)

Ltac unfold_ops :=
  unfold SqlConsole.setSql, SqlConsole.setResults, SqlConsole.setIsExecuting,
    SqlConsole.setResultColumns, SqlConsole.setFormattedHeaders,
    SqlConsole.setExecutionTime, SqlConsole.setSqlHistory,
    SqlConsole.setActiveTab, SqlConsole.setState, SqlConsole.parse,
    SqlConsolePersisted.save_setting, SqlConsolePersisted.setTimer,
    SqlConsolePersisted.autosave,
    PatientForm.setIsSubmitting, PatientForm.reset, PatientForm.saveFormData,
    PatientForm.watch, PatientFormPersisted.reset_to,
    db.toast, db.console_error_, db.delete_settings, db.upsert_setting,
    db.upsert_form, db.delete_form, db.create_settings_table, db.setItem,
    db.removeItem, db.saveToPGlite.

Ltac tidy :=
  cbv beta iota;
  cbn [fst snd db.is_null orb andb negb
       SqlConsole.sql SqlConsole.results SqlConsole.isExecuting
       SqlConsole.resultColumns SqlConsole.formattedHeaders
       SqlConsole.executionTime SqlConsole.sqlHistory SqlConsole.activeTab
       PatientForm.isSubmitting PatientForm.fields PatientForm.resetValues
       db.store db.issued db.channel db.posted db.toasts db.console_error
       db.localStorage db.patients db.form_persistence db.sql_settings
       db.send db.with_store db.with_localStorage db.postMessage
       db.rows db.rowCount].

(** A test or a scrutinee: use what is known of it, compute it when it
    is closed, and split on it otherwise. *)
Ltac decide_on x :=
  first
    [ match goal with
      | H : x = _ |- _ => rewrite H
      end
    | let v := eval cbv in x in
      lazymatch v with
      | true => change x with true
      | false => change x with false
      end
    | destruct x eqn:? ].

(** One step of [post]: the rule of the construct at the head. *)
Ltac post_step :=
  lazymatch goal with
  | |- post (bind _ _) _ _ => apply post_bind
  | |- post (ret _) _ _ => apply post_ret
  | |- post (throw _) _ _ => apply post_throw
  | |- post get_state _ _ => apply post_get_state
  | |- post (modify _) _ _ => apply post_modify
  | |- post (try_catch _ _) _ _ => apply post_try_catch
  | |- post (try_finally _ _) _ _ => apply post_try_finally
  | |- post (db.inWorld (db.query_verbatim _)) _ _ =>
      apply post_inWorld, post_query_verbatim; tidy;
      let r := fresh "r" in
      let s := fresh "s" in
      let Hq := fresh "Hq" in
      intros r s Hq;
      try match goal with
          | Hk : ?x = _ |- _ =>
              tryif constr_eq Hk Hq then fail
              else lazymatch type of Hq with
                   | x = _ => rewrite Hk in Hq
                   end
          end;
      first [ injection Hq as <- <- | destruct r ]
  | |- post (db.inWorld _) _ _ => apply post_inWorld
  | |- post (db.select_setting _) _ _ => apply post_select_setting
  | |- post (db.query_insert_patient _) _ _ =>
      apply post_query_insert_patient; intros ? ?
  | |- post (db.broadcastChange _ _ _) _ _ =>
      apply post_broadcastChange; tidy; intros ?; try congruence
  | |- post (if ?b then _ else _) _ _ => decide_on b
  | |- post (match ?x with Some _ => _ | None => _ end) _ _ => decide_on x
  | |- post (match ?x with nil => _ | cons _ _ => _ end) _ _ => decide_on x
  | |- post _ _ _ => progress unfold_ops
  end; tidy.

(** The same, passing over what is done on the world alone. *)
Ltac view_step :=
  lazymatch goal with
  | |- post (db.inWorld (db.query_verbatim _)) _ _ => post_step
  | |- post (db.inWorld (db.select_setting _)) _ _ => post_step; post_step
  | |- post (db.inWorld _) _ _ =>
      apply post_inWorld_frame; intros [? | ?] ?; tidy
  | |- _ => post_step
  end.

(** ** The age *)

Section Age.
Import Js db SqlConsole Spec.
Context `{Host}.

Lemma calculateAge_valid (today dob : Date) (dateOfBirth : Value) :
  new_Date dateOfBirth = Some dob ->
  calculateAge today dateOfBirth =
    Fin (if (getMonth today - getMonth dob <? 0)
            || ((getMonth today - getMonth dob =? 0)
                && (getDate today <? getDate dob))
         then getFullYear today - getFullYear dob - 1
         else getFullYear today - getFullYear dob).
Proof.
  intros Hdob. unfold calculateAge. rewrite Hdob.
  destruct ((getMonth today - getMonth dob <? 0)
            || ((getMonth today - getMonth dob =? 0)
                && (getDate today <? getDate dob))); reflexivity.
Qed.

Lemma birthday_ahead_test (today dob : Date) :
  (getMonth today - getMonth dob <? 0)
  || ((getMonth today - getMonth dob =? 0) && (getDate today <? getDate dob))
  = true <-> birthday_ahead today dob.
Proof.
  unfold birthday_ahead.
  rewrite orb_true_iff, andb_true_iff, !Z.ltb_lt, Z.eqb_eq. lia.
Qed.

(** An Invalid Date gives NaN. *)
Lemma calculateAge_invalid (today : Date) (dateOfBirth : Value) :
  new_Date dateOfBirth = None -> calculateAge today dateOfBirth = NaN.
Proof. intros Hdob. unfold calculateAge. rewrite Hdob. reflexivity. Qed.

(** On the calendar day [dob] that [new Date] reads the birth date as,
    in local time: the age is the difference of the calendar years, less
    one exactly when the current month comes before the month of [dob],
    or the months are equal and the current day comes before the day of
    [dob]; it is the number of whole years elapsed since [dob] (the last
    anniversary reached is on or before today, the next one is not).
    When [dob] is 2000-06-15, the age is 23 on 2024-06-14 and 24 on
    2024-06-15. *)
Theorem calculateAge_whole_years (today dob : Date) (dateOfBirth : Value) :
  new_Date dateOfBirth = Some dob ->
  (birthday_ahead today dob ->
   calculateAge today dateOfBirth
   = Fin (getFullYear today - getFullYear dob - 1))
  /\ (~ birthday_ahead today dob ->
      calculateAge today dateOfBirth
      = Fin (getFullYear today - getFullYear dob))
  /\ (exists age,
        calculateAge today dateOfBirth = Fin age
        /\ on_or_before (anniversary dob age) today
        /\ ~ on_or_before (anniversary dob (age + 1)) today)
  /\ (dob = mkDate 2000 5 15 ->
      (today = mkDate 2024 5 14 -> calculateAge today dateOfBirth = Fin 23)
      /\ (today = mkDate 2024 5 15 -> calculateAge today dateOfBirth = Fin 24)).
Proof.
  intros Hdob. rewrite (calculateAge_valid today dob dateOfBirth Hdob).
  pose proof (birthday_ahead_test today dob) as Htest.
  destruct ((getMonth today - getMonth dob <? 0)
            || ((getMonth today - getMonth dob =? 0)
                && (getDate today <? getDate dob))) eqn:E.
  - assert (Hahead : birthday_ahead today dob) by (apply Htest; reflexivity).
    split; [reflexivity|]. split; [intros Hn; contradiction|].
    split; [|intros ->; split].
    + eexists. split; [reflexivity|].
      unfold on_or_before, anniversary, birthday_ahead in *. simpl. lia.
    + intros ->. reflexivity.
    + intros ->. unfold birthday_ahead in Hahead. simpl in Hahead. lia.
  - assert (Hnot : ~ birthday_ahead today dob).
    { intros Ha. apply Htest in Ha. discriminate. }
    split; [intros Ha; contradiction|]. split; [reflexivity|].
    split; [|intros ->; split].
    + eexists. split; [reflexivity|].
      unfold on_or_before, anniversary, birthday_ahead in *. simpl. lia.
    + intros ->. exfalso. apply Hnot. unfold birthday_ahead. simpl. lia.
    + intros ->. reflexivity.
Qed.

End Age.

(** In a time zone at or east of UTC the text [2000-06-15] is read as
    that day, and the ages are those of the specification. *)
Lemma calculateAge_whole_years_witness :
  @db.new_Date Sample.host (Js.JStr "2000-06-15") = Some (Js.mkDate 2000 5 15)
  /\ @SqlConsole.calculateAge Sample.host (Js.mkDate 2024 5 14)
       (Js.JStr "2000-06-15") = Js.Fin 23
  /\ @SqlConsole.calculateAge Sample.host (Js.mkDate 2024 5 15)
       (Js.JStr "2000-06-15") = Js.Fin 24.
Proof.
  split; [reflexivity|]. split.
  - apply (@calculateAge_whole_years Sample.host (Js.mkDate 2024 5 14)
             (Js.mkDate 2000 5 15) (Js.JStr "2000-06-15") eq_refl);
      reflexivity.
  - apply (@calculateAge_whole_years Sample.host (Js.mkDate 2024 5 15)
             (Js.mkDate 2000 5 15) (Js.JStr "2000-06-15") eq_refl);
      reflexivity.
Defined.

Section AgeWest.
Import Js db SqlConsole Spec.

(** In a time zone west of UTC the birth date is read as the day
    before, and the age is counted from that day. *)
Lemma calculateAge_west (today dob : Date) (text : Value) :
  Sample.date_only text = Some dob ->
  @calculateAge Sample.west_host today text
  = Fin (if (getMonth today - getMonth (Sample.day_before dob) <? 0)
            || ((getMonth today - getMonth (Sample.day_before dob) =? 0)
                && (getDate today <? getDate (Sample.day_before dob)))
         then getFullYear today - getFullYear (Sample.day_before dob) - 1
         else getFullYear today - getFullYear (Sample.day_before dob)).
Proof.
  intros Hdob.
  apply (@calculateAge_valid Sample.west_host today (Sample.day_before dob)
           text).
  cbn [new_Date Sample.west_host]. unfold Sample.date_only_west.
  rewrite Hdob. reflexivity.
Qed.

(** C2.  The code at the failing input.  The birth date is stored as a
    date-only text, which [new Date] reads as midnight UTC, while
    [getFullYear], [getMonth] and [getDate] read the local day: in a
    time zone west of UTC the text [2000-06-15] is read as 2000-06-14,
    and on 2024-06-14 the age comes out as 24, where the specification
    says 23 (as it does at or east of UTC); west of UTC the age 23 is
    last shown on 2024-06-13. *)
Theorem calculateAge_day_early_west_of_UTC :
  @new_Date Sample.west_host (JStr "2000-06-15") = Some (mkDate 2000 5 14)
  /\ @calculateAge Sample.west_host (mkDate 2024 5 14) (JStr "2000-06-15")
     = Fin 24
  /\ @calculateAge Sample.host (mkDate 2024 5 14) (JStr "2000-06-15")
     = Fin 23
  /\ @calculateAge Sample.west_host (mkDate 2024 5 13) (JStr "2000-06-15")
     = Fin 23.
Proof.
  split; [reflexivity | ]. split; [ | split; reflexivity].
  rewrite (calculateAge_west (mkDate 2024 5 14) (mkDate 2000 5 15)
             (JStr "2000-06-15") eq_refl).
  reflexivity.
Qed.

End AgeWest.

(** ** The history of the console *)

Section History.
Import Js db SqlConsole Spec.

Lemma includes_In (x : string) (xs : list string) :
  includes x xs = true <-> In x xs.
Proof.
  unfold includes. rewrite existsb_exists. split.
  - intros [y [Hin Heq]]. apply String.eqb_eq in Heq. subst. exact Hin.
  - intros Hin. exists x. split; [exact Hin | apply String.eqb_refl].
Qed.

Lemma includes_not_In (x : string) (xs : list string) :
  includes x xs = false <-> ~ In x xs.
Proof.
  rewrite <- includes_In. destruct (includes x xs); split; intros; congruence.
Qed.

Lemma slice_last_suffix {A} (n : nat) (xs : list A) :
  exists dropped,
    xs = dropped ++ slice_last n xs
    /\ List.length (slice_last n xs) = Nat.min n (List.length xs).
Proof.
  exists (firstn (List.length xs - n) xs). unfold slice_last. split.
  - symmetry. apply firstn_skipn.
  - rewrite length_skipn. lia.
Qed.









Context `{Host}.

(** A query that the engine answers moves the history of the console
    by [pushHistory]. *)
Lemma executeQuery_history (c : Console) (w : World) (clock : Clock)
  (elapsed : Z) (result : QueryResult) (s' : Store) :
  blank (sql c) = false ->
  pglite_query (sql c) (store w) = (Ok result, s') ->
  sqlHistory (fst (exec (SqlConsole.executeQuery Pglite false clock elapsed)
                     (c, w)))
  = pushHistory (sql c) (sqlHistory c).
Proof.
  intros Hblank Hquery.
  apply (post_exec _ _ (fun t => sqlHistory (fst t) = _)).
  unfold SqlConsole.executeQuery.
  repeat post_step; reflexivity.
Qed.

Lemma last_toast (l : list Toast) (a b : Toast) (before : list Toast) :
  l ++ [a] = before ++ [b] -> a = b.
Proof. intros Heq. apply app_inj_tail in Heq. apply Heq. Qed.

(** The same for the console that persists, when it reports success. *)
Lemma executeQuery_history_persisted (c : Console) (w : World) (clock : Clock)
  (elapsed : Z) (result : QueryResult) (s' : Store) :
  blank (sql c) = false ->
  pglite_query (sql c) (store w) = (Ok result, s') ->
  let t' := exec (SqlConsolePersisted.executeQuery Pglite false clock elapsed)
              (c, w) in
  reported_success (snd t') ->
  sqlHistory (fst t') = pushHistory (sql c) (sqlHistory c).
Proof.
  intros Hblank Hquery t'. subst t'.
  apply (post_exec _ _ (fun t => reported_success (snd t) ->
                                 sqlHistory (fst t) = _)).
  unfold SqlConsolePersisted.executeQuery, reported_success, pushHistory.
  repeat post_step;
    try reflexivity;
    intros [before [d Hlast]]; apply last_toast in Hlast; discriminate.
Qed.

End History.

(** ** The order of the columns *)

Section Columns.
Import Js db SqlConsole Spec.

Lemma indexOf_split (x : string) (xs : list string) :
  In x xs ->
  exists before after,
    xs = before ++ x :: after
    /\ ~ In x before
    /\ indexOf x xs = Some (List.length before).
Proof.
  induction xs as [| y ys IH]; intros Hin; [contradiction|].
  simpl. destruct (String.eqb_spec y x) as [-> | Hne].
  - exists [], ys. repeat split; auto.
  - destruct Hin as [Heq | Hin]; [congruence|].
    destruct (IH Hin) as [before [after [Heq [Hnot Hidx]]]].
    exists (y :: before), after. rewrite Hidx. subst ys. repeat split.
    intros [Hy | Hb]; [congruence | contradiction].
Qed.

Lemma splice_insert_after {A} (before after : list A) (x y : A) :
  splice_insert (List.length before + 1) y (before ++ x :: after)
  = before ++ x :: y :: after.
Proof.
  unfold splice_insert.
  rewrite firstn_app, skipn_app.
  rewrite firstn_all2 by lia. rewrite skipn_all2 by lia.
  replace (List.length before + 1 - List.length before)%nat
    with 1%nat by lia.
  simpl. rewrite <- app_assoc. reflexivity.
Qed.

Lemma reorderedColumns_cases (columns : list string) :
  (In "date_of_birth" columns -> In "gender" columns ->
   exists before after,
     filter not_age columns = before ++ "gender" :: after
     /\ ~ In "gender" before
     /\ reorderedColumns columns = before ++ "gender" :: "age" :: after)
  /\ (In "date_of_birth" columns -> ~ In "gender" columns ->
      reorderedColumns columns = columns ++ ["age"])
  /\ (~ In "date_of_birth" columns -> reorderedColumns columns = columns).
Proof.
  unfold reorderedColumns. split; [|split].
  - intros Hdob Hgender.
    rewrite (proj2 (includes_In _ _) Hdob), (proj2 (includes_In _ _) Hgender).
    simpl.
    assert (Hin : In "gender" (filter not_age columns)).
    { apply filter_In. split; [exact Hgender | reflexivity]. }
    destruct (indexOf_split "gender" _ Hin)
      as [before [after [Heq [Hnot Hidx]]]].
    exists before, after. split; [exact Heq|]. split; [exact Hnot|].
    fold not_age. rewrite Hidx, Heq. apply splice_insert_after.
  - intros Hdob Hgender.
    rewrite (proj2 (includes_In _ _) Hdob),
      (proj2 (includes_not_In _ _) Hgender). reflexivity.
  - intros Hdob. rewrite (proj2 (includes_not_In _ _) Hdob). reflexivity.
Qed.

Context `{Host}.

Lemma executeQuery_columns (c : Console) (w : World) (clock : Clock)
  (elapsed : Z) (result : QueryResult) (s' : Store) (row0 : Object)
  (rest : list Object) :
  blank (sql c) = false ->
  pglite_query (sql c) (store w) = (Ok result, s') ->
  rows result = Some (row0 :: rest) ->
  resultColumns
    (fst (exec (SqlConsole.executeQuery Pglite false clock elapsed) (c, w)))
  = reorderedColumns (keys row0)
  /\ resultColumns
       (fst (exec (SqlConsolePersisted.executeQuery Pglite false clock elapsed)
               (c, w)))
     = reorderedColumns (keys row0).
Proof.
  intros Hblank Hquery Hrows. split.
  - apply (post_exec _ _ (fun t => resultColumns (fst t) = _)).
    unfold SqlConsole.executeQuery. repeat view_step; reflexivity.
  - apply (post_exec _ _ (fun t => resultColumns (fst t) = _)).
    unfold SqlConsolePersisted.executeQuery. repeat view_step; reflexivity.
Qed.

(** C4.  When the engine answers a query with rows, the columns shown
    are those of the first row, with [age] put right after [gender]
    when the row has a birth date and a gender, put last when it has a
    birth date and no gender, and not put at all when it has no birth
    date.  [shown] is the column order of either console. *)
Theorem age_column_placement (c : Console) (w : World) (clock : Clock)
  (elapsed : Z) (result : QueryResult) (s' : Store) (row0 : Object)
  (rest : list Object) (shown : list string) :
  blank (sql c) = false ->
  pglite_query (sql c) (store w) = (Ok result, s') ->
  rows result = Some (row0 :: rest) ->
  shown = resultColumns
            (fst (exec (SqlConsole.executeQuery Pglite false clock elapsed)
                    (c, w)))
  \/ shown = resultColumns
               (fst (exec (SqlConsolePersisted.executeQuery Pglite false clock
                             elapsed) (c, w))) ->
  (In "date_of_birth" (keys row0) -> In "gender" (keys row0) ->
   exists before after,
     filter not_age (keys row0) = before ++ "gender" :: after
     /\ ~ In "gender" before
     /\ shown = before ++ "gender" :: "age" :: after)
  /\ (In "date_of_birth" (keys row0) -> ~ In "gender" (keys row0) ->
      shown = keys row0 ++ ["age"])
  /\ (~ In "date_of_birth" (keys row0) -> shown = keys row0).
Proof.
  intros Hblank Hquery Hrows Hshown.
  destruct (executeQuery_columns c w clock elapsed result s' row0 rest
              Hblank Hquery Hrows) as [Hlocal Hpersisted].
  assert (Heq : shown = reorderedColumns (keys row0)).
  { destruct Hshown as [-> | ->]; assumption. }
  rewrite Heq. apply reorderedColumns_cases.
Qed.

End Columns.

Section ColumnsExample.
Import Js db SqlConsole Spec Examples.

(** C4 on a row of [patients]: [age] comes right after [gender]. *)
Lemma age_column_placement_witness :
  blank (sql columns_example_console) = false
  /\ In "date_of_birth" (keys (Sample.patient_object Sample.jane))
  /\ In "gender" (keys (Sample.patient_object Sample.jane))
  /\ exists before after,
       filter not_age (keys (Sample.patient_object Sample.jane))
       = before ++ "gender" :: after
       /\ ~ In "gender" before
       /\ columns_example_shown = before ++ "gender" :: "age" :: after.
Proof.
  split; [reflexivity|].
  split; [simpl; tauto|].
  split; [simpl; tauto|].
  apply (@age_column_placement Sample.host columns_example_console
           columns_example_world Sample.noon 3
           (mkQueryResult (Some [Sample.patient_object Sample.jane]) None)
           (mkStore [Sample.jane] [] [])
           (Sample.patient_object Sample.jane) [] columns_example_shown
           eq_refl eq_refl eq_refl (or_intror eq_refl)).
  - simpl. tauto.
  - simpl. tauto.
Defined.

End ColumnsExample.

(** ** A query that fails *)

Section Failure.
Import Js db SqlConsole Spec.
Context `{Host}.

(** C6.  When the engine rejects the query of the console, the results,
    the columns, the headers, the history, the execution time (and the
    text and the tab) are what they were; the failure is shown as one
    toast and logged, nothing is broadcast, and the console is left
    idle.  [t'] is the result of either console. *)
Theorem failed_query_keeps_state (c : Console) (w : World) (clock : Clock)
  (elapsed : Z) (message : string) (s' : Store)
  (t' : Console * World) :
  blank (sql c) = false ->
  pglite_query (sql c) (store w) = (Thrown message, s') ->
  t' = exec (SqlConsole.executeQuery Pglite false clock elapsed) (c, w)
  \/ t' = exec (SqlConsolePersisted.executeQuery Pglite false clock elapsed)
            (c, w) ->
  fst t' = idle c
  /\ results (fst t') = results c
  /\ resultColumns (fst t') = resultColumns c
  /\ formattedHeaders (fst t') = formattedHeaders c
  /\ sqlHistory (fst t') = sqlHistory c
  /\ executionTime (fst t') = executionTime c
  /\ isExecuting (fst t') = false
  /\ toasts (snd t') = toasts w ++ [mkToast true "Query failed" message]
  /\ console_error (snd t') = console_error w ++ [message]
  /\ posted (snd t') = posted w.
Proof.
  intros Hblank Hquery Ht'.
  assert (Hrun :
    fst t' = idle c
    /\ toasts (snd t') = toasts w ++ [mkToast true "Query failed" message]
    /\ console_error (snd t') = console_error w ++ [message]
    /\ posted (snd t') = posted w).
  { destruct Ht' as [-> | ->].
    - apply (post_exec _ _ (fun t =>
               fst t = idle c
               /\ toasts (snd t) = _ /\ console_error (snd t) = _
               /\ posted (snd t) = _)).
      unfold SqlConsole.executeQuery. repeat post_step.
      repeat split; reflexivity.
    - apply (post_exec _ _ (fun t =>
               fst t = idle c
               /\ toasts (snd t) = _ /\ console_error (snd t) = _
               /\ posted (snd t) = _)).
      unfold SqlConsolePersisted.executeQuery. repeat post_step.
      repeat split; reflexivity. }
  destruct Hrun as [Hidle [Htoasts [Herrors Hposted]]].
  rewrite Hidle. repeat split; assumption.
Qed.

(** Not a failure of the query: when the engine answers with rows that
    cannot be serialised, the console that persists shows them and then
    reports the failure of the save as a failed query. *)
Lemma unsaved_result_is_shown (c : Console) (w : World) (clock : Clock)
  (elapsed : Z) (result : QueryResult) (s' : Store) (row0 : Object)
  (rest : list Object) :
  blank (sql c) = false ->
  pglite_query (sql c) (store w) = (Ok result, s') ->
  rows result = Some (row0 :: rest) ->
  stringValue
    (JArr (map JObj (processedResults (today clock) (row0 :: rest)))) = None ->
  let t' := exec (SqlConsolePersisted.executeQuery Pglite false clock elapsed)
              (c, w) in
  results (fst t') = processedResults (today clock) (row0 :: rest)
  /\ sqlHistory (fst t') = sqlHistory c
  /\ toasts (snd t')
     = toasts w
       ++ [mkToast true "Query failed" "Do not know how to serialize a BigInt"].
Proof.
  intros Hblank Hquery Hrows Hvalue t'. subst t'.
  apply (post_exec _ _ (fun t =>
           results (fst t) = _ /\ sqlHistory (fst t) = _
           /\ toasts (snd t) = _)).
  unfold SqlConsolePersisted.executeQuery.
  repeat post_step. repeat split; reflexivity.
Qed.

End Failure.

Section FailureExample.
Import Js db SqlConsole Spec Examples.

(** C6 on a text the engine rejects: the console is as it was. *)
Lemma failed_query_keeps_state_witness :
  fst (exec (@SqlConsolePersisted.executeQuery Sample.host Pglite false
               Sample.noon 3)
         (failure_example_console, columns_example_world))
  = failure_example_console.
Proof.
  exact (proj1
    (@failed_query_keeps_state Sample.host failure_example_console
       columns_example_world Sample.noon 3 "syntax error"
       (mkStore [Sample.jane] [] []) _ eq_refl eq_refl (or_intror eq_refl))).
Defined.

End FailureExample.

(** ** saveToPGlite *)

Section Save.
Import Js db Spec.

Lemma saveToPGlite_null (tableName key : string) (value : Value)
  (now : string) (w : World) :
  saveToPGlite NullDb tableName key value now w = (Ok tt, w).
Proof. reflexivity. Qed.

Lemma saveToPGlite_unserialisable (tableName key : string) (value : Value)
  (now : string) (w : World) :
  stringValue value = None ->
  saveToPGlite Pglite tableName key value now w
  = (Thrown "Do not know how to serialize a BigInt",
     mkWorld (store w) (issued w) (channel w) (posted w) (toasts w)
       (console_error w
        ++ [("Failed to save data to " ++ tableName ++ ":")%string])
       (localStorage w)).
Proof.
  intros Hnone. unfold saveToPGlite, try_catch. simpl. rewrite Hnone.
  reflexivity.
Qed.

Lemma saveToPGlite_form (key : string) (value : Value) (text now : string)
  (w : World) :
  stringValue value = Some text ->
  saveToPGlite Pglite "form_persistence" key value now w
  = (Ok tt,
     mkWorld
       (mkStore (patients (store w))
          (upsert key text now (form_persistence (store w)))
          (sql_settings (store w)))
       (issued w ++ [UpsertForm key text now]) (channel w) (posted w)
       (toasts w) (console_error w) (localStorage w)).
Proof.
  intros Hsome. unfold saveToPGlite, try_catch. simpl. rewrite Hsome.
  reflexivity.
Qed.

Lemma saveToPGlite_settings (key : string) (value : Value) (text now : string)
  (w : World) :
  stringValue value = Some text ->
  saveToPGlite Pglite "sql_settings" key value now w
  = (Ok tt,
     mkWorld
       (mkStore (patients (store w)) (form_persistence (store w))
          (upsert key text now (sql_settings (store w))))
       (issued w ++ [UpsertSetting key text now]) (channel w) (posted w)
       (toasts w) (console_error w) (localStorage w)).
Proof.
  intros Hsome. unfold saveToPGlite, try_catch. simpl. rewrite Hsome.
  reflexivity.
Qed.

Lemma saveToPGlite_other (tableName key : string) (value : Value)
  (text now : string) (w : World) :
  ~ managed tableName ->
  stringValue value = Some text ->
  saveToPGlite Pglite tableName key value now w = (Ok tt, w).
Proof.
  intros Hother Hsome. unfold saveToPGlite, try_catch. simpl. rewrite Hsome.
  destruct (String.eqb_spec tableName "form_persistence") as [-> | _].
  { exfalso. apply Hother. left. reflexivity. }
  destruct (String.eqb_spec tableName "sql_settings") as [-> | _].
  { exfalso. apply Hother. right. reflexivity. }
  reflexivity.
Qed.

(** *** The upsert *)

Lemma upsert_twice (k v now1 now2 : string) (t : list Entry) :
  upsert k v now2 (upsert k v now1 t) = upsert k v now2 t.
Proof.
  induction t as [| r t IH]; simpl.
  - rewrite String.eqb_refl. reflexivity.
  - destruct (entry_key r =? k)%string eqn:E; simpl.
    + rewrite String.eqb_refl. reflexivity.
    + rewrite E, IH. reflexivity.
Qed.

Lemma upsert_unstamped (k v now1 now2 : string) (t : list Entry) :
  unstamped (upsert k v now1 t) = unstamped (upsert k v now2 t).
Proof.
  induction t as [| r t IH]; simpl.
  - reflexivity.
  - destruct (entry_key r =? k)%string; simpl; [reflexivity|].
    rewrite IH. reflexivity.
Qed.

Lemma upsert_keys_In (k v now x : string) (t : list Entry) :
  In x (map entry_key (upsert k v now t)) ->
  x = k \/ In x (map entry_key t).
Proof.
  induction t as [| r t IH]; simpl.
  - intros [Heq | []]. left. symmetry. exact Heq.
  - destruct (String.eqb_spec (entry_key r) k) as [Heq | Hne]; simpl.
    + intros [Hx | Hin]; [left; symmetry; exact Hx | right; right; exact Hin].
    + intros [Hx | Hin]; [right; left; exact Hx|].
      destruct (IH Hin) as [Hk | Ht]; [left; exact Hk | right; right; exact Ht].
Qed.

Lemma upsert_keyed (k v now : string) (t : list Entry) :
  keyed t -> keyed (upsert k v now t).
Proof.
  unfold keyed. induction t as [| r t IH]; simpl; intros Hnd.
  - constructor; [intros [] | constructor].
  - inversion Hnd as [| x l Hnot Hrest]; subst.
    destruct (String.eqb_spec (entry_key r) k) as [Heq | Hne]; simpl.
    + constructor; [rewrite <- Heq; exact Hnot | exact Hrest].
    + constructor; [| apply IH; exact Hrest].
      intros Hin. apply upsert_keys_In in Hin.
      destruct Hin as [Hk | Ht]; [contradiction | contradiction].
Qed.

Lemma rows_of_absent (k : string) (t : list Entry) :
  ~ In k (map entry_key t) -> rows_of k t = [].
Proof.
  unfold rows_of. induction t as [| r t IH]; simpl; intros Hnot.
  - reflexivity.
  - destruct (String.eqb_spec (entry_key r) k) as [Heq | Hne].
    + exfalso. apply Hnot. left. exact Heq.
    + apply IH. intros Hin. apply Hnot. right. exact Hin.
Qed.

Lemma upsert_rows_of (k v now : string) (t : list Entry) :
  keyed t -> rows_of k (upsert k v now t) = [mkEntry k v now].
Proof.
  unfold keyed, rows_of. induction t as [| r t IH]; simpl; intros Hnd.
  - rewrite String.eqb_refl. reflexivity.
  - inversion Hnd as [| x l Hnot Hrest]; subst.
    destruct (String.eqb_spec (entry_key r) k) as [Heq | Hne]; simpl.
    + rewrite String.eqb_refl. f_equal.
      apply rows_of_absent. rewrite <- Heq. exact Hnot.
    + destruct (String.eqb_spec (entry_key r) k); [contradiction|].
      apply IH. exact Hrest.
Qed.

Lemma last_default {A} (l : list A) (x d d' : A) :
  last (x :: l) d = last (x :: l) d'.
Proof.
  revert x. induction l as [| y l IH]; intros x; [reflexivity|].
  change (last (y :: l) d = last (y :: l) d'). apply IH.
Qed.

Lemma upsert_many (k v now : string) (nows : list string) (t : list Entry) :
  fold_left (fun t' now' => upsert k v now' t') nows (upsert k v now t)
  = upsert k v (last nows now) t.
Proof.
  revert now. induction nows as [| now' nows IH]; intros now; simpl fold_left.
  - reflexivity.
  - rewrite upsert_twice, IH. f_equal.
    destruct nows as [| now'' nows]; [reflexivity|].
    change (last (now'' :: nows) now' = last (now'' :: nows) now).
    apply last_default.
Qed.

Lemma unstamped_length (t t' : list Entry) :
  unstamped t = unstamped t' -> List.length t = List.length t'.
Proof.
  intros Heq. apply (f_equal (@List.length Entry)) in Heq.
  unfold unstamped in Heq. rewrite !length_map in Heq. exact Heq.
Qed.

(** The store after saveToPGlite was called at each of [nows]. *)
Lemma saved_at_store (tableName key : string) (value : Value) (text : string)
  (nows : list string) (w : World) :
  managed tableName ->
  stringValue value = Some text ->
  store (saved_at Pglite tableName key value nows w)
  = if (tableName =? "form_persistence")%string
    then mkStore (patients (store w))
           (fold_left (fun t now => upsert key text now t) nows
              (form_persistence (store w)))
           (sql_settings (store w))
    else mkStore (patients (store w)) (form_persistence (store w))
           (fold_left (fun t now => upsert key text now t) nows
              (sql_settings (store w))).
Proof.
  intros Hmanaged Hsome. unfold saved_at. revert w.
  induction nows as [| now nows IH]; intros w; simpl.
  - destruct Hmanaged as [-> | ->]; simpl; destruct (store w); reflexivity.
  - rewrite IH. unfold exec.
    destruct Hmanaged as [-> | ->]; simpl.
    + rewrite (saveToPGlite_form key value text now w Hsome). reflexivity.
    + rewrite (saveToPGlite_settings key value text now w Hsome). reflexivity.
Qed.

Lemma saved_at_table (tableName key : string) (value : Value) (text : string)
  (nows : list string) (w : World) :
  managed tableName ->
  stringValue value = Some text ->
  table tableName (store (saved_at Pglite tableName key value nows w))
  = fold_left (fun t now => upsert key text now t) nows
      (table tableName (store w)).
Proof.
  intros Hmanaged Hsome.
  rewrite (saved_at_store tableName key value text nows w Hmanaged Hsome).
  destruct Hmanaged as [-> | ->]; reflexivity.
Qed.

(** Whatever the handle, the table name and the value, a second save
    changes nothing a reader sees but time stamps. *)
Lemma saveToPGlite_twice_observable (h : Handle) (tableName key : string)
  (value : Value) (now1 now2 : string) (w : World) :
  observable (store (saved_at h tableName key value [now1; now2] w))
  = observable (store (saved_at h tableName key value [now1] w)).
Proof.
  unfold saved_at, exec. simpl fold_left.
  destruct h; [rewrite !saveToPGlite_null; reflexivity|].
  destruct (stringValue value) as [text |] eqn:Hvalue.
  - destruct (String.eqb_spec tableName "form_persistence") as [-> | Hform].
    { rewrite (saveToPGlite_form key value text now1 w Hvalue). simpl.
      rewrite (saveToPGlite_form key value text now2 _ Hvalue). simpl.
      unfold observable. simpl. rewrite upsert_twice.
      rewrite (upsert_unstamped key text now2 now1). reflexivity. }
    destruct (String.eqb_spec tableName "sql_settings") as [-> | Hsettings].
    { rewrite (saveToPGlite_settings key value text now1 w Hvalue). simpl.
      rewrite (saveToPGlite_settings key value text now2 _ Hvalue). simpl.
      unfold observable. simpl. rewrite upsert_twice.
      rewrite (upsert_unstamped key text now2 now1). reflexivity. }
    assert (Hother : ~ managed tableName).
    { intros [Hm | Hm]; contradiction. }
    rewrite !(saveToPGlite_other tableName key value text _ w Hother Hvalue).
    reflexivity.
  - rewrite (saveToPGlite_unserialisable tableName key value now1 w Hvalue).
    simpl.
    rewrite (saveToPGlite_unserialisable tableName key value now2 _ Hvalue).
    reflexivity.
Qed.

(** C5.  With a value that can be written and one of the two tables,
    saving twice leaves what saving once leaves, the time stamps apart;
    and after any number of saves (one at least) the table, whose rows
    have distinct keys, holds exactly one row for the key, the value
    saved with the stamp of the last save, and is as long as after the
    first save. *)
Theorem saveToPGlite_idempotent (tableName key : string) (value : Value)
  (text : string) (w : World) :
  managed tableName ->
  stringValue value = Some text ->
  keyed (table tableName (store w)) ->
  (forall now1 now2,
     observable (store (saved_at Pglite tableName key value [now1; now2] w))
     = observable (store (saved_at Pglite tableName key value [now1] w)))
  /\ (forall now nows,
        let after := saved_at Pglite tableName key value (now :: nows) w in
        let once := saved_at Pglite tableName key value [now] w in
        rows_of key (table tableName (store after))
        = [mkEntry key text (last nows now)]
        /\ keyed (table tableName (store after))
        /\ List.length (table tableName (store after))
           = List.length (table tableName (store once))
        /\ observable (store after) = observable (store once)).
Proof.
  intros Hmanaged Hsome Hkeyed.
  assert (Hobs : forall now nows,
    observable (store (saved_at Pglite tableName key value (now :: nows) w))
    = observable (store (saved_at Pglite tableName key value [now] w))).
  { intros now nows.
    rewrite !(saved_at_store tableName key value text _ w Hmanaged Hsome).
    simpl fold_left. rewrite !upsert_many. simpl last.
    destruct (tableName =? "form_persistence")%string;
      unfold observable; simpl;
      rewrite (upsert_unstamped key text (last nows now) now); reflexivity. }
  split.
  - intros now1 now2. apply Hobs.
  - intros now nows after once. subst after once.
    rewrite !(saved_at_table tableName key value text _ w Hmanaged Hsome).
    simpl fold_left. rewrite upsert_many. simpl last.
    split; [apply upsert_rows_of; exact Hkeyed|].
    split; [apply upsert_keyed; exact Hkeyed|].
    split; [apply unstamped_length, upsert_unstamped|].
    apply Hobs.
Qed.

(** C10, as amended.  With a null handle saveToPGlite returns and leaves
    the world as it is.  With a table name other than the two, it sends
    no statement and leaves the store as it is; it returns when the
    value can be serialised, and otherwise logs and throws the error of
    the serialisation again. *)
Theorem saveToPGlite_elsewhere (db : Handle) (tableName key : string)
  (value : Value) (now : string) (w : World) :
  is_null db = true \/ ~ managed tableName ->
  let w' := exec (saveToPGlite db tableName key value now) w in
  store w' = store w
  /\ issued w' = issued w
  /\ (is_null db = true \/ stringValue value <> None ->
      saveToPGlite db tableName key value now w = (Ok tt, w))
  /\ (is_null db = false -> stringValue value = None ->
      outcome (saveToPGlite db tableName key value now) w
      = Thrown "Do not know how to serialize a BigInt"
      /\ console_error w'
         = console_error w
           ++ [("Failed to save data to " ++ tableName ++ ":")%string]).
Proof.
  intros Hcase w'. subst w'. unfold exec, outcome.
  destruct db.
  - rewrite saveToPGlite_null. simpl.
    split; [reflexivity|]. split; [reflexivity|].
    split; [reflexivity|]. intros Hfalse. discriminate.
  - assert (Hother : ~ managed tableName).
    { destruct Hcase as [Hnull | Hother]; [discriminate | exact Hother]. }
    destruct (stringValue value) as [text |] eqn:Hvalue.
    + rewrite (saveToPGlite_other tableName key value text now w Hother Hvalue).
      simpl. split; [reflexivity|]. split; [reflexivity|].
      split; [reflexivity|]. intros _ Hnone. discriminate.
    + rewrite (saveToPGlite_unserialisable tableName key value now w Hvalue).
      simpl. split; [reflexivity|]. split; [reflexivity|]. split.
      * intros [Hnull | Hsome]; [discriminate | congruence].
      * intros _ _. split; reflexivity.
Qed.

End Save.

Section SaveExample.
Import Js db Spec Examples.

(** C10 as it is stated fails.
    With the table name [patients] and an object that holds a BigInt,
    saveToPGlite throws. *)
Lemma saves_nothing_elsewhere_counterexample :
  outcome
    (saveToPGlite Pglite "patients" "draft" unserialisable_example
       (iso Sample.noon))
    (Sample.world_of Sample.empty_store)
  = Thrown "Do not know how to serialize a BigInt"
  /\ ~ saves_nothing_elsewhere.
Proof.
  split; [reflexivity|].
  intros Hclaim.
  specialize (Hclaim Pglite "patients" "draft" unserialisable_example
                (iso Sample.noon) (Sample.world_of Sample.empty_store)).
  assert (Hother : is_null Pglite = true \/ ~ managed "patients").
  { right. intros [Hform | Hsettings]; discriminate. }
  specialize (Hclaim Hother). discriminate.
Qed.

(** C10, as amended, on a text saved under the table name [patients]. *)
Lemma saveToPGlite_elsewhere_witness :
  saveToPGlite Pglite "patients" "draft" (JStr "text") (iso Sample.noon)
    (Sample.world_of Sample.empty_store)
  = (Ok tt, Sample.world_of Sample.empty_store).
Proof.
  assert (Hother : is_null Pglite = true \/ ~ managed "patients").
  { right. intros [Hform | Hsettings]; discriminate. }
  apply (saveToPGlite_elsewhere Pglite "patients" "draft" (JStr "text")
           (iso Sample.noon) (Sample.world_of Sample.empty_store) Hother).
  right. discriminate.
Defined.

(** C5 on a draft saved three times over a stored one. *)
Lemma saveToPGlite_idempotent_witness :
  rows_of "patient_registration_form"
    (form_persistence
       (store (saved_at Pglite "form_persistence" "patient_registration_form"
                 (JStr "draft") ["t1"; "t2"; "t3"] draft_example_world)))
  = [mkEntry "patient_registration_form" "draft" "t3"].
Proof.
  assert (Hkeyed : keyed (table "form_persistence" (store draft_example_world))).
  { repeat constructor. intros []. }
  exact (proj1 (proj2
    (saveToPGlite_idempotent "form_persistence" "patient_registration_form"
       (JStr "draft") "draft" draft_example_world (or_introl eq_refl) eq_refl
       Hkeyed) "t1" ["t2"; "t3"])).
Defined.

End SaveExample.

(** ** Registering a patient *)

Section Submit.
Import Js db PatientForm Spec.

Lemma or_empty_Some (s : string) : or_empty (Some s) = s.
Proof.
  unfold or_empty. destruct (String.eqb_spec s ""); congruence.
Qed.

Lemma insert_submitted (values : PatientFormValues) (uuid now : string)
  (t : list PatientRow) :
  has_id uuid t = false ->
  insert_patient (submitted_params values uuid now) t
  = Ok (t ++ [submitted_row values uuid now]).
Proof.
  intros Hfresh. unfold insert_patient, submitted_params. simpl.
  rewrite Hfresh. reflexivity.
Qed.

Lemma onSubmit_run (values : PatientFormValues) (uuid : string)
  (clock : Clock) (f : Form) (w : World) (t' : Form * World) :
  has_id uuid (patients (store w)) = false ->
  channel w = ChannelOpen ->
  t' = exec (PatientForm.onSubmit Pglite false values uuid clock) (f, w)
  \/ t' = exec (PatientFormPersisted.onSubmit Pglite false values uuid clock)
            (f, w) ->
  patients (store (snd t'))
  = patients (store w) ++ [submitted_row values uuid (iso clock)]
  /\ sql_settings (store (snd t')) = sql_settings (store w)
  /\ (exists rest,
        issued (snd t')
        = issued w
          ++ InsertPatient (submitted_params values uuid (iso clock)) :: rest
        /\ forall s, In s rest -> s = DeleteForm PatientFormPersisted.FORM_ID)
  /\ (exists rest,
        posted (snd t')
        = posted w
          ++ mkMessage "patient-added" (JObj [("id", JStr uuid)]) (millis clock)
             :: rest
        /\ forall m, In m rest -> type m = "form-cleared").
Proof.
  intros Hfresh Hchannel [-> | ->].
  - apply (post_exec _ _ (fun t =>
             patients (store (snd t)) = _
             /\ sql_settings (store (snd t)) = _
             /\ (exists rest, issued (snd t) = _ /\ _)
             /\ (exists rest, posted (snd t) = _ /\ _))).
    unfold PatientForm.onSubmit, patientToSqlParams. cbn [is_null orb].
    cbn [id db.firstName db.lastName db.dateOfBirth db.gender db.email
         db.phone db.address db.insuranceProvider db.insuranceNumber
         db.medicalConditions db.medications db.allergies db.createdAt
         db.updatedAt].
    rewrite !or_empty_Some.
    fold (submitted_params values uuid (iso clock)).
    repeat post_step;
      match goal with
      | Hins : insert_patient _ _ = _ |- _ =>
          rewrite (insert_submitted values uuid (iso clock) _ Hfresh) in Hins;
          inversion Hins; subst
      end.
    split; [reflexivity|]. split; [reflexivity|].
    split; exists []; (split; [reflexivity | intros ? []]).
  - apply (post_exec _ _ (fun t =>
             patients (store (snd t)) = _
             /\ sql_settings (store (snd t)) = _
             /\ (exists rest, issued (snd t) = _ /\ _)
             /\ (exists rest, posted (snd t) = _ /\ _))).
    unfold PatientFormPersisted.onSubmit, PatientFormPersisted.clearForm,
      patientToSqlParams. cbn [is_null orb].
    cbn [id db.firstName db.lastName db.dateOfBirth db.gender db.email
         db.phone db.address db.insuranceProvider db.insuranceNumber
         db.medicalConditions db.medications db.allergies db.createdAt
         db.updatedAt].
    rewrite !or_empty_Some.
    fold (submitted_params values uuid (iso clock)).
    repeat post_step;
      match goal with
      | Hins : insert_patient _ _ = _ |- _ =>
          rewrite (insert_submitted values uuid (iso clock) _ Hfresh) in Hins;
          inversion Hins; subst
      end.
    split; [reflexivity|]. split; [reflexivity|].
    split.
    + exists [DeleteForm PatientFormPersisted.FORM_ID].
      split; [rewrite <- app_assoc; reflexivity|].
      intros s [<- | []]. reflexivity.
    + eexists. split; [rewrite <- app_assoc; reflexivity|].
      intros m [<- | []]. reflexivity.
Qed.

(** C1.  Submitting the form with a fresh id, the store open and the
    channel there, adds one row to [patients] and changes no other row
    of it: the row holds the id, each submitted value in its column (the
    empty text where an optional field is absent) and the time of the
    submission as both time stamps; one INSERT is sent; and a
    [patient-added] message with the id of the row is posted.  [t'] is
    the result of either form. *)
Theorem onSubmit_inserts_patient (values : PatientFormValues) (uuid : string)
  (clock : Clock) (f : Form) (w : World) (t' : Form * World) :
  has_id uuid (patients (store w)) = false ->
  channel w = ChannelOpen ->
  t' = exec (PatientForm.onSubmit Pglite false values uuid clock) (f, w)
  \/ t' = exec (PatientFormPersisted.onSubmit Pglite false values uuid clock)
            (f, w) ->
  exists row,
    patients (store (snd t')) = patients (store w) ++ [row]
    /\ row_id row = uuid
    /\ first_name row = firstName values
    /\ last_name row = lastName values
    /\ date_of_birth row = dateOfBirth values
    /\ row_gender row = gender values
    /\ row_phone row = Some (phone values)
    /\ row_address row = Some (address values)
    /\ medical_conditions row = Some (medicalConditions values)
    /\ row_medications row = Some (medications values)
    /\ (forall s, email values = Some s -> row_email row = Some s)
    /\ (forall s, insuranceProvider values = Some s ->
                  insurance_provider row = Some s)
    /\ (forall s, insuranceNumber values = Some s ->
                  insurance_number row = Some s)
    /\ (forall s, allergies values = Some s -> row_allergies row = Some s)
    /\ (email values = None -> row_email row = Some "")
    /\ (insuranceProvider values = None -> insurance_provider row = Some "")
    /\ (insuranceNumber values = None -> insurance_number row = Some "")
    /\ (allergies values = None -> row_allergies row = Some "")
    /\ created_at row = iso clock
    /\ updated_at row = created_at row
    /\ (exists m rest,
          posted (snd t') = posted w ++ m :: rest
          /\ type m = "patient-added"
          /\ data m = JObj [("id", JStr (row_id row))]
          /\ forall m', In m' rest -> type m' <> "patient-added")
    /\ (forall s, In s (issued (snd t')) ->
          In s (issued w)
          \/ s = InsertPatient (submitted_params values uuid (iso clock))
          \/ s = DeleteForm PatientFormPersisted.FORM_ID).
Proof.
  intros Hfresh Hchannel Ht'.
  destruct (onSubmit_run values uuid clock f w t' Hfresh Hchannel Ht')
    as [Hpatients [_ [[stmts [Hissued Hstmts]] [msgs [Hposted Hmsgs]]]]].
  exists (submitted_row values uuid (iso clock)).
  split; [exact Hpatients|].
  repeat (split; [reflexivity|]).
  repeat (split; [intros s Hs; simpl; rewrite Hs; apply f_equal, or_empty_Some|]).
  repeat (split; [intros Hs; simpl; rewrite Hs; reflexivity|]).
  split; [reflexivity|]. split; [reflexivity|].
  split.
  - exists (mkMessage "patient-added" (JObj [("id", JStr uuid)]) (millis clock)),
      msgs.
    split; [exact Hposted|]. split; [reflexivity|]. split; [reflexivity|].
    intros m' Hin. rewrite (Hmsgs m' Hin). discriminate.
  - intros s Hin. rewrite Hissued in Hin. apply in_app_or in Hin.
    destruct Hin as [Hold | [Hnew | Hrest]].
    + left. exact Hold.
    + right. left. symmetry. exact Hnew.
    + right. right. apply Hstmts. exact Hrest.
Qed.

End Submit.

Section SubmitExample.
Import Js db PatientForm Spec Examples.

(** C1 on a second patient. *)
Lemma onSubmit_inserts_patient_witness :
  exists row,
    patients
      (store
         (snd (exec (PatientForm.onSubmit Pglite false submit_example_values
                       "p2" Sample.noon)
                 (submit_example_form, columns_example_world))))
    = [Sample.jane; row]
    /\ row_id row = "p2".
Proof.
  destruct (onSubmit_inserts_patient submit_example_values "p2" Sample.noon
              submit_example_form columns_example_world _ eq_refl eq_refl
              (or_introl eq_refl)) as [row [Hpatients [Hid _]]].
  exists row. split; [exact Hpatients | exact Hid].
Defined.

End SubmitExample.

(** ** Hydration of the console *)

Section Hydration.
Import Js db SqlConsole Spec.

Context `{Host}.





End Hydration.

Section HydrationExample.
Import Js db SqlConsole Spec Examples.





End HydrationExample.

(** ** The autosave of the console text *)

Section Autosave.
Import Js db SqlConsole SqlConsolePersisted Spec.

Lemma with_sql_same (c : Console) : with_sql c (sql c) = c.
Proof. destruct c. reflexivity. Qed.

Lemma pending_not_due (t : Z) (v : string) :
  not_due_soon t (pending_after t v).
Proof.
  unfold pending_after, not_due_soon.
  destruct (v =? "")%string; simpl; [exact I | lia].
Qed.

Lemma onChange_run (toISOString : Z -> string) (t t' : Z) (v' : string)
  (timer : option Timer) (c : Console) (w : World) :
  not_due_soon t timer ->
  t' < t + delay ->
  v' <> sql c ->
  onChange Pglite toISOString t' v' (timer, (c, w))
  = (Ok tt, (pending_after t' v', (with_sql c v', w))).
Proof.
  intros Hdue Hsoon Hchange.
  assert (Hquiet : elapse Pglite toISOString t' (timer, (c, w))
                   = (Ok tt, (timer, (c, w)))).
  { unfold elapse, bind, get_state. simpl.
    destruct timer as [tm |]; [|reflexivity].
    simpl in Hdue.
    destruct (Z.leb_spec (due tm) t'); [lia | reflexivity]. }
  unfold onChange. unfold bind at 1. rewrite Hquiet.
  unfold bind, get_state. simpl.
  destruct (String.eqb_spec (sql c) v') as [Heq | _];
    [exfalso; apply Hchange; symmetry; exact Heq|].
  unfold pending_after, with_sql, inTab, setSql, setState, setTimer, modify.
  simpl. destruct (v' =? "")%string; reflexivity.
Qed.

Lemma typing_run (toISOString : Z -> string) (edits : list (Z * string)) :
  forall (t : Z) (timer : option Timer) (c : Console) (w : World),
    burst t (sql c) edits ->
    not_due_soon t timer ->
    typing Pglite toISOString edits (timer, (c, w))
    = (Ok tt,
       (match edits with
        | [] => timer
        | _ => pending_after (fst (last_edit t (sql c) edits))
                 (snd (last_edit t (sql c) edits))
        end,
        (with_sql c (snd (last_edit t (sql c) edits)), w))).
Proof.
  induction edits as [| [t' v'] rest IH]; intros t timer c w Hburst Hdue.
  - simpl. rewrite with_sql_same. reflexivity.
  - simpl in Hburst. destruct Hburst as [Hle [Hsoon [Hchange Hrest]]].
    simpl typing. unfold bind.
    rewrite (onChange_run toISOString t t' v' timer c w Hdue Hsoon Hchange).
    rewrite (IH t' (pending_after t' v') (with_sql c v') w Hrest
               (pending_not_due t' v')).
    simpl. destruct rest as [| e rest']; reflexivity.
Qed.

Lemma last_edit_time (edits : list (Z * string)) (t t' : Z) (v v' : string) :
  edits <> [] -> last_edit t v edits = last_edit t' v' edits.
Proof.
  destruct edits as [| [t1 v1] rest]; [congruence | reflexivity].
Qed.

(** What the quiet period does after a burst. *)
Lemma settle_run (toISOString : Z -> string) (edits : list (Z * string))
  (t0 : Z) (timer : option Timer) (c : Console) (w : World) (quiet : Z) :
  edits <> [] ->
  burst t0 (sql c) edits ->
  not_due_soon t0 timer ->
  delay <= quiet ->
  let t := fst (last_edit t0 (sql c) edits) in
  let v := snd (last_edit t0 (sql c) edits) in
  exec (settle Pglite toISOString edits quiet) (timer, (c, w))
  = (None,
     (with_sql c v,
      if (v =? "")%string then w
      else exec (saveToPGlite Pglite "sql_settings" "last_query" (JStr v)
                   (toISOString (t + delay))) w)).
Proof.
  intros Hne Hburst Hdue Hquiet t v. subst t v.
  unfold exec, settle. unfold bind at 1.
  rewrite (typing_run toISOString edits t0 timer c w Hburst Hdue).
  rewrite (last_edit_time edits 0 t0 "" (sql c) Hne).
  destruct edits as [| e rest]; [congruence|].
  set (t := fst (last_edit t0 (sql c) (e :: rest))).
  set (v := snd (last_edit t0 (sql c) (e :: rest))).
  unfold pending_after.
  destruct (v =? "")%string eqn:Ev.
  - reflexivity.
  - unfold elapse, bind, get_state. cbn [fst snd due captured].
    destruct (Z.leb_spec (t + delay) (t + quiet)); [|lia].
    unfold setTimer, modify, inTab, inWorld, autosave, try_catch.
    cbn [fst snd].
    rewrite (saveToPGlite_settings "last_query" (JStr v) v
               (toISOString (t + delay)) w eq_refl).
    reflexivity.
Qed.

Lemma getItem_setItem (k v : string) (l : list (string * string)) :
  getItem k (setItem_ k v l) = Some v.
Proof.
  induction l as [| [k' v'] l IH]; simpl.
  - rewrite String.eqb_refl. reflexivity.
  - destruct (k' =? k)%string eqn:E; simpl.
    + rewrite String.eqb_refl. reflexivity.
    + rewrite E. exact IH.
Qed.

(** C8, as amended.  After a run of edits of the console text, each a
    change that comes less than the delay after the one before, and a
    quiet period of the delay at least, no timer is pending, the
    console holds the last text, and the statements sent are: none when
    the last text is empty, and otherwise one, the write of the last
    text under [last_query], issued when the delay after the last edit
    has passed; no text of an earlier edit of the run is written.  The
    form of PatientForm.tsx has no delay: each change is written to
    localStorage at once. *)
Theorem autosave_after_burst (toISOString : Z -> string)
  (edits : list (Z * string)) (t0 : Z) (timer : option Timer) (c : Console)
  (w : World) (quiet : Z) :
  edits <> [] ->
  burst t0 (sql c) edits ->
  not_due_soon t0 timer ->
  delay <= quiet ->
  let t := fst (last_edit t0 (sql c) edits) in
  let v := snd (last_edit t0 (sql c) edits) in
  let s' := exec (settle Pglite toISOString edits quiet) (timer, (c, w)) in
  fst s' = None
  /\ sql (fst (snd s')) = v
  /\ issued (snd (snd s'))
     = issued w
       ++ (if (v =? "")%string then []
           else [UpsertSetting "last_query" v (toISOString (t + delay))])
  /\ sql_settings (store (snd (snd s')))
     = (if (v =? "")%string then sql_settings (store w)
        else upsert "last_query" v (toISOString (t + delay))
               (sql_settings (store w)))
  /\ (forall (value : Object) (text : string) (w0 : World),
        JSON_stringify (JObj value) = Some text ->
        getItem PatientForm.STORAGE_KEY
          (localStorage (exec (PatientForm.watch value) w0))
        = Some text).
Proof.
  intros Hne Hburst Hdue Hquiet t v s'. subst s'.
  rewrite (settle_run toISOString edits t0 timer c w quiet Hne Hburst Hdue
             Hquiet).
  fold t v. simpl fst. simpl snd.
  split; [reflexivity|]. split; [reflexivity|].
  split; [|split].
  - destruct (v =? "")%string; [rewrite app_nil_r; reflexivity|].
    unfold exec.
    rewrite (saveToPGlite_settings "last_query" (JStr v) v _ w eq_refl).
    reflexivity.
  - destruct (v =? "")%string; [reflexivity|].
    unfold exec.
    rewrite (saveToPGlite_settings "last_query" (JStr v) v _ w eq_refl).
    reflexivity.
  - intros value text w0 Htext.
    unfold PatientForm.watch, PatientForm.saveFormData, exec, try_catch.
    rewrite Htext. simpl. apply getItem_setItem.
Qed.

End Autosave.

Section AutosaveExample.
Import Js db SqlConsole SqlConsolePersisted Spec Examples.

(** C8 as it is stated fails.
    The text typed and erased within the delay is never written; and
    the form of PatientForm.tsx has written the first of two changes
    before the second comes. *)
Lemma one_write_per_burst_counterexample :
  issued
    (snd (snd (exec (settle Pglite Js.decimal typed_and_erased 500)
                 (None, (initial, Sample.world_of Sample.empty_store)))))
  = []
  /\ ~ one_write_per_burst
  /\ getItem PatientForm.STORAGE_KEY
       (localStorage
          (exec (PatientForm.watch [("firstName", JStr "J")])
             (Sample.world_of Sample.empty_store)))
     = Some (Sample.text_of (JObj [("firstName", JStr "J")])).
Proof.
  split; [reflexivity|]. split; [|reflexivity].
  intros Hclaim.
  destruct (Hclaim Js.decimal typed_and_erased 0 initial
              (Sample.world_of Sample.empty_store) 500) as [now Hwrites].
  - discriminate.
  - simpl. unfold delay. repeat split; try lia; discriminate.
  - unfold delay. lia.
  - vm_compute in Hwrites. discriminate.
Qed.

(** C8, as amended, on two edits 100 ms apart: one write, of the
    second text, 500 ms after it. *)
Lemma autosave_after_burst_witness :
  issued
    (snd (snd (exec (settle Pglite Js.decimal typed_twice 500)
                 (None, (initial, Sample.world_of Sample.empty_store)))))
  = [UpsertSetting "last_query" "SE" "600"].
Proof.
  assert (Hne : typed_twice <> []) by discriminate.
  assert (Hburst : burst 0 (sql initial) typed_twice).
  { simpl. unfold delay. repeat split; try lia; discriminate. }
  assert (Hquiet : delay <= 500) by (unfold delay; lia).
  exact (proj1 (proj2 (proj2
    (autosave_after_burst Js.decimal typed_twice 0 None initial
       (Sample.world_of Sample.empty_store) 500 Hne Hburst I Hquiet)))).
Defined.

End AutosaveExample.

(** ** The rows of [patients] *)

Section Keeps.
Context {S : Type} (R : S -> S -> Prop).
Hypothesis R_refl : forall s, R s s.
Hypothesis R_trans : forall s1 s2 s3, R s1 s2 -> R s2 s3 -> R s1 s3.

Lemma keeps_ret {A} (a : A) : keeps R (ret a).
Proof. intros s. apply R_refl. Qed.

Lemma keeps_throw {A} (e : string) : keeps R (@throw S A e).
Proof. intros s. apply R_refl. Qed.

Lemma keeps_get_state : keeps R get_state.
Proof. intros s. apply R_refl. Qed.

Lemma keeps_modify (f : S -> S) : (forall s, R s (f s)) -> keeps R (modify f).
Proof. intros Hf s. apply Hf. Qed.

Lemma keeps_bind {A B} (m : M S A) (k : A -> M S B) :
  keeps R m -> (forall a, keeps R (k a)) -> keeps R (bind m k).
Proof.
  intros Hm Hk s. unfold bind. specialize (Hm s).
  destruct (m s) as [[a | e] s']; simpl in *.
  - apply (R_trans _ s'); [exact Hm | apply Hk].
  - exact Hm.
Qed.

Lemma keeps_try_catch {A} (body : M S A) (handler : string -> M S A) :
  keeps R body -> (forall e, keeps R (handler e)) ->
  keeps R (try_catch body handler).
Proof.
  intros Hbody Hhandler s. unfold try_catch. specialize (Hbody s).
  destruct (body s) as [[a | e] s']; simpl in *.
  - exact Hbody.
  - apply (R_trans _ s'); [exact Hbody | apply Hhandler].
Qed.

Lemma keeps_try_finally {A} (body : M S A) (cleanup : M S unit) :
  keeps R body -> keeps R cleanup -> keeps R (try_finally body cleanup).
Proof.
  intros Hbody Hcleanup s. unfold try_finally. specialize (Hbody s).
  destruct (body s) as [r s']. simpl in *. specialize (Hcleanup s').
  destruct (cleanup s') as [[u | e] s'']; simpl in *;
    apply (R_trans _ s'); assumption.
Qed.

End Keeps.

Section Grows.
Import Js db Spec.

Lemma grows_refl (w : World) : grows w w.
Proof.
  split; [exists []; rewrite app_nil_r; reflexivity | auto].
Qed.

Lemma grows_trans (w1 w2 w3 : World) : grows w1 w2 -> grows w2 w3 -> grows w1 w3.
Proof.
  intros [[added1 H1] Hv1] [[added2 H2] Hv2]. split.
  - exists (added1 ++ added2). rewrite H2, H1, app_assoc. reflexivity.
  - auto.
Qed.



(** A world that differs by statements other than a text of the console,
    with the same rows of [patients]. *)
Lemma grows_same_patients (w w' : World) (sent : list Stmt) :
  patients (store w') = patients (store w) ->
  issued w' = issued w ++ sent ->
  (forall text, ~ In (Verbatim text) sent) ->
  grows w w'.
Proof.
  intros Hpatients Hissued Hsent. split.
  - exists []. rewrite app_nil_r. exact Hpatients.
  - intros text Hin. rewrite Hissued in Hin. apply in_app_or in Hin.
    destruct Hin as [Hold | Hnew]; [exact Hold|].
    exfalso. exact (Hsent text Hnew).
Qed.

Ltac same_patients sent :=
  intros w; apply (grows_same_patients _ _ sent);
  [ reflexivity
  | simpl; rewrite ?app_nil_r; reflexivity
  | intros text Hin; simpl in Hin;
    repeat (destruct Hin as [Hin | Hin]; [discriminate|]); exact Hin ].

Lemma keeps_toast (t : Toast) : keeps grows (toast t).
Proof. same_patients (@nil Stmt). Qed.

Lemma keeps_console_error (line : string) : keeps grows (console_error_ line).
Proof. same_patients (@nil Stmt). Qed.

Lemma keeps_setItem (k v : string) : keeps grows (setItem k v).
Proof. same_patients (@nil Stmt). Qed.

Lemma keeps_removeItem (k : string) : keeps grows (removeItem k).
Proof. same_patients (@nil Stmt). Qed.

Lemma keeps_select_setting (k : string) : keeps grows (select_setting k).
Proof. same_patients [SelectSetting k]. Qed.

Lemma keeps_select_form (k : string) : keeps grows (select_form k).
Proof. same_patients [SelectForm k]. Qed.

Lemma keeps_delete_settings (ks : list string) :
  keeps grows (delete_settings ks).
Proof. same_patients [DeleteSettings ks]. Qed.

Lemma keeps_upsert_setting (k v now : string) :
  keeps grows (upsert_setting k v now).
Proof. same_patients [UpsertSetting k v now]. Qed.

Lemma keeps_upsert_form (k v now : string) : keeps grows (upsert_form k v now).
Proof. same_patients [UpsertForm k v now]. Qed.

Lemma keeps_delete_form (k : string) : keeps grows (delete_form k).
Proof. same_patients [DeleteForm k]. Qed.

Lemma keeps_create_settings_table : keeps grows create_settings_table.
Proof. same_patients [CreateSettingsTable]. Qed.

Lemma keeps_broadcastChange (type_ : string) (data_ : Value) (stamp : Z) :
  keeps grows (broadcastChange type_ data_ stamp).
Proof.
  intros w. unfold broadcastChange, getBroadcastChannel, bind.
  destruct (channel w); simpl;
    (apply (grows_same_patients _ _ []); [reflexivity | | intros text []]);
    simpl; rewrite app_nil_r; reflexivity.
Qed.

(** The INSERT adds a row at the end, or is refused. *)
Lemma keeps_query_insert_patient (params : list string) :
  keeps grows (query_insert_patient params).
Proof.
  intros w. unfold query_insert_patient, insert_patient.
  destruct (row_of_params params) as [r |]; simpl.
  - destruct (has_id (row_id r) (patients (store w))); simpl.
    + apply (grows_same_patients _ _ [InsertPatient params]);
        [reflexivity | reflexivity|].
      intros text [Hin | []]. discriminate.
    + split.
      * exists [r]. reflexivity.
      * intros text Hin. simpl in Hin. apply in_app_or in Hin.
        destruct Hin as [Hold | [Hnew | []]]; [exact Hold | discriminate].
  - apply (grows_same_patients _ _ [InsertPatient params]);
      [reflexivity | reflexivity|].
    intros text [Hin | []]. discriminate.
Qed.



End Grows.

Create HintDb keeps_db.
#[export] Hint Resolve keeps_toast keeps_console_error keeps_setItem
  keeps_removeItem keeps_select_setting keeps_select_form
  keeps_delete_settings keeps_upsert_setting keeps_upsert_form
  keeps_delete_form keeps_create_settings_table keeps_broadcastChange
  keeps_query_insert_patient : keeps_db.

(** [keeps] by the shape of the computation. *)
Ltac keeps_world :=
  repeat first
    [ solve [auto with keeps_db]
    | apply (keeps_bind _ grows_trans); [|intros ?]
    | apply (keeps_try_catch _ grows_trans); [|intros ?]
    | apply (keeps_try_finally _ grows_trans)
    | apply (keeps_ret _ grows_refl)
    | apply (keeps_throw _ grows_refl)
    | apply (keeps_get_state _ grows_refl)
    | match goal with
      | |- keeps _ (if ?b then _ else _) => destruct b
      | |- keeps _ (match ?x with Some _ => _ | None => _ end) => destruct x
      end ].


Section Immutable.
Import Js db Spec App.

Lemma keeps_saveToPGlite (h : Handle) (tableName key : string) (value : Value)
  (now : string) :
  keeps grows (saveToPGlite h tableName key value now).
Proof. unfold saveToPGlite. keeps_world. Qed.

#[local] Hint Resolve keeps_saveToPGlite : keeps_db.






Context `{Host}.









End Immutable.

Section ImmutableExample.
Import Js db Spec Examples App.



End ImmutableExample.

(** * Further properties *)

(** ** Objects *)

Section Objects.
Import Js.

Lemma get_set_same (k : string) (v : Value) (o : Object) :
  get k (set k v o) = v.
Proof.
  induction o as [| [k' v'] o IH]; simpl.
  - rewrite String.eqb_refl. reflexivity.
  - destruct (k' =? k)%string eqn:E; simpl.
    + rewrite String.eqb_refl. reflexivity.
    + rewrite E. exact IH.
Qed.

Lemma get_set_other (k k' : string) (v : Value) (o : Object) :
  k' <> k -> get k (set k' v o) = get k o.
Proof.
  intros Hne. apply String.eqb_neq in Hne.
  induction o as [| [k'' v''] o IH]; simpl.
  - rewrite Hne. reflexivity.
  - destruct (k'' =? k')%string eqn:E; simpl.
    + apply String.eqb_eq in E. subst k''. rewrite Hne. reflexivity.
    + rewrite IH. reflexivity.
Qed.

Lemma get_fold_set (f : string -> Value) (k : string) (cols : list string)
  (acc : Object) :
  get k (fold_left (fun h col => set col (f col) h) cols acc)
  = if includes k cols then f k else get k acc.
Proof.
  revert acc. induction cols as [| c cols IH]; intros acc; simpl.
  - reflexivity.
  - rewrite IH. unfold includes. simpl.
    destruct (existsb (String.eqb k) cols) eqn:E.
    + rewrite orb_true_r. reflexivity.
    + rewrite orb_false_r. destruct (k =? c)%string eqn:Ekc.
      * apply String.eqb_eq in Ekc. subst c. apply get_set_same.
      * apply get_set_other. apply String.eqb_neq.
        rewrite String.eqb_sym. exact Ekc.
Qed.

End Objects.

(** ** Running a computation step by step, without computing
    what is not known *)

Lemma post_select_form (k : string) (w : db.World) Q :
  Q (Ok (db.select k (db.form_persistence (db.store w))))
    (db.send (db.SelectForm k) w) ->
  post (db.select_form k) w Q.
Proof. exact (fun q => q). Qed.

(** A test or a scrutinee that mentions a variable is not computed:
    what is known of it is used, or it is split on. *)
Ltac decide_open x :=
  first
    [ match goal with
      | H : x = _ |- _ => rewrite H
      end
    | lazymatch x with
      | context [?y] => is_var y; destruct x eqn:?
      end
    | decide_on x ].

Ltac unfold_views :=
  unfold PatientForm.reset_with, PatientForm.handleClearForm.

Ltac open_step :=
  lazymatch goal with
  | |- post (if ?b then _ else _) _ _ => decide_open b; tidy
  | |- post (match ?x with Some _ => _ | None => _ end) _ _ =>
      decide_open x; tidy
  | |- post (match ?x with nil => _ | cons _ _ => _ end) _ _ =>
      decide_open x; tidy
  | |- post (db.select_form _) _ _ => apply post_select_form; tidy
  | |- _ => first [ post_step | progress unfold_views; tidy ]
  end.

(** ** Serialising texts, and the text stored under a key *)

Section Json.
Import Js Spec.

Lemma serialize_strings (l : list string) :
  serialize (JArr (map JStr l))
  = SText ("[" ++ String.concat "," (map quote l) ++ "]")%string.
Proof.
  cbn [serialize].
  match goal with
  | |- match ?e with _ => _ end = _ =>
      assert (E : e = Some (map quote l))
  end.
  { induction l as [| x l IH]; cbn; [reflexivity | ].
    cbn in IH. rewrite IH. reflexivity. }
  rewrite E. reflexivity.
Qed.

Lemma stringify_strings (l : list string) :
  JSON_stringify (JArr (map JStr l))
  = Some ("[" ++ String.concat "," (map quote l) ++ "]")%string.
Proof. unfold JSON_stringify. rewrite serialize_strings. reflexivity. Qed.

Lemma serialize_texts (o : Object) :
  texts o -> exists t, serialize (JObj o) = SText t.
Proof.
  intros Ho. cbn [serialize].
  match goal with
  | |- exists t, match ?e with _ => _ end = _ =>
      assert (E : exists parts, e = Some parts)
  end.
  { induction Ho as [| [k v] o [s Hs] Ho IH]; cbn; [eauto | ].
    cbn in Hs. subst v. cbn. cbn in IH. destruct IH as [parts ->].
    cbn [option_map]. eauto. }
  destruct E as [parts ->]. eauto.
Qed.

Lemma texts_set (k s : string) (o : Object) :
  texts o -> texts (set k (JStr s) o).
Proof.
  intros Ho. induction Ho as [| [k' v'] o Hv Ho IH]; cbn.
  - repeat constructor. cbn. eauto.
  - destruct (k' =? k)%string; constructor; cbn; eauto.
Qed.

End Json.

Section Stored.
Import Js db Spec.

Lemma select_upsert_other (k k' v now : string) (t : list Entry) :
  (k' =? k)%string = false ->
  select k (upsert k' v now t) = select k t.
Proof.
  intros Hne. unfold select. induction t as [| r t IH]; cbn.
  - rewrite Hne. reflexivity.
  - destruct (entry_key r =? k')%string eqn:E; cbn.
    + apply String.eqb_eq in E. rewrite E, Hne. reflexivity.
    + destruct (entry_key r =? k)%string; cbn; rewrite IH; reflexivity.
Qed.

Lemma stored_upsert_other (k k' v now : string) (t : list Entry) :
  (k' =? k)%string = false ->
  stored k (upsert k' v now t) = stored k t.
Proof. intros Hne. unfold stored. rewrite select_upsert_other; auto. Qed.

Lemma stored_upsert_same (k v now : string) (t : list Entry) :
  stored k (upsert k v now t) = Some v.
Proof.
  unfold stored, select. induction t as [| r t IH]; cbn.
  - rewrite String.eqb_refl. reflexivity.
  - destruct (entry_key r =? k)%string eqn:E; cbn.
    + rewrite String.eqb_refl. reflexivity.
    + rewrite E. exact IH.
Qed.

Lemma stored_select (k v : string) (t : list Entry) :
  stored k t = Some v -> exists rest, select k t = v :: rest.
Proof.
  unfold stored. destruct (select k t) as [| x rest]; cbn; [discriminate | ].
  intros [= ->]. eauto.
Qed.

Lemma stored_delete (k : string) (ks : list string) (t : list Entry) :
  stored k (delete ks t) = if includes k ks then None else stored k t.
Proof.
  unfold stored, select, delete. induction t as [| r t IH]; cbn.
  - destruct (includes k ks); reflexivity.
  - destruct (entry_key r =? k)%string eqn:E.
    + apply String.eqb_eq in E. subst k.
      destruct (includes (entry_key r) ks) eqn:Ei; cbn.
      * exact IH.
      * rewrite String.eqb_refl. reflexivity.
    + destruct (negb (includes (entry_key r) ks)); cbn; [rewrite E | ]; exact IH.
Qed.

End Stored.

(** ** mapRowToPatient *)

Section PatientRows.
Import Js db Spec.

Lemma or_blank_text (v : option string) :
  or_blank (Sample.text_or_null v) = JStr (text_of_column v).
Proof.
  destruct v as [s | ]; [ | reflexivity ].
  unfold or_blank. simpl. destruct (s =? "")%string eqn:E; simpl.
  - apply String.eqb_eq in E. subst s. reflexivity.
  - reflexivity.
Qed.

(** X1.  mapRowToPatient turns a row of [patients], as the engine
    returns it, into the patient the row stands for: each column goes to
    its field, and a column that holds NULL (or the empty text) gives
    the empty text, never null. *)
Theorem mapRowToPatient_of_row (r : PatientRow) :
  mapRowToPatient (Sample.patient_object r) = patient_fields (patient_of_row r).
Proof.
  unfold mapRowToPatient, Sample.patient_object, patient_fields, patient_of_row.
  cbn [get String.eqb Ascii.eqb Bool.eqb id firstName lastName dateOfBirth
       gender email phone address insuranceProvider insuranceNumber
       medicalConditions medications allergies createdAt updatedAt].
  rewrite !or_blank_text. reflexivity.
Qed.

(** X2.  Round trip through the store: when the INSERT made of
    patientToSqlParams succeeds, reading the table back and mapping each
    row with mapRowToPatient gives the patients read before, followed by
    the patient inserted, field for field. *)
Theorem mapRowToPatient_inserted (p : Patient) (t t' : list PatientRow) :
  insert_patient (patientToSqlParams p) t = Ok t' ->
  map mapRowToPatient (map Sample.patient_object t')
  = map mapRowToPatient (map Sample.patient_object t) ++ [patient_fields p].
Proof.
  unfold insert_patient. destruct p.
  cbn [patientToSqlParams row_of_params id firstName lastName dateOfBirth
       gender email phone address insuranceProvider insuranceNumber
       medicalConditions medications allergies createdAt updatedAt].
  destruct (has_id _ t); [ discriminate | ].
  intros [= <-]. rewrite !map_app. f_equal. cbn [map].
  unfold mapRowToPatient, Sample.patient_object, patient_fields.
  cbn [get String.eqb Ascii.eqb Bool.eqb id firstName lastName dateOfBirth
       gender email phone address insuranceProvider insuranceNumber
       medicalConditions medications allergies createdAt updatedAt
       row_id first_name last_name date_of_birth row_gender row_email
       row_phone row_address insurance_provider insurance_number
       medical_conditions row_medications row_allergies created_at
       updated_at].
  rewrite !or_blank_text. reflexivity.
Qed.

End PatientRows.

(** ** The labels of the columns *)

Section Labels.
Import Js db SqlConsole Spec.

Lemma split_cons (sep : ascii) (s : string) :
  exists w ws, split sep s = w :: ws.
Proof.
  induction s as [| c s' [w [ws IH]]]; simpl.
  - eauto.
  - destruct (Ascii.eqb c sep); [eauto | ]. rewrite IH. eauto.
Qed.

Lemma concat_cons (sep x y : string) (l : list string) :
  String.concat sep (x :: y :: l) = (x ++ sep ++ String.concat sep (y :: l))%string.
Proof. reflexivity. Qed.

Lemma concat_String (sep : string) (c : ascii) (w : string) (l : list string) :
  String.concat sep (String c w :: l) = String c (String.concat sep (w :: l)).
Proof. destruct l; reflexivity. Qed.

(** X3.  formatColumnHeader, which splits at underscores, capitalises
    each word and joins with spaces, is the character-wise relabelling:
    every underscore becomes a space, the first character and each one
    after an underscore is put in upper case, every other one in lower
    case.  (With the first word put in lower case instead, it is the
    relabelling that starts inside a word.) *)
Theorem formatColumnHeader_by_character (header : string) :
  formatColumnHeader header = label_from true header
  /\ String.concat " "
       (toLowerCase (hd "" (split "_" header))
        :: map capitalize (tl (split "_" header)))
     = label_from false header.
Proof.
  unfold formatColumnHeader.
  induction header as [| c s' [IHt IHf]].
  - split; reflexivity.
  - cbn [split label_from].
    destruct (split_cons "_" s') as [w [ws E]]. rewrite E in *.
    cbn [hd tl] in IHf.
    destruct (Ascii.eqb c "_") eqn:Ec.
    + cbn [map hd tl]. rewrite !concat_cons. cbn [capitalize toLowerCase].
      cbn [map] in IHt. rewrite IHt. split; reflexivity.
    + cbn [map capitalize toLowerCase hd tl].
      rewrite !concat_String, IHf. split; reflexivity.
Qed.

End Labels.

Section Headers.
Import Js db SqlConsole Spec.

Lemma In_splice_insert {A} (i : nat) (x y : A) (xs : list A) :
  In y (splice_insert i x xs) -> y = x \/ In y xs.
Proof.
  unfold splice_insert. intros Hin. apply in_app_or in Hin.
  destruct Hin as [Hin | [Heq | Hin]].
  - right. rewrite <- (firstn_skipn i xs). apply in_or_app. left. exact Hin.
  - left. symmetry. exact Heq.
  - right. rewrite <- (firstn_skipn i xs). apply in_or_app. right. exact Hin.
Qed.

Lemma In_reorderedColumns (columns : list string) (col : string) :
  In col (reorderedColumns columns) ->
  In col columns \/ (col = "age" /\ In "date_of_birth" columns).
Proof.
  unfold reorderedColumns.
  destruct (includes "date_of_birth" columns) eqn:Edob; simpl.
  - apply includes_In in Edob.
    destruct (includes "gender" columns).
    + destruct (indexOf "gender" _) as [i | ].
      * intros Hin. apply In_splice_insert in Hin.
        destruct Hin as [-> | Hin]; [right; split; [reflexivity | exact Edob] | ].
        left. apply filter_In in Hin. apply Hin.
      * intros Hin. left. apply filter_In in Hin. apply Hin.
    + intros Hin. apply in_app_or in Hin.
      destruct Hin as [Hin | [<- | []]]; [left; exact Hin | ].
      right. split; [reflexivity | exact Edob].
  - intros Hin. left. exact Hin.
Qed.

Lemma headers_label (columns : list string) (col : string) :
  In col (reorderedColumns columns) ->
  get col (headers columns) = JStr (formatColumnHeader col).
Proof.
  intros Hin. apply In_reorderedColumns in Hin. unfold headers.
  destruct (includes "date_of_birth" columns) eqn:Edob.
  - destruct (String.eqb_spec col "age") as [-> | Hne].
    + rewrite get_set_same. reflexivity.
    + rewrite get_set_other by congruence.
      rewrite get_fold_set.
      destruct Hin as [Hin | [Hage _]]; [ | contradiction].
      rewrite (proj2 (includes_In _ _) Hin). reflexivity.
  - rewrite get_fold_set.
    destruct Hin as [Hin | [_ Hdob]].
    + rewrite (proj2 (includes_In _ _) Hin). reflexivity.
    + apply includes_In in Hdob. congruence.
Qed.

Lemma header_label (c : Console) (col : string) :
  get col (formattedHeaders c) = JStr (formatColumnHeader col) ->
  header c col = JStr (formatColumnHeader col).
Proof.
  intros Hget. unfold header. rewrite Hget.
  destruct (truthy _); reflexivity.
Qed.

Context `{Host}.

(** X4.  After a query that the engine answers with rows, in either
    console, the header shown for every displayed column, the added
    [age] column included, is formatColumnHeader of the column name:
    the lookup in formattedHeaders never has to fall back and never
    shows another label. *)
Theorem executeQuery_headers (c : Console) (w : World) (clock : Clock)
  (elapsed : Z) (result : QueryResult) (s' : Store) (row0 : Object)
  (rest : list Object) (persisted : bool) :
  blank (sql c) = false ->
  pglite_query (sql c) (store w) = (Ok result, s') ->
  rows result = Some (row0 :: rest) ->
  let c' :=
    fst (exec (if persisted
               then SqlConsolePersisted.executeQuery Pglite false clock elapsed
               else SqlConsole.executeQuery Pglite false clock elapsed)
           (c, w)) in
  forall col, In col (resultColumns c') ->
    header c' col = JStr (formatColumnHeader col).
Proof.
  intros Hblank Hquery Hrows c'. subst c'.
  apply (post_exec _ _ (fun t => forall col, In col (resultColumns (fst t)) ->
                                 header (fst t) col = _)).
  destruct persisted.
  - unfold SqlConsolePersisted.executeQuery.
    repeat view_step; intros col Hin; apply header_label, headers_label, Hin.
  - unfold SqlConsole.executeQuery.
    repeat view_step; intros col Hin; apply header_label, headers_label, Hin.
Qed.

End Headers.

(** ** The rows shown *)

Section ProcessedRows.
Import Js db SqlConsole Spec.
Context `{Host}.

(** X5.  The post-processing of a result row changes no property but
    [age]: a row without a birth date (absent, NULL or empty) is left as
    it is; otherwise [age] is set to calculateAge of the birth date, the
    age cell shows that number, and it shows NaN when the birth date
    does not parse. *)
Theorem processedRow_adds_age (today : Date) (row : Object) :
  (forall k, k <> "age" -> get k (processedRow today row) = get k row)
  /\ (truthy (get "date_of_birth" row) = false -> processedRow today row = row)
  /\ (truthy (get "date_of_birth" row) = true ->
      get "age" (processedRow today row)
      = JNum (calculateAge today (get "date_of_birth" row))
      /\ cell (processedRow today row) "age"
         = Number_toString (calculateAge today (get "date_of_birth" row))
      /\ (new_Date (get "date_of_birth" row) = None ->
          cell (processedRow today row) "age" = "NaN")).
Proof.
  unfold processedRow. split; [ | split].
  - intros k Hne. destruct (truthy _); [ | reflexivity].
    apply get_set_other. congruence.
  - intros ->. reflexivity.
  - intros ->. unfold cell. rewrite get_set_same.
    split; [reflexivity | ]. split; [reflexivity | ].
    intros Hnone. unfold calculateAge. rewrite Hnone. reflexivity.
Qed.

End ProcessedRows.

(** ** The history stays bounded *)

Section HistoryBound.
Import Js db SqlConsole Spec.

Lemma slice_last_ok (sql : string) (prev : list string) :
  history_ok prev -> ~ In sql prev ->
  history_ok (slice_last 10 (prev ++ [sql])).
Proof.
  intros [Hnd Hlen] Hnot.
  destruct (slice_last_suffix 10 (prev ++ [sql])) as [dropped [Heq Hl]].
  split.
  - assert (Hall : NoDup (prev ++ [sql])).
    { apply NoDup_app; [exact Hnd | repeat constructor; intros [] | ].
      intros x Hx [<- | []]. exact (Hnot Hx). }
    rewrite Heq in Hall. exact (NoDup_app_remove_l _ _ Hall).
  - rewrite Hl. lia.
Qed.

Lemma includes_slice_ok (sql : string) (prev : list string) :
  history_ok prev -> includes sql prev = false ->
  history_ok (slice_last 10 (prev ++ [sql])).
Proof.
  intros Hok Hinc. apply slice_last_ok; [exact Hok | ].
  apply includes_not_In. exact Hinc.
Qed.

Lemma pushHistory_ok (sql : string) (prev : list string) :
  history_ok prev -> history_ok (pushHistory sql prev).
Proof.
  intros Hok. unfold pushHistory.
  destruct (includes sql prev) eqn:E; simpl; [exact Hok | ].
  apply includes_slice_ok; assumption.
Qed.

Context `{Host}.

Ltac history_ok_goal :=
  first [ assumption
        | apply pushHistory_ok; assumption
        | apply includes_slice_ok; [assumption | ];
          match goal with
          | E : negb _ = true |- _ => apply negb_true_iff in E; exact E
          | E : _ = false |- _ => exact E
          end ].

Lemma executeQuery_history_ok (h : Handle) (l : bool) (clock : Clock)
  (elapsed : Z) (t : Tab) :
  history_ok (sqlHistory (fst t)) ->
  history_ok (sqlHistory (fst (exec (SqlConsole.executeQuery h l clock elapsed) t))).
Proof.
  intros Hok. destruct t as [c w].
  apply (post_exec _ _ (fun t => history_ok (sqlHistory (fst t)))).
  unfold SqlConsole.executeQuery.
  repeat view_step; history_ok_goal.
Qed.

Lemma executeQuery_history_ok_persisted (h : Handle) (l : bool) (clock : Clock)
  (elapsed : Z) (t : Tab) :
  history_ok (sqlHistory (fst t)) ->
  history_ok (sqlHistory (fst (exec (SqlConsolePersisted.executeQuery h l clock elapsed) t))).
Proof.
  intros Hok. destruct t as [c w].
  apply (post_exec _ _ (fun t => history_ok (sqlHistory (fst t)))).
  unfold SqlConsolePersisted.executeQuery.
  repeat view_step; history_ok_goal.
Qed.

Lemma reloadSavedData_history (h : Handle) (t : Tab) :
  sqlHistory (fst (exec (SqlConsolePersisted.reloadSavedData h) t))
  = sqlHistory (fst t).
Proof.
  destruct t as [c w].
  apply (post_exec _ _ (fun t => sqlHistory (fst t) = _)).
  unfold SqlConsolePersisted.reloadSavedData.
  repeat view_step; reflexivity.
Qed.

(** X6.  An invariant of the tab: a history with no duplicate and at
    most ten texts stays so under every operation but the hydration on
    mount (which installs whatever the store holds), whatever the engine
    answers. *)
Theorem history_stays_bounded (op : App.Operation) (a : App.State) :
  mounts op = false ->
  history_ok (sqlHistory (App.console a)) ->
  history_ok (sqlHistory (App.console (App.perform op a))).
Proof.
  intros Hop Hok.
  destruct op; try discriminate Hop; cbn [App.perform];
    try exact Hok.
  - destruct persisted; unfold App.on_console; cbn [App.console].
    + apply (post_exec _ _ (fun t => history_ok (sqlHistory (fst t)))).
      unfold SqlConsolePersisted.resetResults. repeat view_step; exact Hok.
    + apply (post_exec _ _ (fun t => history_ok (sqlHistory (fst t)))).
      unfold SqlConsole.resetResults. repeat view_step; exact Hok.
  - destruct persisted; unfold App.on_console; cbn [App.console].
    + apply executeQuery_history_ok_persisted. exact Hok.
    + apply executeQuery_history_ok. exact Hok.
  - unfold App.on_console; cbn [App.console].
    unfold SqlConsolePersisted.handleDbChange, bind, get_state, exec.
    cbn [fst snd].
    destruct (_ && _)%bool.
    + destruct (SqlConsolePersisted.contains _ _).
      * apply executeQuery_history_ok_persisted. exact Hok.
      * exact Hok.
    + destruct (type message =? "results-updated")%string.
      * fold (exec (SqlConsolePersisted.reloadSavedData (App.handle a)) (App.console a, App.world a)).
        rewrite reloadSavedData_history. exact Hok.
      * destruct (type message =? "results-cleared")%string; exact Hok.
Qed.

End HistoryBound.

(** ** The pages of the table *)

Section Pages.
Import Js db SqlConsole SqlConsolePersisted.

Lemma chunks_concat {A} (k n : nat) (l : list A) :
  (0 < k)%nat -> (List.length l <= n * k)%nat ->
  List.concat (map (fun i => slice (i * k) ((i + 1) * k) l) (seq 0 n)) = l.
Proof.
  intros Hk. revert l. induction n as [| n IH]; intros l Hlen.
  - destruct l; [reflexivity | simpl in Hlen; lia].
  - cbn [seq map List.concat]. rewrite <- seq_shift, map_map.
    transitivity (firstn k l ++ skipn k l); [ | apply firstn_skipn].
    f_equal.
    + unfold slice. cbn [Nat.mul Nat.add skipn].
      rewrite Nat.sub_0_r, Nat.add_0_r. reflexivity.
    + rewrite <- (IH (skipn k l)) at 1.
      * f_equal. apply map_ext. intros i. unfold slice. rewrite skipn_skipn.
        f_equal; [lia | f_equal; lia].
      * rewrite length_skipn. lia.
Qed.

Lemma pageCount_covers (results : list Object) :
  (List.length results <= pageCount results * pageSize
   < List.length results + pageSize)%nat.
Proof.
  unfold pageCount, pageSize.
  pose proof (Nat.div_mod_eq (List.length results + (9 - 1)) 9).
  pose proof (Nat.mod_upper_bound (List.length results + (9 - 1)) 9).
  lia.
Qed.

(** X7.  The pages of the result table partition the results: the
    pages [0 .. pageCount - 1], one after the other, are exactly the
    results, in order; each of them holds between one and nine rows, and
    every page but the last holds nine. *)
Theorem pages_partition (results : list Object) :
  List.concat (map (fun i => page i results) (seq 0 (pageCount results))) = results
  /\ forall i, (i < pageCount results)%nat ->
       (1 <= List.length (page i results) <= pageSize)%nat
       /\ ((i + 1 < pageCount results)%nat ->
           List.length (page i results) = pageSize).
Proof.
  pose proof (pageCount_covers results) as Hc.
  split.
  - unfold page. apply chunks_concat; [unfold pageSize; lia | lia].
  - intros i Hi. unfold page, slice.
    rewrite length_firstn, length_skipn. unfold pageSize in *. split; [lia | lia].
Qed.

End Pages.

(** ** What a run leaves for other tabs and for the next mount *)

Section CrossTab.
Import Js db SqlConsole Spec.
Context `{Host}.

Lemma as_objects_map (l : list Object) : as_objects (JArr (map JObj l)) = l.
Proof. cbn. rewrite map_map. apply map_id. Qed.

Lemma as_strings_map (l : list string) : as_strings (JArr (map JStr l)) = l.
Proof. cbn. rewrite map_map. apply map_id. Qed.

Lemma texts_headers (columns : list string) : texts (headers columns).
Proof.
  unfold headers.
  assert (Hl : forall acc, texts acc ->
            texts (fold_left (fun h col => set col (JStr (formatColumnHeader col)) h)
                     columns acc)).
  { induction columns as [| c cs IH]; intros acc Hacc; cbn; [exact Hacc | ].
    apply IH, texts_set, Hacc. }
  destruct (includes _ _); [apply texts_set | ]; apply Hl; constructor.
Qed.

Lemma stringify_headers (columns : list string) :
  exists t, stringValue (JObj (headers columns)) = Some t.
Proof.
  destruct (serialize_texts _ (texts_headers columns)) as [t Ht].
  exists t. cbn [stringValue]. unfold JSON_stringify. rewrite Ht. reflexivity.
Qed.

(** What a run that the engine answers with rows leaves in the store
    and on the channel. *)
Lemma executeQuery_saves (c : Console) (w : World) (clock : Clock)
  (elapsed : Z) (result : QueryResult) (s' : Store) (row0 : Object)
  (rest : list Object) (tr : string) :
  blank (sql c) = false ->
  pglite_query (sql c) (store w) = (Ok result, s') ->
  rows result = Some (row0 :: rest) ->
  JSON_stringify (JArr (map JObj (processedResults (today clock) (row0 :: rest))))
  = Some tr ->
  let t' := exec (SqlConsolePersisted.executeQuery Pglite false clock elapsed)
              (c, w) in
  results (fst t') = processedResults (today clock) (row0 :: rest)
  /\ resultColumns (fst t') = reorderedColumns (keys row0)
  /\ formattedHeaders (fst t') = headers (keys row0)
  /\ sqlHistory (fst t') = pushHistory (sql c) (sqlHistory c)
  /\ stored "last_results" (sql_settings (store (snd t'))) = Some tr
  /\ stored "last_columns" (sql_settings (store (snd t')))
     = JSON_stringify (JArr (map JStr (reorderedColumns (keys row0))))
  /\ stored "last_headers" (sql_settings (store (snd t')))
     = JSON_stringify (JObj (headers (keys row0)))
  /\ (includes (sql c) (sqlHistory c) = false ->
      stored "sql_history" (sql_settings (store (snd t')))
      = JSON_stringify (JArr (map JStr (pushHistory (sql c) (sqlHistory c)))))
  /\ (channel w = ChannelOpen ->
      posted (snd t')
      = posted w ++ [mkMessage "results-updated" JUndefined (millis clock)]).
Proof.
  intros Hblank Hquery Hrows Hr t'. subst t'.
  change (stringValue (JArr (map JObj (processedResults (today clock) (row0 :: rest))))
          = Some tr) in Hr.
  assert (Hc : stringValue (JArr (map JStr (reorderedColumns (keys row0))))
               = JSON_stringify (JArr (map JStr (reorderedColumns (keys row0)))))
    by reflexivity.
  rewrite stringify_strings in Hc.
  destruct (stringify_headers (keys row0)) as [th Hh].
  assert (Hs : stringValue (JArr (map JStr (slice_last 10 (sqlHistory c ++ [sql c]))))
               = JSON_stringify (JArr (map JStr (slice_last 10 (sqlHistory c ++ [sql c])))))
    by reflexivity.
  rewrite stringify_strings in Hs.
  apply (post_exec _ _ (fun t =>
           results (fst t) = _ /\ resultColumns (fst t) = _
           /\ formattedHeaders (fst t) = _ /\ sqlHistory (fst t) = _
           /\ stored "last_results" (sql_settings (store (snd t))) = _
           /\ stored "last_columns" (sql_settings (store (snd t))) = _
           /\ stored "last_headers" (sql_settings (store (snd t))) = _
           /\ (includes (sql c) (sqlHistory c) = false ->
               stored "sql_history" (sql_settings (store (snd t))) = _)
           /\ (channel w = ChannelOpen -> posted (snd t) = _))).
  unfold SqlConsolePersisted.executeQuery, pushHistory.
  repeat post_step.
  all: change (JSON_stringify (JObj (headers (keys row0))))
         with (stringValue (JObj (headers (keys row0)))).
  all: rewrite ?Hh, ?stringify_strings.
  all: repeat match goal with
         | |- _ /\ _ => split
         | |- _ -> _ => intro
         end.
  all: try reflexivity.
  all: try congruence.
  all: try match goal with
           | E : negb _ = false |- _ =>
               apply negb_false_iff in E; congruence
           end.
  all: repeat first
         [ rewrite stored_upsert_same
         | rewrite stored_upsert_other by reflexivity ].
  all: try reflexivity.
Qed.

(** What the callback of [results-updated] shows of the stored texts. *)
Lemma reloadSavedData_stored (c : Console) (w : World) (tr tc th : string)
  (vr vc vh : Value) :
  stored "last_results" (sql_settings (store w)) = Some tr ->
  stored "last_columns" (sql_settings (store w)) = Some tc ->
  stored "last_headers" (sql_settings (store w)) = Some th ->
  JSON_parse tr = Some vr ->
  JSON_parse tc = Some vc ->
  JSON_parse th = Some vh ->
  let t' := exec (SqlConsolePersisted.reloadSavedData Pglite) (c, w) in
  results (fst t') = as_objects vr
  /\ resultColumns (fst t') = as_strings vc
  /\ formattedHeaders (fst t') = as_object vh.
Proof.
  intros Hr Hc Hh Pr Pc Ph t'. subst t'.
  apply stored_select in Hr. destruct Hr as [lr Hr].
  apply stored_select in Hc. destruct Hc as [lc Hc].
  apply stored_select in Hh. destruct Hh as [lh Hh].
  apply (post_exec _ _ (fun t =>
           results (fst t) = _ /\ resultColumns (fst t) = _
           /\ formattedHeaders (fst t) = _)).
  unfold SqlConsolePersisted.reloadSavedData.
  repeat post_step. repeat split; reflexivity.
Qed.

(** X8.  Cross-tab propagation of results: when a query is answered
    with rows that serialise, the console that persists posts one
    message, and a tab on the same store that handles this message shows
    the results, the columns and the headers of the tab that ran the
    query, provided JSON.parse reads the three stored texts back. *)
Theorem results_reach_other_tab (c : Console) (w : World) (clock : Clock)
  (elapsed : Z) (result : QueryResult) (s' : Store) (row0 : Object)
  (rest : list Object) (tr : string) (b : Tab) (clockB : Clock) (elapsedB : Z) :
  blank (sql c) = false ->
  pglite_query (sql c) (store w) = (Ok result, s') ->
  rows result = Some (row0 :: rest) ->
  channel w = ChannelOpen ->
  JSON_stringify (JArr (map JObj (processedResults (today clock) (row0 :: rest))))
  = Some tr ->
  reads_back (JArr (map JObj (processedResults (today clock) (row0 :: rest)))) ->
  reads_back (JArr (map JStr (reorderedColumns (keys row0)))) ->
  reads_back (JObj (headers (keys row0))) ->
  let a' := exec (SqlConsolePersisted.executeQuery Pglite false clock elapsed)
              (c, w) in
  store (snd b) = store (snd a') ->
  exists message,
    posted (snd a') = posted w ++ [message]
    /\ let b' := exec (SqlConsolePersisted.handleDbChange Pglite false clockB
                         elapsedB message) b in
       results (fst b') = results (fst a')
       /\ resultColumns (fst b') = resultColumns (fst a')
       /\ formattedHeaders (fst b') = formattedHeaders (fst a').
Proof.
  intros Hblank Hquery Hrows Hopen Hr Rr Rc Rh a' Hstore.
  destruct (executeQuery_saves c w clock elapsed result s' row0 rest tr
              Hblank Hquery Hrows Hr)
    as [Er [Ec [Eh [_ [Sr [Sc [Sh [_ Hposted]]]]]]]].
  fold a' in Er, Ec, Eh, Sr, Sc, Sh, Hposted.
  exists (mkMessage "results-updated" JUndefined (millis clock)).
  split; [exact (Hposted Hopen) | ].
  destruct b as [cB wB]. cbn [snd] in Hstore.
  rewrite <- Hstore in Sr, Sc, Sh.
  destruct (stringify_headers (keys row0)) as [th Hth].
  change (JSON_stringify (JObj (headers (keys row0))) = Some th) in Hth.
  rewrite Hth in Sh. rewrite stringify_strings in Sc.
  unfold SqlConsolePersisted.handleDbChange, exec, bind, get_state.
  cbn [type fst snd String.eqb Ascii.eqb Bool.eqb andb].
  rewrite Er, Ec, Eh.
  rewrite <- (as_objects_map (processedResults (today clock) (row0 :: rest))).
  rewrite <- (as_strings_map (reorderedColumns (keys row0))).
  change (headers (keys row0)) with (as_object (JObj (headers (keys row0)))).
  apply (reloadSavedData_stored cB wB _ _ _ _ _ _ Sr Sc Sh).
  - apply Rr. exact Hr.
  - apply Rc. apply stringify_strings.
  - apply Rh. exact Hth.
Qed.

(** What the hydration on mount shows of the stored texts. *)
Lemma loadSavedData_stored (c : Console) (w : World) (tr tc th ts : string)
  (vr vc vh vs : Value) :
  stored "last_results" (sql_settings (store w)) = Some tr ->
  stored "last_columns" (sql_settings (store w)) = Some tc ->
  stored "last_headers" (sql_settings (store w)) = Some th ->
  stored "sql_history" (sql_settings (store w)) = Some ts ->
  JSON_parse tr = Some vr ->
  JSON_parse tc = Some vc ->
  JSON_parse th = Some vh ->
  JSON_parse ts = Some vs ->
  let t' := exec (SqlConsolePersisted.loadSavedData Pglite) (c, w) in
  results (fst t') = as_objects vr
  /\ resultColumns (fst t') = as_strings vc
  /\ formattedHeaders (fst t') = as_object vh
  /\ sqlHistory (fst t') = as_strings vs.
Proof.
  intros Hr Hc Hh Hs Pr Pc Ph Ps t'. subst t'.
  apply stored_select in Hr. destruct Hr as [lr Hr].
  apply stored_select in Hc. destruct Hc as [lc Hc].
  apply stored_select in Hh. destruct Hh as [lh Hh].
  apply stored_select in Hs. destruct Hs as [ls Hs].
  apply (post_exec _ _ (fun t =>
           results (fst t) = _ /\ resultColumns (fst t) = _
           /\ formattedHeaders (fst t) = _ /\ sqlHistory (fst t) = _)).
  unfold SqlConsolePersisted.loadSavedData.
  repeat post_step; repeat split; reflexivity.
Qed.

(** X9.  Reload: a console mounted on the store that a successful run
    of a new query text left shows the results, columns, headers and
    history of the tab that ran it, provided JSON.parse reads the stored
    texts back. *)
Theorem mount_restores_last_run (c : Console) (w : World) (clock : Clock)
  (elapsed : Z) (result : QueryResult) (s' : Store) (row0 : Object)
  (rest : list Object) (tr : string) (b : Tab) :
  blank (sql c) = false ->
  pglite_query (sql c) (store w) = (Ok result, s') ->
  rows result = Some (row0 :: rest) ->
  includes (sql c) (sqlHistory c) = false ->
  JSON_stringify (JArr (map JObj (processedResults (today clock) (row0 :: rest))))
  = Some tr ->
  reads_back (JArr (map JObj (processedResults (today clock) (row0 :: rest)))) ->
  reads_back (JArr (map JStr (reorderedColumns (keys row0)))) ->
  reads_back (JObj (headers (keys row0))) ->
  reads_back (JArr (map JStr (pushHistory (sql c) (sqlHistory c)))) ->
  let a' := exec (SqlConsolePersisted.executeQuery Pglite false clock elapsed)
              (c, w) in
  store (snd b) = store (snd a') ->
  let b' := exec (SqlConsolePersisted.loadSavedData Pglite) b in
  results (fst b') = results (fst a')
  /\ resultColumns (fst b') = resultColumns (fst a')
  /\ formattedHeaders (fst b') = formattedHeaders (fst a')
  /\ sqlHistory (fst b') = sqlHistory (fst a').
Proof.
  intros Hblank Hquery Hrows Hnew Hr Rr Rc Rh Rs a' Hstore.
  destruct (executeQuery_saves c w clock elapsed result s' row0 rest tr
              Hblank Hquery Hrows Hr)
    as [Er [Ec [Eh [Es [Sr [Sc [Sh [Ss _]]]]]]]].
  fold a' in Er, Ec, Eh, Es, Sr, Sc, Sh, Ss.
  specialize (Ss Hnew).
  destruct b as [cB wB]. cbn [snd] in Hstore.
  rewrite <- Hstore in Sr, Sc, Sh, Ss.
  destruct (stringify_headers (keys row0)) as [th Hth].
  change (JSON_stringify (JObj (headers (keys row0))) = Some th) in Hth.
  rewrite Hth in Sh. rewrite stringify_strings in Sc, Ss.
  rewrite Er, Ec, Eh, Es.
  rewrite <- (as_objects_map (processedResults (today clock) (row0 :: rest))).
  rewrite <- (as_strings_map (reorderedColumns (keys row0))).
  rewrite <- (as_strings_map (pushHistory (sql c) (sqlHistory c))).
  change (headers (keys row0)) with (as_object (JObj (headers (keys row0)))).
  apply (loadSavedData_stored cB wB _ _ _ _ _ _ _ _ Sr Sc Sh Ss).
  - apply Rr. exact Hr.
  - apply Rc. apply stringify_strings.
  - apply Rh. exact Hth.
  - apply Rs. apply stringify_strings.
Qed.

End CrossTab.

(** ** Clearing the results *)

Section Clearing.
Import Js db SqlConsole Spec.
Context `{Host}.

Lemma stored_cleared (k : string) (t : list Entry) :
  In k saved_result_keys -> stored k (delete saved_result_keys t) = None.
Proof.
  intros Hin. rewrite stored_delete.
  rewrite (proj2 (includes_In _ _) Hin). reflexivity.
Qed.

(** X10.  A query answered with no row, in either console, clears
    the results, the columns and the headers, deletes the three saved
    result settings (so none of them is stored afterwards) and leaves
    the saved query text alone; the history still records the text and
    success is reported. *)
Theorem empty_result_clears (c : Console) (w : World) (clock : Clock)
  (elapsed : Z) (result : QueryResult) (s' : Store) (persisted : bool) :
  blank (sql c) = false ->
  pglite_query (sql c) (store w) = (Ok result, s') ->
  rows result = Some [] ->
  let t' :=
    exec (if persisted
          then SqlConsolePersisted.executeQuery Pglite false clock elapsed
          else SqlConsole.executeQuery Pglite false clock elapsed) (c, w) in
  results (fst t') = []
  /\ resultColumns (fst t') = []
  /\ formattedHeaders (fst t') = []
  /\ sqlHistory (fst t') = pushHistory (sql c) (sqlHistory c)
  /\ activeTab (fst t') = "results"
  /\ (forall k, In k saved_result_keys ->
        stored k (sql_settings (store (snd t'))) = None)
  /\ stored "last_query" (sql_settings (store (snd t')))
     = stored "last_query" (sql_settings s')
  /\ reported_success (snd t').
Proof.
  intros Hblank Hquery Hrows t'. subst t'.
  assert (Hs : stringValue (JArr (map JStr (slice_last 10 (sqlHistory c ++ [sql c]))))
               = JSON_stringify (JArr (map JStr (slice_last 10 (sqlHistory c ++ [sql c])))))
    by reflexivity.
  rewrite stringify_strings in Hs.
  apply (post_exec _ _ (fun t =>
           results (fst t) = _ /\ resultColumns (fst t) = _
           /\ formattedHeaders (fst t) = _ /\ sqlHistory (fst t) = _
           /\ activeTab (fst t) = _
           /\ (forall k, In k saved_result_keys ->
                 stored k (sql_settings (store (snd t))) = None)
           /\ stored "last_query" (sql_settings (store (snd t))) = _
           /\ reported_success (snd t))).
  unfold reported_success.
  destruct persisted.
  - unfold SqlConsolePersisted.executeQuery, pushHistory.
    repeat post_step.
    all: repeat match goal with |- _ /\ _ => split end.
    all: try reflexivity.
    all: try (eexists; eexists; reflexivity).
    all: try (intros k Hk; rewrite ?stored_upsert_other;
              [apply stored_cleared, Hk
              | destruct Hk as [<- | [<- | [<- | []]]]; reflexivity]).
    all: try (intros k Hk; apply stored_cleared, Hk).
    all: rewrite ?stored_upsert_other by reflexivity.
    all: rewrite stored_delete; reflexivity.
  - unfold SqlConsole.executeQuery.
    repeat post_step.
    repeat match goal with |- _ /\ _ => split end.
    all: try reflexivity.
    + intros k Hk. apply stored_cleared, Hk.
    + rewrite stored_delete; reflexivity.
    + eexists; eexists; reflexivity.
Qed.

End Clearing.

(** ** Messages from other tabs *)

Section Reset.
Import Js db SqlConsole Spec.
Context `{Host}.

(** X11.  resetResults of the console that persists empties the
    table, keeps the text and the history, removes exactly the three
    saved result settings from the store, leaves [patients] alone and
    posts one message; a tab that handles this message empties its table
    too, and touches neither its history nor anything outside its
    state. *)
Theorem reset_reaches_other_tab (c : Console) (w : World) (clock : Clock)
  (b : Tab) (clockB : Clock) (elapsedB : Z) :
  channel w = ChannelOpen ->
  let a' := exec (SqlConsolePersisted.resetResults Pglite clock) (c, w) in
  (results (fst a') = [] /\ resultColumns (fst a') = []
   /\ formattedHeaders (fst a') = [])
  /\ (sql (fst a') = sql c /\ sqlHistory (fst a') = sqlHistory c)
  /\ (forall k,
        stored k (sql_settings (store (snd a')))
        = if includes k saved_result_keys then None
          else stored k (sql_settings (store w)))
  /\ patients (store (snd a')) = patients (store w)
  /\ exists message,
       posted (snd a') = posted w ++ [message]
       /\ let b' := exec (SqlConsolePersisted.handleDbChange Pglite false
                            clockB elapsedB message) b in
          results (fst b') = [] /\ resultColumns (fst b') = []
          /\ formattedHeaders (fst b') = []
          /\ sqlHistory (fst b') = sqlHistory (fst b)
          /\ snd b' = snd b.
Proof.
  intros Hopen a'. subst a'.
  apply (post_exec _ _ (fun t =>
           (results (fst t) = [] /\ resultColumns (fst t) = []
            /\ formattedHeaders (fst t) = [])
           /\ (sql (fst t) = sql c /\ sqlHistory (fst t) = sqlHistory c)
           /\ (forall k, stored k (sql_settings (store (snd t))) = _)
           /\ patients (store (snd t)) = patients (store w)
           /\ exists message, posted (snd t) = posted w ++ [message] /\ _)).
  unfold SqlConsolePersisted.resetResults.
  repeat post_step.
  split; [repeat split | ]. split; [repeat split | ].
  split; [intros k; apply stored_delete | ]. split; [reflexivity | ].
  eexists. split; [reflexivity | ].
  destruct b as [cB wB].
  repeat split.
Qed.

(** X12.  handleDbChange does nothing at all on a message that is
    neither [results-updated] nor [results-cleared], unless it is
    [patient-added] while the results tab is active and the text of the
    console reads from [patients]: no state changes, nothing is sent to
    the engine. *)
Theorem handleDbChange_ignores (h : Handle) (l : bool) (clock : Clock)
  (elapsed : Z) (message : Message) (t : Tab) :
  type message <> "results-updated" ->
  type message <> "results-cleared" ->
  (type message = "patient-added" ->
   activeTab (fst t) <> "results"
   \/ SqlConsolePersisted.contains "from patients" (toLowerCase (sql (fst t)))
      = false) ->
  SqlConsolePersisted.handleDbChange h l clock elapsed message t = (Ok tt, t).
Proof.
  intros Hupdated Hcleared Hadded.
  unfold SqlConsolePersisted.handleDbChange, bind, get_state.
  destruct (String.eqb_spec (type message) "patient-added") as [Ea | Ea];
    cbn [andb].
  - destruct (Hadded Ea) as [Htab | Htext].
    + apply String.eqb_neq in Htab. rewrite Htab.
      apply String.eqb_neq in Hupdated, Hcleared.
      rewrite Hupdated, Hcleared. reflexivity.
    + destruct (activeTab (fst t) =? "results")%string.
      * rewrite Htext. reflexivity.
      * apply String.eqb_neq in Hupdated, Hcleared.
        rewrite Hupdated, Hcleared. reflexivity.
  - apply String.eqb_neq in Hupdated, Hcleared.
    rewrite Hupdated, Hcleared. reflexivity.
Qed.

End Reset.

Section Refresh.
Import Js db SqlConsole Spec.
Context `{Host}.

Lemma space_is_not_f (c : ascii) :
  is_space c = true -> lower_char c <> "f"%char.
Proof.
  destruct c as [[] [] [] [] [] [] [] []]; cbn; intros Hs; try discriminate Hs;
    intros Hf; discriminate Hf.
Qed.

Lemma from_patients_not_blank (s : string) :
  SqlConsolePersisted.contains "from patients" (toLowerCase s) = true ->
  blank s = false.
Proof.
  induction s as [| c s IH]; [cbn; discriminate | ].
  cbn [toLowerCase SqlConsolePersisted.contains blank].
  intros Hc. apply orb_true_iff in Hc.
  destruct (is_space c) eqn:Es; [ | reflexivity]. cbn [andb].
  destruct Hc as [Hp | Hc]; [ | exact (IH Hc)].
  exfalso. cbn [String.prefix] in Hp.
  destruct (ascii_dec "f" (lower_char c)) as [Ef | Ef]; [ | discriminate Hp].
  exact (space_is_not_f c Es (eq_sym Ef)).
Qed.

(** X13.  Cross-tab refresh: a successful registration posts one
    message; a console on the same store whose results tab is active and
    whose text reads from [patients] re-runs its text on that message,
    and, when the engine answers with the rows of the table, shows all
    of them, the new patient last. *)
Theorem registration_refreshes_console (values : PatientForm.PatientFormValues)
  (uuid : string) (clock : Clock) (f : PatientForm.Form) (w : World)
  (cB : Console) (wB : World) (clockB : Clock) (elapsedB : Z)
  (count : option Z) :
  has_id uuid (patients (store w)) = false ->
  channel w = ChannelOpen ->
  let a' := exec (PatientForm.onSubmit Pglite false values uuid clock) (f, w) in
  store wB = store (snd a') ->
  activeTab cB = "results" ->
  SqlConsolePersisted.contains "from patients" (toLowerCase (sql cB)) = true ->
  pglite_query (sql cB) (store wB)
  = (Ok (mkQueryResult
           (Some (map Sample.patient_object (patients (store wB)))) count),
     store wB) ->
  exists message,
    posted (snd a') = posted w ++ [message]
    /\ let b' := exec (SqlConsolePersisted.handleDbChange Pglite false clockB
                         elapsedB message) (cB, wB) in
       results (fst b')
       = processedResults (today clockB)
           (map Sample.patient_object
              (patients (store w) ++ [submitted_row values uuid (iso clock)])).
Proof.
  intros Hfresh Hopen a' Hstore Htab Htext Hquery.
  destruct (onSubmit_run values uuid clock f w a' Hfresh Hopen
              (or_introl eq_refl))
    as [Hpatients [_ [_ Hposted]]].
  assert (Hp : posted (snd a')
               = posted w ++ [mkMessage "patient-added"
                                (JObj [("id", JStr uuid)]) (millis clock)]).
  { subst a'.
    apply (post_exec _ _ (fun t => posted (snd t) = _)).
    unfold PatientForm.onSubmit, patientToSqlParams. cbn [is_null orb].
    cbn [id db.firstName db.lastName db.dateOfBirth db.gender db.email
         db.phone db.address db.insuranceProvider db.insuranceNumber
         db.medicalConditions db.medications db.allergies db.createdAt
         db.updatedAt].
    rewrite !or_empty_Some.
    fold (submitted_params values uuid (iso clock)).
    repeat post_step;
      match goal with
      | Hins : insert_patient _ _ = _ |- _ =>
          rewrite (insert_submitted values uuid (iso clock) _ Hfresh) in Hins;
          inversion Hins; subst
      end.
    reflexivity. }
  eexists. split; [exact Hp | ].
  rewrite <- Hpatients, <- Hstore.
  pose proof (from_patients_not_blank _ Htext) as Hblank.
  assert (Hsome : patients (store wB) <> []).
  { rewrite Hstore, Hpatients. intros E. apply app_eq_nil in E.
    destruct E as [_ E]. discriminate E. }
  unfold SqlConsolePersisted.handleDbChange, exec, bind at 1, get_state.
  cbn [type fst snd String.eqb Ascii.eqb Bool.eqb andb].
  rewrite Htab, Htext. cbn [String.eqb Ascii.eqb Bool.eqb andb].
  apply (post_exec _ _ (fun t => results (fst t) = _)).
  unfold SqlConsolePersisted.executeQuery.
  repeat view_step; try reflexivity.
  all: match goal with
       | E : map _ _ = [] |- _ => apply map_eq_nil in E; contradiction
       | E : map _ _ = _ :: _ |- _ => rewrite <- E; reflexivity
       end.
Qed.

End Refresh.

(** ** Submissions that fail or cannot be announced *)

Section SubmitFails.
Import Js db PatientForm Spec.

Lemma insert_duplicate (values : PatientFormValues) (uuid now : string)
  (t : list PatientRow) :
  has_id uuid t = true ->
  insert_patient (submitted_params values uuid now) t
  = Thrown "duplicate key value violates unique constraint".
Proof.
  intros Htaken. unfold insert_patient, submitted_params. simpl.
  rewrite Htaken. reflexivity.
Qed.

Ltac submit_params values uuid clock :=
  unfold patientToSqlParams; cbn [is_null orb];
  cbn [id db.firstName db.lastName db.dateOfBirth db.gender db.email
       db.phone db.address db.insuranceProvider db.insuranceNumber
       db.medicalConditions db.medications db.allergies db.createdAt
       db.updatedAt];
  rewrite !or_empty_Some;
  fold (submitted_params values uuid (iso clock)).

(** X14.  A submission whose id is already taken, in either form,
    fails without effect on the data: the store, the channel and the
    saved draft are as before, the fields keep what was typed, the
    submitting flag is back to false, and one destructive notice
    "Registration failed" with the message of the engine is shown. *)
Theorem onSubmit_duplicate_id (values : PatientFormValues) (uuid : string)
  (clock : Clock) (f : Form) (w : World) (persisted : bool) :
  has_id uuid (patients (store w)) = true ->
  let t' :=
    exec (if persisted
          then PatientFormPersisted.onSubmit Pglite false values uuid clock
          else PatientForm.onSubmit Pglite false values uuid clock) (f, w) in
  store (snd t') = store w
  /\ posted (snd t') = posted w
  /\ localStorage (snd t') = localStorage w
  /\ fields (fst t') = fields f
  /\ isSubmitting (fst t') = false
  /\ issued (snd t')
     = issued w ++ [InsertPatient (submitted_params values uuid (iso clock))]
  /\ toasts (snd t')
     = toasts w
       ++ [mkToast true "Registration failed"
             "duplicate key value violates unique constraint"].
Proof.
  intros Htaken t'. subst t'.
  apply (post_exec _ _ (fun t =>
           store (snd t) = _ /\ posted (snd t) = _ /\ localStorage (snd t) = _
           /\ fields (fst t) = _ /\ isSubmitting (fst t) = _
           /\ issued (snd t) = _ /\ toasts (snd t) = _)).
  destruct persisted.
  - unfold PatientFormPersisted.onSubmit. submit_params values uuid clock.
    repeat post_step;
      match goal with
      | Hins : insert_patient _ _ = _ |- _ =>
          rewrite (insert_duplicate values uuid (iso clock) _ Htaken) in Hins;
          inversion Hins; subst
      end.
    destruct w; repeat split.
  - unfold PatientForm.onSubmit. submit_params values uuid clock.
    repeat post_step;
      match goal with
      | Hins : insert_patient _ _ = _ |- _ =>
          rewrite (insert_duplicate values uuid (iso clock) _ Htaken) in Hins;
          inversion Hins; subst
      end.
    destruct w; repeat split.
Qed.

(** X15.  Without a channel (no window, or BroadcastChannel cannot
    be constructed) a submission still registers the patient and reports
    success; nothing is posted, and with no window nothing is logged. *)
Theorem onSubmit_without_channel (values : PatientFormValues) (uuid : string)
  (clock : Clock) (f : Form) (w : World) (persisted : bool) :
  has_id uuid (patients (store w)) = false ->
  channel w <> ChannelOpen ->
  let t' :=
    exec (if persisted
          then PatientFormPersisted.onSubmit Pglite false values uuid clock
          else PatientForm.onSubmit Pglite false values uuid clock) (f, w) in
  patients (store (snd t'))
  = patients (store w) ++ [submitted_row values uuid (iso clock)]
  /\ posted (snd t') = posted w
  /\ isSubmitting (fst t') = false
  /\ toasts (snd t')
     = toasts w
       ++ [mkToast false "Patient registered successfully"
             (firstName values ++ " " ++ lastName values
              ++ " has been added to the system.")%string]
  /\ (channel w = NoWindow -> console_error (snd t') = console_error w).
Proof.
  intros Hfresh Hclosed t'. subst t'.
  apply (post_exec _ _ (fun t =>
           patients (store (snd t)) = _ /\ posted (snd t) = _
           /\ isSubmitting (fst t) = _ /\ toasts (snd t) = _
           /\ (channel w = NoWindow -> console_error (snd t) = _))).
  destruct persisted.
  - unfold PatientFormPersisted.onSubmit, PatientFormPersisted.clearForm.
    submit_params values uuid clock.
    repeat post_step;
      match goal with
      | Hins : insert_patient _ _ = _ |- _ =>
          rewrite (insert_submitted values uuid (iso clock) _ Hfresh) in Hins;
          inversion Hins; subst
      end.
    all: repeat split; try reflexivity; congruence.
  - unfold PatientForm.onSubmit. submit_params values uuid clock.
    repeat post_step;
      match goal with
      | Hins : insert_patient _ _ = _ |- _ =>
          rewrite (insert_submitted values uuid (iso clock) _ Hfresh) in Hins;
          inversion Hins; subst
      end.
    all: repeat split; try reflexivity; congruence.
Qed.

End SubmitFails.

(** ** The text sent to the engine *)

Section SendsOnce.
Import Js db SqlConsole Spec.
Context `{Host}.

Lemma console_texts_app (l1 l2 : list Stmt) :
  console_texts (l1 ++ l2) = console_texts l1 ++ console_texts l2.
Proof. apply flat_map_app. Qed.

(** X16.  executeQuery, in either console and whatever the engine
    answers, sends the text of the console to the engine once, or not at
    all when the store is not open, is loading, or the text is blank;
    it never changes the text, and it leaves the executing flag false
    whenever it ran. *)
Theorem executeQuery_sends_text_once (h : Handle) (l : bool) (clock : Clock)
  (elapsed : Z) (c : Console) (w : World) (persisted : bool) :
  let t' :=
    exec (if persisted
          then SqlConsolePersisted.executeQuery h l clock elapsed
          else SqlConsole.executeQuery h l clock elapsed) (c, w) in
  console_texts (issued (snd t'))
  = console_texts (issued w)
    ++ (if is_null h || l || blank (sql c) then [] else [sql c])
  /\ isExecuting (fst t') = isExecuting c && (is_null h || l || blank (sql c))
  /\ sql (fst t') = sql c.
Proof.
  intros t'. subst t'.
  apply (post_exec _ _ (fun t =>
           console_texts (issued (snd t)) = _ /\ isExecuting (fst t) = _
           /\ sql (fst t) = _)).
  destruct persisted.
  - unfold SqlConsolePersisted.executeQuery.
    repeat open_step.
    all: rewrite ?console_texts_app; cbn [console_texts flat_map app].
    all: rewrite ?app_nil_r, ?andb_true_r, ?andb_false_r.
    all: repeat split.
  - unfold SqlConsole.executeQuery.
    repeat open_step.
    all: rewrite ?console_texts_app; cbn [console_texts flat_map app].
    all: rewrite ?app_nil_r, ?andb_true_r, ?andb_false_r.
    all: repeat split.
Qed.

End SendsOnce.

(** ** The draft of the form *)

Section Drafts.
Import Js db PatientForm Spec.
Context `{Host}.

Lemma stringify_values (v : PatientFormValues) :
  exists rest,
    JSON_stringify (JObj (toObject v)) = Some (String "{" rest).
Proof.
  destruct v as [a b c d e f g h i j k l].
  destruct e, h, i, l; eexists; reflexivity.
Qed.

Lemma ofObject_defined (v : PatientFormValues) :
  ofObject (defined (toObject v)) = v.
Proof.
  destruct v as [a b c d e f g h i j k l].
  destruct e, h, i, l; reflexivity.
Qed.

Lemma getItem_removed (k : string) (l : list (string * string)) :
  getItem k (filter (fun kv => negb (fst kv =? k)%string) l) = None.
Proof.
  induction l as [| [k' v] l IH]; cbn; [reflexivity | ].
  destruct (k' =? k)%string eqn:E; cbn; [exact IH | ].
  rewrite E. exact IH.
Qed.

Lemma getItem_removed_other (k k' : string) (l : list (string * string)) :
  k <> k' ->
  getItem k (filter (fun kv => negb (fst kv =? k')%string) l) = getItem k l.
Proof.
  intros Hne. induction l as [| [k0 v] l IH]; cbn; [reflexivity | ].
  destruct (String.eqb_spec k0 k') as [-> | Hk0]; cbn.
  - destruct (String.eqb_spec k' k); [congruence | exact IH].
  - destruct (k0 =? k)%string; [reflexivity | exact IH].
Qed.

(** X17.  Round trip of the draft in localStorage: after the
    subscriber of form.watch saved the values, the effect run on the
    next mount puts the same values back into the form, provided
    JSON.parse reads the saved text back (a field left undefined is not
    part of the text). *)
Theorem draft_survives_reload (v : PatientFormValues) (f0 : Form) (w : World) :
  parses_to (JObj (toObject v)) (JObj (defined (toObject v))) ->
  let w1 := exec (watch (toObject v)) w in
  let t' := exec onMount (f0, w1) in
  shows (fst t') v
  /\ isSubmitting (fst t') = isSubmitting f0
  /\ JSON_stringify (JObj (toObject v))
     = getItem STORAGE_KEY (localStorage (snd t'))
  /\ snd t' = w1.
Proof.
  intros Hparse w1 t'.
  destruct (stringify_values v) as [rest Htext].
  specialize (Hparse _ Htext).
  assert (Hw1 : w1 = with_localStorage
                       (setItem_ STORAGE_KEY (String "{" rest)) w).
  { subst w1. apply (post_exec _ _ (fun w' => w' = _)).
    unfold watch, saveFormData. repeat open_step. reflexivity. }
  subst t'. rewrite Hw1. clear Hw1 w1.
  apply (post_exec _ _ (fun t =>
           shows (fst t) v /\ isSubmitting (fst t) = _
           /\ _ = getItem STORAGE_KEY (localStorage (snd t)) /\ snd t = _)).
  unfold onMount.
  open_step. open_step. rewrite getItem_setItem.
  repeat open_step.
  cbn [SqlConsole.as_object].
  rewrite ofObject_defined, Htext, getItem_setItem.
  repeat split.
Qed.

(** X18.  handleClearForm empties the form, removes the draft from
    localStorage and nothing else from it, leaves the store alone and
    shows one notice; a later mount then restores nothing. *)
Theorem handleClearForm_drops_draft (f : Form) (w : World) :
  let t' := exec handleClearForm (f, w) in
  shows (fst t') defaultValues
  /\ getItem STORAGE_KEY (localStorage (snd t')) = None
  /\ (forall k, k <> STORAGE_KEY ->
        getItem k (localStorage (snd t')) = getItem k (localStorage w))
  /\ store (snd t') = store w
  /\ toasts (snd t')
     = toasts w
       ++ [mkToast false "Form cleared" "The patient form has been reset."]
  /\ forall f0, onMount (f0, snd t') = (Ok tt, (f0, snd t')).
Proof.
  intros t'. subst t'.
  apply (post_exec _ _ (fun t =>
           shows (fst t) defaultValues
           /\ getItem STORAGE_KEY (localStorage (snd t)) = None
           /\ (forall k, k <> STORAGE_KEY ->
                 getItem k (localStorage (snd t)) = _)
           /\ store (snd t) = _ /\ toasts (snd t) = _
           /\ forall f0, onMount (f0, snd t) = (Ok tt, (f0, snd t)))).
  unfold handleClearForm.
  repeat open_step.
  split; [split; reflexivity | ].
  split; [apply getItem_removed | ].
  split; [intros k Hk; apply getItem_removed_other, Hk | ].
  split; [reflexivity | ]. split; [reflexivity | ].
  intros f0. unfold onMount, bind, get_state. cbn [fst snd localStorage].
  rewrite getItem_removed. reflexivity.
Qed.

End Drafts.

Section StoredDrafts.
Import Js db PatientForm PatientFormPersisted Spec.
Context `{Host}.

Lemma merged_draft (v : PatientFormValues) :
  ofObject
    (set "gender"
       (nullish_or (get "gender" (defined (toObject v))) (JStr ""))
       (spread DEFAULT_VALUES (defined (toObject v))))
  = filled v.
Proof.
  destruct v as [a b c d e f g h i j k l].
  destruct e, h, i, l; reflexivity.
Qed.

Lemma loadFormData_nothing (f0 : Form) (w : World) :
  stored FORM_ID (form_persistence (store w)) = None ->
  loadFormData Pglite false (f0, w)
  = (Ok tt, (f0, send (SelectForm FORM_ID) w)).
Proof.
  unfold stored. intros Hgone.
  unfold loadFormData, bind, try_catch, inWorld, select_form.
  cbn [is_null orb fst snd].
  destruct (select FORM_ID (form_persistence (store w)));
    [reflexivity | discriminate Hgone].
Qed.

(** X19.  Round trip of the draft in the store: after saveFormData,
    loadFormData puts the saved values back into the form, with the
    empty text for every optional field that was left out, provided
    JSON.parse reads the saved text back; [patients] and the settings of
    the console are untouched. *)
Theorem stored_draft_survives_reload (v : PatientFormValues) (now : string)
  (f0 : Form) (w : World) :
  parses_to (JObj (toObject v)) (JObj (defined (toObject v))) ->
  let w1 := exec (saveFormData Pglite (toObject v) now) w in
  let t' := exec (loadFormData Pglite false) (f0, w1) in
  shows (fst t') (filled v)
  /\ isSubmitting (fst t') = isSubmitting f0
  /\ stored FORM_ID (form_persistence (store w1))
     = JSON_stringify (JObj (toObject v))
  /\ patients (store (snd t')) = patients (store w)
  /\ sql_settings (store (snd t')) = sql_settings (store w).
Proof.
  intros Hparse w1 t'.
  destruct (stringify_values v) as [rest Htext].
  specialize (Hparse _ Htext).
  assert (Hw1 : w1 = snd (saveToPGlite Pglite "form_persistence" FORM_ID
                            (JObj (toObject v)) now w)).
  { subst w1. unfold saveFormData, exec, try_catch. cbn [is_null].
    rewrite (saveToPGlite_form FORM_ID (JObj (toObject v)) _ now w Htext).
    reflexivity. }
  rewrite (saveToPGlite_form FORM_ID (JObj (toObject v)) _ now w Htext)
    in Hw1.
  cbn [snd] in Hw1.
  subst t'. rewrite Hw1. clear Hw1 w1.
  pose proof (stored_upsert_same FORM_ID (String "{" rest) now
                (form_persistence (store w))) as Hst.
  destruct (stored_select _ _ _ Hst) as [others Hsel].
  apply (post_exec _ _ (fun t =>
           shows (fst t) (filled v) /\ isSubmitting (fst t) = _
           /\ _ /\ patients (store (snd t)) = _
           /\ sql_settings (store (snd t)) = _)).
  unfold loadFormData.
  repeat open_step.
  cbn [SqlConsole.as_object]. rewrite merged_draft, Htext.
  repeat split. exact Hst.
Qed.

(** X20.  clearForm empties the form (so that isFormEmpty holds),
    deletes the stored draft of this form and of no other, and posts one
    message; loadFormData then finds nothing to restore, and a tab that
    handles the message empties its form too. *)
Theorem clearForm_reaches_other_tab (showToast : bool) (clock : Clock)
  (f : Form) (w : World) (b : View) :
  channel w = ChannelOpen ->
  let a' := exec (clearForm Pglite showToast clock) (f, w) in
  shows (fst a') defaultValues
  /\ isFormEmpty (toObject (fields (fst a'))) = true
  /\ stored FORM_ID (form_persistence (store (snd a'))) = None
  /\ (forall k, (k =? FORM_ID)%string = false ->
        stored k (form_persistence (store (snd a')))
        = stored k (form_persistence (store w)))
  /\ (forall f0, loadFormData Pglite false (f0, snd a')
                 = (Ok tt, (f0, send (SelectForm FORM_ID) (snd a'))))
  /\ exists message,
       posted (snd a') = posted w ++ [message]
       /\ let b' := exec (handleDbChange message) b in
          shows (fst b') defaultValues /\ snd b' = snd b.
Proof.
  intros Hopen a'. subst a'.
  apply (post_exec _ _ (fun t =>
           shows (fst t) defaultValues
           /\ isFormEmpty (toObject (fields (fst t))) = true
           /\ stored FORM_ID (form_persistence (store (snd t))) = None
           /\ (forall k, (k =? FORM_ID)%string = false ->
                 stored k (form_persistence (store (snd t))) = _)
           /\ (forall f0, loadFormData Pglite false (f0, snd t)
                          = (Ok tt, (f0, send (SelectForm FORM_ID) (snd t))))
           /\ exists message, posted (snd t) = posted w ++ [message] /\ _)).
  unfold clearForm.
  repeat open_step.
  all: split; [split; reflexivity | ].
  all: split; [reflexivity | ].
  all: assert (Hgone : stored FORM_ID (delete [FORM_ID] (form_persistence (store w)))
                       = None)
         by (rewrite stored_delete; reflexivity).
  all: split; [exact Hgone | ].
  all: split;
    [ intros k Hk; rewrite stored_delete; unfold includes; cbn [existsb];
      rewrite Hk; reflexivity | ].
  all: split; [intros f0; apply loadFormData_nothing; exact Hgone | ].
  all: eexists; split; [reflexivity | ].
  all: destruct b as [fB wB]; split; [split; reflexivity | reflexivity].
Qed.

Ltac submit_params values uuid clock :=
  unfold patientToSqlParams; cbn [is_null orb];
  cbn [id db.firstName db.lastName db.dateOfBirth db.gender db.email
       db.phone db.address db.insuranceProvider db.insuranceNumber
       db.medicalConditions db.medications db.allergies db.createdAt
       db.updatedAt];
  rewrite !or_empty_Some;
  fold (submitted_params values uuid (iso clock)).

(** X21.  In the form that keeps its draft in the store, a successful
    submission leaves, whatever the state of the channel, no stored
    draft of this form, the drafts of other forms as they were, and the
    form empty; loadFormData run on the state it leaves restores
    nothing.  (What the subscribers of form.watch save later, in a task
    of their own, is not part of this state.) *)
Theorem submitted_draft_is_dropped (values : PatientFormValues)
  (uuid : string) (clock : Clock) (f : Form) (w : World) :
  has_id uuid (patients (store w)) = false ->
  let t' := exec (PatientFormPersisted.onSubmit Pglite false values uuid
                    clock) (f, w) in
  stored FORM_ID (form_persistence (store (snd t'))) = None
  /\ (forall k, (k =? FORM_ID)%string = false ->
        stored k (form_persistence (store (snd t')))
        = stored k (form_persistence (store w)))
  /\ shows (fst t') defaultValues
  /\ isSubmitting (fst t') = false
  /\ forall f0, fst (exec (loadFormData Pglite false) (f0, snd t')) = f0.
Proof.
  intros Hfresh t'. subst t'.
  apply (post_exec _ _ (fun t =>
           stored FORM_ID (form_persistence (store (snd t))) = None
           /\ (forall k, (k =? FORM_ID)%string = false ->
                 stored k (form_persistence (store (snd t))) = _)
           /\ shows (fst t) defaultValues
           /\ isSubmitting (fst t) = false
           /\ forall f0,
                fst (exec (loadFormData Pglite false) (f0, snd t)) = f0)).
  unfold PatientFormPersisted.onSubmit, clearForm.
  submit_params values uuid clock.
  repeat open_step;
    match goal with
    | Hins : insert_patient _ _ = _ |- _ =>
        rewrite (insert_submitted values uuid (iso clock) _ Hfresh) in Hins;
        inversion Hins; subst
    end.
  all: assert (Hgone : stored FORM_ID
                         (delete [FORM_ID] (form_persistence (store w)))
                       = None)
         by (rewrite stored_delete; reflexivity).
  all: split; [exact Hgone | ].
  all: split;
    [ intros k Hk; rewrite stored_delete; unfold includes; cbn [existsb];
      rewrite Hk; reflexivity | ].
  all: split; [split; reflexivity | ].
  all: split; [reflexivity | ].
  all: intros f0; unfold exec; rewrite loadFormData_nothing;
    [reflexivity | exact Hgone].
Qed.

End StoredDrafts.

(** ** Reading back what was saved *)

Section ReadBack.
Import Js db Spec.

Lemma stored_upsert_apart (k k' v now : string) (t : list Entry) :
  k <> k' -> stored k (upsert k' v now t) = stored k t.
Proof.
  intros Hne. apply stored_upsert_other. apply String.eqb_neq. congruence.
Qed.

(** X22.  What saveToPGlite writes can be read back: after a call on
    one of the two tables with a value that serialises, the table holds
    the text of the value under the key; every other key of the table,
    the other table and [patients] hold what they held. *)
Theorem saveToPGlite_reads_back (tableName key : string) (value : Value)
  (text now : string) (w : World) :
  managed tableName ->
  stringValue value = Some text ->
  let w' := exec (saveToPGlite Pglite tableName key value now) w in
  stored key (table tableName (store w')) = Some text
  /\ (forall k, k <> key ->
        stored k (table tableName (store w'))
        = stored k (table tableName (store w)))
  /\ (forall other, other <> tableName ->
        table other (store w') = table other (store w))
  /\ patients (store w') = patients (store w).
Proof.
  intros [-> | ->] Htext w'; subst w'; unfold exec.
  - rewrite (saveToPGlite_form key value text now w Htext).
    cbn [snd store table String.eqb Ascii.eqb Bool.eqb form_persistence
         sql_settings patients].
    split; [apply stored_upsert_same | ].
    split; [intros k Hk; apply stored_upsert_apart, Hk | ].
    split; [ | reflexivity].
    intros other Hother. unfold table.
    destruct (String.eqb_spec other "form_persistence"); [congruence | ].
    reflexivity.
  - rewrite (saveToPGlite_settings key value text now w Htext).
    cbn [snd store table String.eqb Ascii.eqb Bool.eqb form_persistence
         sql_settings patients].
    split; [apply stored_upsert_same | ].
    split; [intros k Hk; apply stored_upsert_apart, Hk | ].
    split; [ | reflexivity].
    intros other Hother. unfold table.
    destruct (String.eqb_spec other "form_persistence"); [reflexivity | ].
    destruct (String.eqb_spec other "sql_settings"); [congruence | ].
    reflexivity.
Qed.

End ReadBack.

Section Mount.
Import Js db SqlConsole Spec.
Context `{Host}.

(** The text of the console after the hydration on mount is the stored
    one, whatever the other settings hold. *)
Lemma loadSavedData_text (c : Console) (w : World) (query : string) :
  stored "last_query" (sql_settings (store w)) = Some query ->
  sql (fst (exec (SqlConsolePersisted.loadSavedData Pglite) (c, w))) = query.
Proof.
  intros Hq. apply stored_select in Hq. destruct Hq as [others Hq].
  apply (post_exec _ _ (fun t => sql (fst t) = query)).
  unfold SqlConsolePersisted.loadSavedData.
  repeat open_step; reflexivity.
Qed.

(** X23.  The autosaved text survives a reload: after a run of edits
    and a quiet period, when the last text is not empty, the store holds
    it under [last_query], and a console mounted afterwards starts with
    that text, whatever the other settings hold. *)
Theorem autosaved_text_survives_reload (toISOString : Z -> string)
  (edits : list (Z * string)) (t0 : Z)
  (timer : option SqlConsolePersisted.Timer) (c : Console) (w : World)
  (quiet : Z) (c0 : Console) :
  edits <> [] ->
  burst t0 (sql c) edits ->
  not_due_soon t0 timer ->
  SqlConsolePersisted.delay <= quiet ->
  snd (last_edit t0 (sql c) edits) <> "" ->
  let s' := exec (settle Pglite toISOString edits quiet) (timer, (c, w)) in
  stored "last_query" (sql_settings (store (snd (snd s'))))
  = Some (snd (last_edit t0 (sql c) edits))
  /\ sql (fst (exec (SqlConsolePersisted.loadSavedData Pglite)
                 (c0, snd (snd s'))))
     = snd (last_edit t0 (sql c) edits).
Proof.
  intros Hne Hburst Hdue Hquiet Htext s'.
  assert (Hs : stored "last_query" (sql_settings (store (snd (snd s'))))
               = Some (snd (last_edit t0 (sql c) edits))).
  { subst s'.
    rewrite (settle_run toISOString edits t0 timer c w quiet Hne Hburst Hdue
               Hquiet).
    cbn [snd].
    destruct (String.eqb_spec (snd (last_edit t0 (sql c) edits)) "")
      as [E | _]; [contradiction | ].
    unfold exec.
    rewrite (saveToPGlite_settings "last_query"
               (JStr (snd (last_edit t0 (sql c) edits)))
               (snd (last_edit t0 (sql c) edits)) _ w eq_refl).
    cbn [snd store sql_settings]. apply stored_upsert_same. }
  split; [exact Hs | ].
  apply loadSavedData_text. exact Hs.
Qed.

(** The hydration alone, on a store with no setting. *)
Lemma loadSavedData_no_setting (c : Console) (w : World) (persisted : bool) :
  sql_settings (store w) = [] ->
  let t' :=
    exec (if persisted then SqlConsolePersisted.loadSavedData Pglite
          else SqlConsole.loadSavedData Pglite) (c, w) in
  fst t' = with_sql c "SELECT * FROM patients;"
  /\ store (snd t') = store w
  /\ console_error (snd t') = console_error w
  /\ toasts (snd t') = toasts w
  /\ posted (snd t') = posted w
  /\ channel (snd t') = channel w
  /\ localStorage (snd t') = localStorage w
  /\ query_writes (issued (snd t')) = query_writes (issued w).
Proof.
  intros Hempty t'. subst t'.
  assert (Hsel : forall k, select k (sql_settings (store w)) = [])
    by (intros k; rewrite Hempty; reflexivity).
  pose proof (Hsel "last_query") as Hq.
  pose proof (Hsel "last_results") as Hr.
  pose proof (Hsel "last_columns") as Hc.
  pose proof (Hsel "last_headers") as Hh.
  pose proof (Hsel "sql_history") as Hs.
  apply (post_exec _ _ (fun t =>
           fst t = _ /\ store (snd t) = _ /\ console_error (snd t) = _
           /\ toasts (snd t) = _ /\ posted (snd t) = _
           /\ channel (snd t) = _ /\ localStorage (snd t) = _
           /\ query_writes (issued (snd t)) = _)).
  destruct persisted.
  - unfold SqlConsolePersisted.loadSavedData.
    repeat open_step. repeat split.
    unfold query_writes. rewrite !filter_app. cbn [filter]. 
    rewrite !app_nil_r. reflexivity.
  - unfold SqlConsole.loadSavedData.
    repeat open_step. repeat split.
    unfold query_writes. rewrite !filter_app. cbn [filter].
    rewrite !app_nil_r. reflexivity.
Qed.

(** The hydration never throws: its handler takes every exception. *)
Lemma loadSavedData_returns (t0 : Tab) :
  fst (SqlConsolePersisted.loadSavedData Pglite t0) = Ok tt.
Proof.
  change (post (SqlConsolePersisted.loadSavedData Pglite) t0
            (fun r _ => r = Ok tt)).
  unfold SqlConsolePersisted.loadSavedData.
  repeat open_step; reflexivity.
Qed.

(** The effect run on mount, when the hydration changes the text to a
    text that is not empty: the timer of the autosave is left pending. *)
Lemma hydrate_run (c : Console) (w : World) (t : Z) :
  let t' := exec (SqlConsolePersisted.loadSavedData Pglite) (c, w) in
  sql (fst t') <> sql c ->
  sql (fst t') <> "" ->
  exec (SqlConsolePersisted.hydrate Pglite false t) (None, (c, w))
  = (Some (SqlConsolePersisted.mkTimer (t + SqlConsolePersisted.delay)
             (sql (fst t'))), t').
Proof.
  intros t' Hchanged Hfilled. subst t'.
  pose proof (loadSavedData_returns (c, w)) as Hok.
  unfold exec in *.
  unfold SqlConsolePersisted.hydrate. cbn [is_null orb].
  unfold bind at 1, get_state. cbn [fst snd].
  unfold bind at 1, SqlConsolePersisted.inTab. cbn [fst snd].
  destruct (SqlConsolePersisted.loadSavedData Pglite (c, w)) as [r t'].
  cbn [fst snd] in *. subst r.
  unfold bind at 1, get_state. cbn [fst snd].
  destruct (String.eqb_spec (sql c) (sql (fst t'))) as [E | _];
    [congruence | ].
  destruct (String.eqb_spec (sql (fst t')) "") as [E | _];
    [contradiction | ].
  unfold bind, SqlConsolePersisted.setTimer, modify.
  cbn [fst snd negb andb is_null]. reflexivity.
Qed.

(** X24.  First run, on a store with no setting.  The hydration of
    either console sets the text to [SELECT * FROM patients;] and
    changes nothing else of the state; by itself it writes nothing to
    the store and logs, posts and notifies nothing.  In the console
    that persists, this change of the text runs the effect on [sql, db]
    again: a timer is left pending, and when the delay has passed the
    text is written under [last_query], by one upsert, [patients] being
    left alone.  The console of SqlConsole.tsx has no such effect. *)
Theorem first_mount_default (c : Console) (w : World)
  (toISOString : Z -> string) (t : Z) :
  sql_settings (store w) = [] ->
  sql c <> "SELECT * FROM patients;" ->
  (let t' := exec (SqlConsole.loadSavedData Pglite) (c, w) in
   fst t' = with_sql c "SELECT * FROM patients;"
   /\ store (snd t') = store w
   /\ console_error (snd t') = console_error w
   /\ toasts (snd t') = toasts w
   /\ posted (snd t') = posted w)
  /\ (let s1 := exec (SqlConsolePersisted.hydrate Pglite false t)
                  (None, (c, w)) in
      fst (snd s1) = with_sql c "SELECT * FROM patients;"
      /\ store (snd (snd s1)) = store w
      /\ console_error (snd (snd s1)) = console_error w
      /\ toasts (snd (snd s1)) = toasts w
      /\ posted (snd (snd s1)) = posted w
      /\ fst s1
         = Some (SqlConsolePersisted.mkTimer (t + SqlConsolePersisted.delay)
                   "SELECT * FROM patients;")
      /\ let s2 := exec (SqlConsolePersisted.elapse Pglite toISOString
                           (t + SqlConsolePersisted.delay)) s1 in
         fst s2 = None
         /\ fst (snd s2) = with_sql c "SELECT * FROM patients;"
         /\ sql_settings (store (snd (snd s2)))
            = [mkEntry "last_query" "SELECT * FROM patients;"
                 (toISOString (t + SqlConsolePersisted.delay))]
         /\ patients (store (snd (snd s2))) = patients (store w)
         /\ query_writes (issued (snd (snd s2)))
            = query_writes (issued w)
              ++ [UpsertSetting "last_query" "SELECT * FROM patients;"
                    (toISOString (t + SqlConsolePersisted.delay))]).
Proof.
  intros Hempty Hother. split.
  - destruct (loadSavedData_no_setting c w false Hempty)
      as [Hc [Hs [He [Ht [Hp _]]]]].
    repeat split; assumption.
  - destruct (loadSavedData_no_setting c w true Hempty)
      as [Hc [Hs [He [Ht [Hp [_ [_ Hq]]]]]]].
    cbv zeta.
    rewrite (hydrate_run c w t);
      [ | rewrite Hc; cbn [sql with_sql]; congruence
        | rewrite Hc; cbn [sql with_sql]; discriminate ].
    remember (exec (SqlConsolePersisted.loadSavedData Pglite) (c, w))
      as t1 eqn:Et1.
    destruct t1 as [c1 w1]. cbn [fst snd] in *. subst c1.
    cbn [sql with_sql].
    repeat (split; [assumption || reflexivity | ]).
    unfold exec, SqlConsolePersisted.elapse, bind, get_state.
    cbn [fst snd SqlConsolePersisted.due SqlConsolePersisted.captured].
    destruct (Z.leb_spec (t + SqlConsolePersisted.delay)
                (t + SqlConsolePersisted.delay)) as [_ | Hlt]; [ | lia].
    unfold SqlConsolePersisted.setTimer, modify, SqlConsolePersisted.inTab,
      inWorld, SqlConsolePersisted.autosave, try_catch.
    cbn [fst snd].
    rewrite (saveToPGlite_settings "last_query"
               (JStr "SELECT * FROM patients;") "SELECT * FROM patients;"
               _ w1 eq_refl).
    cbn [fst snd store sql_settings patients issued].
    rewrite Hs, Hempty.
    split; [reflexivity | ]. split; [reflexivity | ].
    split; [reflexivity | ]. split; [reflexivity | ].
    unfold query_writes in *. rewrite filter_app, Hq. reflexivity.
Qed.

End Mount.

Section Empty.
Import Js db PatientForm PatientFormPersisted Spec.

(** X25.  isFormEmpty holds of the watched values exactly when every
    field is the empty text; an optional field that is undefined makes
    it false. *)
Theorem isFormEmpty_iff (v : PatientFormValues) :
  isFormEmpty (toObject v) = true <-> v = defaultValues.
Proof.
  split.
  - destruct v as [a b c d e f g h i j k l].
    unfold isFormEmpty, toObject, DEFAULT_VALUES.
    cbn [forallb get fst snd String.eqb Ascii.eqb Bool.eqb is_text
         firstName lastName dateOfBirth gender email phone address
         insuranceProvider insuranceNumber medicalConditions medications
         allergies text_or_undefined].
    intros Hall.
    repeat match type of Hall with
           | (_ && _)%bool = true =>
               apply andb_true_iff in Hall;
               let H1 := fresh "E" in destruct Hall as [H1 Hall]
           end.
    destruct e as [e | ]; [ | discriminate].
    destruct h as [h | ]; [ | discriminate].
    destruct i as [i | ]; [ | discriminate].
    destruct l as [l | ]; [ | discriminate].
    cbn [is_text text_or_undefined] in *.
    repeat match goal with
           | E : (_ =? "")%string = true |- _ =>
               apply String.eqb_eq in E; subst
           end.
    reflexivity.
  - intros ->. reflexivity.
Qed.

End Empty.

(** ** The further properties on the examples *)

Section FurtherExamples.
Import Js db SqlConsole Spec Examples.

Lemma mapRowToPatient_inserted_witness :
  map mapRowToPatient (map Sample.patient_object [Sample.jane])
  = [patient_fields (patient_of_row Sample.jane)].
Proof.
  exact (mapRowToPatient_inserted (patient_of_row Sample.jane) []
           [Sample.jane] eq_refl).
Defined.

Lemma executeQuery_headers_witness :
  header
    (fst (exec (@SqlConsolePersisted.executeQuery Sample.host Pglite false
                  Sample.noon 3)
            (columns_example_console, columns_example_world)))
    "date_of_birth"
  = JStr (formatColumnHeader "date_of_birth").
Proof.
  apply (@executeQuery_headers Sample.host columns_example_console
           columns_example_world Sample.noon 3
           (mkQueryResult (Some [Sample.patient_object Sample.jane]) None)
           (mkStore [Sample.jane] [] [])
           (Sample.patient_object Sample.jane) [] true
           eq_refl eq_refl eq_refl).
  vm_compute. tauto.
Defined.

Lemma history_stays_bounded_witness :
  history_ok
    (sqlHistory
       (App.console
          (@App.perform Sample.host (App.QueryExecuted true Sample.noon 3)
             ready_example_state))).
Proof.
  apply (@history_stays_bounded Sample.host
           (App.QueryExecuted true Sample.noon 3) ready_example_state eq_refl).
  split; [constructor | simpl; lia].
Defined.

(** The host of the examples reads back a value it was given. *)
Ltac reads :=
  let text := fresh "text" in
  let Ht := fresh "Ht" in
  intros text Ht; vm_compute in Ht; injection Ht as <-; vm_compute;
  reflexivity.

Lemma results_reach_other_tab_witness :
  exists message,
    posted (snd shown_example_tab) = posted columns_example_world ++ [message]
    /\ results
         (fst (exec (@SqlConsolePersisted.handleDbChange reading_host Pglite
                       false Sample.noon 3 message) other_example_tab))
       = results (fst shown_example_tab).
Proof.
  assert (Hr : @reads_back reading_host (JArr (map JObj shown_example_rows)))
    by reads.
  assert (Hc : @reads_back reading_host
                 (JArr (map JStr shown_example_columns))) by reads.
  assert (Hh : @reads_back reading_host (JObj shown_example_headers))
    by reads.
  assert (Ht : JSON_stringify (JArr (map JObj shown_example_rows))
               = Some (Sample.text_of (JArr (map JObj shown_example_rows))))
    by (vm_compute; reflexivity).
  destruct (@results_reach_other_tab reading_host columns_example_console
              columns_example_world Sample.noon 3
              (mkQueryResult (Some [Sample.patient_object Sample.jane]) None)
              (mkStore [Sample.jane] [] [])
              (Sample.patient_object Sample.jane) []
              (Sample.text_of (JArr (map JObj shown_example_rows)))
              other_example_tab Sample.noon 3
              eq_refl eq_refl eq_refl eq_refl Ht Hr Hc Hh eq_refl)
    as [message [Hposted [Hresults _]]].
  exists message. split; [exact Hposted | exact Hresults].
Defined.

Lemma mount_restores_last_run_witness :
  sqlHistory
    (fst (exec (@SqlConsolePersisted.loadSavedData reading_host Pglite)
            other_example_tab))
  = sqlHistory (fst shown_example_tab).
Proof.
  assert (Hr : @reads_back reading_host (JArr (map JObj shown_example_rows)))
    by reads.
  assert (Hc : @reads_back reading_host
                 (JArr (map JStr shown_example_columns))) by reads.
  assert (Hh : @reads_back reading_host (JObj shown_example_headers))
    by reads.
  assert (Hs : @reads_back reading_host
                 (JArr (map JStr
                          (pushHistory (sql columns_example_console)
                             (sqlHistory columns_example_console)))))
    by reads.
  assert (Ht : JSON_stringify (JArr (map JObj shown_example_rows))
               = Some (Sample.text_of (JArr (map JObj shown_example_rows))))
    by (vm_compute; reflexivity).
  exact (proj2 (proj2 (proj2
    (@mount_restores_last_run reading_host columns_example_console
       columns_example_world Sample.noon 3
       (mkQueryResult (Some [Sample.patient_object Sample.jane]) None)
       (mkStore [Sample.jane] [] [])
       (Sample.patient_object Sample.jane) []
       (Sample.text_of (JArr (map JObj shown_example_rows)))
       other_example_tab
       eq_refl eq_refl eq_refl eq_refl Ht Hr Hc Hh Hs eq_refl)))).
Defined.

Lemma empty_result_clears_witness :
  results
    (fst (exec (@SqlConsolePersisted.executeQuery Sample.host Pglite false
                  Sample.noon 3)
            (delete_example_console, columns_example_world)))
  = [].
Proof.
  exact (proj1
    (@empty_result_clears Sample.host delete_example_console
       columns_example_world Sample.noon 3
       (mkQueryResult (Some []) None) (mkStore [] [] []) true
       eq_refl eq_refl eq_refl)).
Defined.

Lemma reset_reaches_other_tab_witness :
  resultColumns
    (fst (exec (SqlConsolePersisted.resetResults Pglite Sample.noon)
            (delete_example_console, columns_example_world)))
  = [].
Proof.
  exact (proj1 (proj2 (proj1
    (@reset_reaches_other_tab Sample.host delete_example_console
       columns_example_world Sample.noon
       (delete_example_console, columns_example_world) Sample.noon 3
       eq_refl)))).
Defined.

Lemma handleDbChange_ignores_witness :
  @SqlConsolePersisted.handleDbChange Sample.host Pglite false Sample.noon 3
    other_example_message (delete_example_console, columns_example_world)
  = (Ok tt, (delete_example_console, columns_example_world)).
Proof.
  apply (@handleDbChange_ignores Sample.host Pglite false Sample.noon 3
           other_example_message
           (delete_example_console, columns_example_world)).
  - discriminate.
  - discriminate.
  - discriminate.
Defined.

Lemma registration_refreshes_console_witness :
  exists message,
    posted
      (snd (exec (PatientForm.onSubmit Pglite false submit_example_values
                    "p2" Sample.noon)
              (submit_example_form, columns_example_world)))
    = posted columns_example_world ++ [message]
    /\ results
         (fst (exec (@SqlConsolePersisted.handleDbChange Sample.host Pglite
                       false Sample.noon 3 message)
                 (columns_example_console,
                  Sample.world_of
                    (mkStore
                       [Sample.jane;
                        submitted_row submit_example_values "p2"
                          (iso Sample.noon)] [] []))))
       = @processedResults Sample.host (today Sample.noon)
           (map Sample.patient_object
              [Sample.jane;
               submitted_row submit_example_values "p2" (iso Sample.noon)]).
Proof.
  exact (@registration_refreshes_console Sample.host submit_example_values
           "p2" Sample.noon submit_example_form columns_example_world
           columns_example_console
           (Sample.world_of
              (mkStore
                 [Sample.jane;
                  submitted_row submit_example_values "p2" (iso Sample.noon)]
                 [] []))
           Sample.noon 3 None
           eq_refl eq_refl eq_refl eq_refl eq_refl eq_refl).
Defined.

Lemma onSubmit_duplicate_id_witness :
  store
    (snd (exec (PatientForm.onSubmit Pglite false submit_example_values "p1"
                  Sample.noon)
            (submit_example_form, columns_example_world)))
  = store columns_example_world.
Proof.
  exact (proj1
    (onSubmit_duplicate_id submit_example_values "p1" Sample.noon
       submit_example_form columns_example_world false eq_refl)).
Defined.

Lemma onSubmit_without_channel_witness :
  posted
    (snd (exec (PatientForm.onSubmit Pglite false submit_example_values "p2"
                  Sample.noon)
            (submit_example_form, offline_world)))
  = posted offline_world.
Proof.
  apply (onSubmit_without_channel submit_example_values "p2" Sample.noon
           submit_example_form offline_world false eq_refl).
  discriminate.
Defined.

Lemma draft_survives_reload_witness :
  shows
    (fst (exec (@PatientForm.onMount reading_host)
            (submit_example_form,
             exec (PatientForm.watch
                     (PatientForm.toObject submit_example_values))
               columns_example_world)))
    submit_example_values.
Proof.
  assert (Hd : @parses_to reading_host
                 (JObj (PatientForm.toObject submit_example_values))
                 (JObj (defined (PatientForm.toObject submit_example_values))))
    by reads.
  exact (proj1
    (@draft_survives_reload reading_host submit_example_values
       submit_example_form columns_example_world Hd)).
Defined.

Lemma stored_draft_survives_reload_witness :
  shows
    (fst (exec (@PatientFormPersisted.loadFormData reading_host Pglite false)
            (submit_example_form,
             exec (PatientFormPersisted.saveFormData Pglite
                     (PatientForm.toObject submit_example_values)
                     (iso Sample.noon))
               columns_example_world)))
    (filled submit_example_values).
Proof.
  assert (Hd : @parses_to reading_host
                 (JObj (PatientForm.toObject submit_example_values))
                 (JObj (defined (PatientForm.toObject submit_example_values))))
    by reads.
  exact (proj1
    (@stored_draft_survives_reload reading_host submit_example_values
       (iso Sample.noon) submit_example_form columns_example_world Hd)).
Defined.

Lemma clearForm_reaches_other_tab_witness :
  stored PatientFormPersisted.FORM_ID
    (form_persistence
       (store
          (snd (exec (PatientFormPersisted.clearForm Pglite true Sample.noon)
                  (submit_example_form, draft_example_world)))))
  = None.
Proof.
  exact (proj1 (proj2 (proj2
    (@clearForm_reaches_other_tab Sample.host true Sample.noon
       submit_example_form draft_example_world
       (submit_example_form, draft_example_world) eq_refl)))).
Defined.

Lemma submitted_draft_is_dropped_witness :
  stored PatientFormPersisted.FORM_ID
    (form_persistence
       (store
          (snd (exec (PatientFormPersisted.onSubmit Pglite false
                        submit_example_values "p2" Sample.noon)
                  (submit_example_form, draft_example_world)))))
  = None.
Proof.
  exact (proj1
    (@submitted_draft_is_dropped Sample.host submit_example_values "p2"
       Sample.noon submit_example_form draft_example_world eq_refl)).
Defined.

Lemma saveToPGlite_reads_back_witness :
  stored "last_query"
    (table "sql_settings"
       (store
          (exec (saveToPGlite Pglite "sql_settings" "last_query"
                   (JStr "SELECT 1") (iso Sample.noon))
             columns_example_world)))
  = Some "SELECT 1".
Proof.
  exact (proj1
    (saveToPGlite_reads_back "sql_settings" "last_query" (JStr "SELECT 1")
       "SELECT 1" (iso Sample.noon) columns_example_world
       (or_intror eq_refl) eq_refl)).
Defined.

Lemma autosaved_text_survives_reload_witness :
  sql
    (fst (exec (@SqlConsolePersisted.loadSavedData Sample.host Pglite)
            (initial,
             snd (snd (exec (settle Pglite Js.decimal typed_twice 500)
                         (None,
                          (initial, Sample.world_of Sample.empty_store)))))))
  = "SE".
Proof.
  assert (Hne : typed_twice <> []) by discriminate.
  assert (Hburst : burst 0 (sql initial) typed_twice).
  { simpl. unfold SqlConsolePersisted.delay. repeat split; try lia;
      discriminate. }
  assert (Hquiet : SqlConsolePersisted.delay <= 500)
    by (unfold SqlConsolePersisted.delay; lia).
  assert (Htext : snd (last_edit 0 (sql initial) typed_twice) <> "")
    by discriminate.
  exact (proj2
    (@autosaved_text_survives_reload Sample.host Js.decimal typed_twice 0
       None initial (Sample.world_of Sample.empty_store) 500 initial
       Hne Hburst I Hquiet Htext)).
Defined.

Lemma first_mount_default_witness :
  sql_settings
    (store
       (snd (snd (exec (SqlConsolePersisted.elapse Pglite Js.decimal 500)
                    (exec (@SqlConsolePersisted.hydrate Sample.host Pglite
                             false 0)
                       (None, (initial, columns_example_world)))))))
  = [mkEntry "last_query" "SELECT * FROM patients;" "500"].
Proof.
  assert (Hother : sql initial <> "SELECT * FROM patients;") by discriminate.
  exact (proj1 (proj2 (proj2 (proj2 (proj2 (proj2 (proj2 (proj2 (proj2 (proj2
    (@first_mount_default Sample.host initial columns_example_world
       Js.decimal 0 eq_refl Hother))))))))))).
Defined.

End FurtherExamples.
